(** * Diet solution search and weekly planning: a shallow embedding

    The development follows [optimization.py] (the search engine built on
    an integer-program solver) and [handlers.py] (the weekly planning
    dialogue).  Floating-point columns and targets are idealised as
    rationals ([Q]); the integer-program solver is an oracle the engine is
    parametrised by. *)

From Stdlib Require Import QArith ZArith Lia Lqa.
From Stdlib Require Ascii String.
From stdpp Require Import gmap list sorting.

Local Open Scope Q_scope.

(** ** Outcomes of running a piece of code *)

Inductive exn := KeyError | TypeError.

Inductive outcome (A : Type) :=
| Ret (a : A)
| Raise (e : exn)
| OutOfFuel.
Arguments Ret {A} a.
Arguments Raise {A} e.
Arguments OutOfFuel {A}.

(** ** Python strings and the exclusion pattern *)

(** A Python [str] is a sequence of code points. *)
Abbreviation pystr := (list N).

(** Simple lower-casing used by case-insensitive matching.  The capitals
    of Basic Latin, of Latin-1 (U+00C0..U+00DE but the multiplication
    sign), of Greek (U+0391..U+03AB) and of Cyrillic (U+0400..U+042F) are
    folded; the cased code points beyond these blocks are left alone, so
    on a text with such a capital the embedding departs from Python. *)
Definition char_lower (c : N) : N :=
  if ((65 <=? c) && (c <=? 90))%N then (c + 32)%N
  else if ((192 <=? c) && (c <=? 222) && negb (c =? 215))%N then (c + 32)%N
  else if ((913 <=? c) && (c <=? 939) && negb (c =? 930))%N then (c + 32)%N
  else if ((1040 <=? c) && (c <=? 1071))%N then (c + 32)%N
  else if ((1024 <=? c) && (c <=? 1039))%N then (c + 80)%N
  else c.

Fixpoint prefix_ci (pat s : pystr) : bool :=
  match pat, s with
  | [], _ => true
  | _ :: _, [] => false
  | p :: pat', c :: s' => (char_lower p =? char_lower c)%N && prefix_ci pat' s'
  end.

Fixpoint contains_ci (pat s : pystr) : bool :=
  prefix_ci pat s ||
  match s with
  | [] => false
  | _ :: s' => contains_ci pat s'
  end.

(** [Series.str.contains('|'.join(map(re.escape, pats)), case=False, na=False)]
    on one cell: an alternation of escaped literals is found in the cell iff
    one of the literals occurs in it; a missing cell counts as no match. *)
Definition str_contains (pats : list pystr) (cell : option pystr) : bool :=
  match cell with
  | None => false
  | Some s => existsb (fun p => contains_ci p s) pats
  end.

(** ** The catalog *)

Record Product := {
  name : option pystr;
  proteins : Q;
  fats : Q;
  carbs : Q;
  calories : Q;
  weight : Q;
  price : Q
}.

(** A frame is the list of its rows; after [reset_index(drop=True)] the
    label of a row is its position. *)
Abbreviation DataFrame := (list Product).

Record Targets := {
  proteins_target : Q;
  fats_target : Q;
  carbs_target : Q;
  daily_calories : Q
}.

(** ** Linear programs handed to the solver *)

Inductive LpStatus := NotSolved | Optimal | Infeasible | Unbounded | Undefined.

Global Instance LpStatus_eq_dec : EqDecision LpStatus.
Proof. solve_decision. Defined.

Inductive Sense := LE | GE.

Record LpConstraint := {
  c_terms : list (nat * Q);   (* lpSum of coefficient * Product_i *)
  c_sense : Sense;
  c_rhs : Q
}.

Record LpProblem := {
  lp_day : option nat;            (* the problem is named after the day *)
  lp_vars : nat;                  (* Product_0 .. Product_(n-1), Integer in [0,3] *)
  lp_objective : list (nat * Q);  (* minimised *)
  lp_constraints : list LpConstraint
}.

Definition Qsum (l : list Q) : Q := fold_right Qplus 0 l.

Definition lp_eval (terms : list (nat * Q)) (x : nat -> Z) : Q :=
  Qsum (map (fun t => snd t * inject_Z (x (fst t))) terms).

Definition constraint_holds (x : nat -> Z) (c : LpConstraint) : Prop :=
  match c_sense c with
  | LE => lp_eval (c_terms c) x <= c_rhs c
  | GE => c_rhs c <= lp_eval (c_terms c) x
  end.

Definition constraint_holdsb (x : nat -> Z) (c : LpConstraint) : bool :=
  match c_sense c with
  | LE => Qle_bool (lp_eval (c_terms c) x) (c_rhs c)
  | GE => Qle_bool (c_rhs c) (lp_eval (c_terms c) x)
  end.

Definition in_bounds (n : nat) (x : nat -> Z) : Prop :=
  forall i, (i < n)%nat -> (0 <= x i <= 3)%Z.

Definition feasible (p : LpProblem) (x : nat -> Z) : Prop :=
  in_bounds (lp_vars p) x /\ Forall (constraint_holds x) (lp_constraints p).

Definition lp_cost (p : LpProblem) (x : nat -> Z) : Q := lp_eval (lp_objective p) x.

(** ** optimization.py: the search engine *)

Module optimization.

(** A support set is a sorted tuple of row labels; the ledger of rejected
    solutions is a set of such tuples. *)
Abbreviation Ledger := (gset (list nat)).

Record Solution := {
  products : list (nat * Product * Z);  (* selected rows with their label and quantity *)
  total_cost : Q;
  quantities : list Z;
  ids : list nat
}.

Definition deviation : Q := 5 # 100.
Definition max_solutions : nat := 5.
Definition attempt_limit : nat := 50.

(** Rows of the frame paired with their labels. *)
Definition rows (df : DataFrame) : list (nat * Product) := zip (seq 0 (length df)) df.

(** [lpSum([products_df.loc[i, col] * product_vars[i] for i in products_df.index])] *)
Definition column_expr (col : Product -> Q) (df : DataFrame) : list (nat * Q) :=
  map (fun r => (fst r, col (snd r))) (rows df).

(** The eight window constraints, in the order they are added. *)
Definition nutrient_constraints (df : DataFrame) (t : Targets) : list LpConstraint :=
  [ {| c_terms := column_expr proteins df; c_sense := GE; c_rhs := proteins_target t * (1 - deviation) |};
    {| c_terms := column_expr proteins df; c_sense := LE; c_rhs := proteins_target t * (1 + deviation) |};
    {| c_terms := column_expr fats df; c_sense := GE; c_rhs := fats_target t * (1 - deviation) |};
    {| c_terms := column_expr fats df; c_sense := LE; c_rhs := fats_target t * (1 + deviation) |};
    {| c_terms := column_expr carbs df; c_sense := GE; c_rhs := carbs_target t * (1 - deviation) |};
    {| c_terms := column_expr carbs df; c_sense := LE; c_rhs := carbs_target t * (1 + deviation) |};
    {| c_terms := column_expr calories df; c_sense := GE; c_rhs := daily_calories t * (1 - deviation) |};
    {| c_terms := column_expr calories df; c_sense := LE; c_rhs := daily_calories t * (1 + deviation) |} ].

(** [lpSum([product_vars[i] for i in rejected]) <= len(rejected) - 1] *)
Definition avoid_constraint (rejected : list nat) : LpConstraint :=
  {| c_terms := map (fun i => (i, 1)) rejected;
     c_sense := LE;
     c_rhs := inject_Z (Z.of_nat (length rejected) - 1) |}.

(** [product_vars[i]] is a dictionary access: a label outside the frame
    raises [KeyError]. *)
Definition known_vars (n : nat) (rejected : list nat) : bool :=
  forallb (fun i => i <? n)%nat rejected.

Definition build_problem (df : DataFrame) (t : Targets) (rejected_solutions : Ledger)
    (day : option nat) : LpProblem :=
  {| lp_day := day;
     lp_vars := length df;
     lp_objective := column_expr price df;
     lp_constraints :=
       nutrient_constraints df t ++ map avoid_constraint (elements rejected_solutions) |}.

(** [products_df[~products_df['name'].str.contains(pattern, case=False, na=False)]],
    guarded by [if excluded_products:]. *)
Definition exclude (excluded_products : list pystr) (df : DataFrame) : DataFrame :=
  match excluded_products with
  | [] => df
  | _ :: _ => filter (fun p => negb (str_contains excluded_products (name p))) df
  end.

(** The quantity-weighted sum of a column, [(df[col] * df['quantity']).sum()]. *)
Definition weighted_sum (col : Product -> Q) (df : DataFrame) (qs : list Z) : Q :=
  Qsum (map (fun rq => col (fst rq) * inject_Z (snd rq)) (zip df qs)).

Definition selected_products (df : DataFrame) (qs : list Z) : list (nat * Product * Z) :=
  filter (fun r => (0 <? snd r)%Z) (zip (rows df) qs).

Definition sorted (l : list nat) : list nat := merge_sort le l.

(** [tuple(sorted(selected_products.index.tolist()))] *)
Definition solution_ids (df : DataFrame) (qs : list Z) : list nat :=
  sorted (map (fun r => fst (fst r)) (selected_products df qs)).

(** The dictionary built for a solution that is new. *)
Definition make_solution (df : DataFrame) (qs : list Z) : Solution :=
  {| products := selected_products df qs;
     total_cost := weighted_sum price df qs;
     quantities := qs;
     ids := solution_ids df qs |}.

(** A product of a number and a variable is an expression that keeps the
    variable only when the number is not 0, so the problem holds the
    variables of the rows with a non-zero price or nutrient column and
    those named by a rejected support set.  After a solve the other
    variables still have [varValue = None], on which [int] raises
    [TypeError]. *)
Definition priced (p : Product) : bool :=
  negb (Qeq_bool (price p) 0) || negb (Qeq_bool (proteins p) 0)
  || negb (Qeq_bool (fats p) 0) || negb (Qeq_bool (carbs p) 0)
  || negb (Qeq_bool (calories p) 0).

Definition in_problem (df : DataFrame) (rejected_solutions : Ledger) (i : nat) : bool :=
  match df !! i with
  | Some p => priced p
  | None => false
  end
  || existsb (fun rejected => bool_decide (i ∈ rejected)) (elements rejected_solutions).

Definition all_valued (df : DataFrame) (rejected_solutions : Ledger) : bool :=
  forallb (in_problem df rejected_solutions) (seq 0 (length df)).

Record LoopState := {
  solutions : list Solution;
  attempts : nat;
  rejected : Ledger
}.

Inductive Flow := Continue | Break.

Section Engine.
(** The solver: given a problem and its own state, a status and a value
    for every variable of the problem.  The variables are declared
    [Integer], so the values are integers and [int(varValue)] reads them
    back unchanged.  A variable that is not in the problem has no value:
    see [all_valued]. *)
Context {W : Type}.
Variable solve : LpProblem -> W -> LpStatus * (nat -> Z) * W.

(** The solver state together with the record of every call made to the
    solver: the problem and the status it came back with. *)
Record World := {
  oracle : W;
  solver_log : list (LpProblem * LpStatus)
}.

Definition prob_solve (p : LpProblem) (w : World) : LpStatus * (nat -> Z) * World :=
  let '(status, x, o) := solve p (oracle w) in
  (status, x, {| oracle := o; solver_log := solver_log w ++ [(p, status)] |}).

Definition loop_guard (st : LoopState) : bool :=
  (length (solutions st) <? max_solutions)%nat && (attempts st <? attempt_limit)%nat.

(** One pass through the body of the [while] loop. *)
Definition loop_body (df : DataFrame) (t : Targets) (day : option nat)
    (st : LoopState) (w : World) : outcome (LoopState * Flow * World) :=
  if negb (forallb (known_vars (length df)) (elements (rejected st))) then Raise KeyError
  else
    let prob := build_problem df t (rejected st) day in
    let '(status, x, w') := prob_solve prob w in
    match status with
    | Optimal =>
        if negb (all_valued df (rejected st)) then Raise TypeError
        else
        let quantities := map x (seq 0 (length df)) in
        let solution_ids := solution_ids df quantities in
        if decide (solution_ids ∈ rejected st) then
          Ret ({| solutions := solutions st;
                  attempts := S (attempts st);
                  rejected := rejected st |}, Continue, w')
        else
          Ret ({| solutions := solutions st ++ [make_solution df quantities];
                  attempts := S (attempts st);
                  rejected := {[ solution_ids ]} ∪ rejected st |}, Continue, w')
    | _ => Ret (st, Break, w')
    end.

Fixpoint while_loop (fuel : nat) (df : DataFrame) (t : Targets) (day : option nat)
    (st : LoopState) (w : World) : outcome (LoopState * World) :=
  if loop_guard st then
    match fuel with
    | O => OutOfFuel
    | S fuel' =>
        match loop_body df t day st w with
        | Ret (st', Continue, w') => while_loop fuel' df t day st' w'
        | Ret (st', Break, w') => Ret (st', w')
        | Raise e => Raise e
        | OutOfFuel => OutOfFuel
        end
    end
  else Ret (st, w).

(** The function returns its list of solutions; the ledger it was given
    is mutated in place, so the caller sees the new ledger as well. *)
Definition find_all_solutions (fuel : nat) (products_df : DataFrame) (t : Targets)
    (excluded_products : list pystr) (rejected_solutions : Ledger) (day : option nat)
    (w : World) : outcome (list Solution * Ledger * World) :=
  let products_df := exclude excluded_products products_df in
  match while_loop fuel products_df t day
          {| solutions := []; attempts := 0; rejected := rejected_solutions |} w with
  | Ret (st, w') => Ret (solutions st, rejected st, w')
  | Raise e => Raise e
  | OutOfFuel => OutOfFuel
  end.
End Engine.

(** *** The default value of [rejected_solutions]

    [rejected_solutions: Set[...] = set()] is evaluated once, when the
    function is defined; every call that omits the argument receives that
    one object, and the loop adds to it in place. *)
Record FunctionDefaults := {
  default_rejected_solutions : Ledger
}.

(** The state of the defaults right after the module is loaded. *)
Definition defaults_at_import : FunctionDefaults :=
  {| default_rejected_solutions := ∅ |}.

(** A call that passes or omits [rejected_solutions]; the result carries
    the caller's set (when one was passed) and the defaults after the call. *)
Definition call_find_all_solutions {W} (solve : LpProblem -> W -> LpStatus * (nat -> Z) * W)
    (fuel : nat) (products_df : DataFrame) (t : Targets) (excluded_products : list pystr)
    (rejected_solutions : option Ledger) (day : option nat)
    (defaults : FunctionDefaults) (w : @World W)
    : outcome (list Solution * option Ledger * FunctionDefaults * @World W) :=
  match rejected_solutions with
  | Some ledger =>
      match find_all_solutions solve fuel products_df t excluded_products ledger day w with
      | Ret (sols, ledger', w') => Ret (sols, Some ledger', defaults, w')
      | Raise e => Raise e
      | OutOfFuel => OutOfFuel
      end
  | None =>
      match find_all_solutions solve fuel products_df t excluded_products
              (default_rejected_solutions defaults) day w with
      | Ret (sols, ledger', w') =>
          Ret (sols, None, {| default_rejected_solutions := ledger' |}, w')
      | Raise e => Raise e
      | OutOfFuel => OutOfFuel
      end
  end.

(** *** format_diet_text

    What the text of a diet shows: the rows with their integer quantity
    and price, the four totals of the diet next to the targets, and the
    cost.  The rendering of the numbers (two decimals, markup) is left
    out. *)
Definition diet_sum (col : Product -> Q) (diet_df : list (nat * Product * Z)) : Q :=
  Qsum (map (fun r => col (snd (fst r)) * inject_Z (snd r)) diet_df).

Record DietText := {
  shown_day : nat;
  shown_rows : list (option pystr * Z * Q);
  shown_proteins : Q * Q;   (* total, target *)
  shown_fats : Q * Q;
  shown_carbs : Q * Q;
  shown_calories : Q * Q;
  shown_cost : Q
}.

Definition format_diet_text (diet_df : list (nat * Product * Z)) (t : Targets)
    (total_cost : Q) (day : nat) : DietText :=
  {| shown_day := day;
     shown_rows := map (fun r => (name (snd (fst r)), snd r, price (snd (fst r)))) diet_df;
     shown_proteins := (diet_sum proteins diet_df, proteins_target t);
     shown_fats := (diet_sum fats diet_df, fats_target t);
     shown_carbs := (diet_sum carbs diet_df, carbs_target t);
     shown_calories := (diet_sum calories diet_df, daily_calories t);
     shown_cost := total_cost |}.

End optimization.

(** ** handlers.py: the weekly planning dialogue *)

Module handlers.
Import optimization.

Record DayPlan := {
  day : nat;
  diet : option (list (nat * Product * Z));
  total_cost : Q
}.

(** The dictionary kept by the dialogue storage while the week is planned.
    The storage hands out the same set and list objects on every read, so
    an in-place change made by a handler or by the engine is a change of
    the stored value. *)
Record Data := {
  products_df : DataFrame;
  targets : Targets;
  excluded_products : list pystr;
  weekly_plan : list DayPlan;
  current_day : nat;
  rejected_solutions : Ledger;
  attempts : gmap nat nat;
  current_solution : option Solution
}.

Inductive Session :=
| reviewing_day (data : Data)
| cleared.

Inductive Response := accept | reject.

(** What the user is sent, plus a record of every engine call. *)
Inductive Event :=
| Searched (d : nat) (before : Ledger) (found : list Solution) (after : Ledger)
| Proposed (d : nat) (sol : Solution)
| NoDiet (d : nat)
| TryAnother
| NoSuitableDiet (d : nat)
| FinalPlan (plan : list DayPlan) (week_cost : Q).

Definition failed (d : nat) : DayPlan :=
  {| day := d; diet := None; total_cost := 0 |}.

Definition set_day_plan (data : Data) (d : nat) (plan : list DayPlan) : Data :=
  {| products_df := products_df data; targets := targets data;
     excluded_products := excluded_products data;
     weekly_plan := plan; current_day := d;
     rejected_solutions := rejected_solutions data; attempts := attempts data;
     current_solution := current_solution data |}.

Definition set_rejected (data : Data) (ledger : Ledger) (tries : gmap nat nat) : Data :=
  {| products_df := products_df data; targets := targets data;
     excluded_products := excluded_products data;
     weekly_plan := weekly_plan data; current_day := current_day data;
     rejected_solutions := ledger; attempts := tries;
     current_solution := current_solution data |}.

Definition set_current_solution (data : Data) (sol : Solution) : Data :=
  {| products_df := products_df data; targets := targets data;
     excluded_products := excluded_products data;
     weekly_plan := weekly_plan data; current_day := current_day data;
     rejected_solutions := rejected_solutions data; attempts := attempts data;
     current_solution := Some sol |}.

Section Dialogue.
Context {W : Type}.
Variable solve : LpProblem -> W -> LpStatus * (nat -> Z) * W.

Definition show_final_plan (data : Data) (w : @World W)
    : outcome (Session * list Event * @World W) :=
  let week_cost := Qsum (map total_cost (weekly_plan data)) in
  Ret (cleared, [FinalPlan (weekly_plan data) week_cost], w).

Fixpoint present_day_plan (fuel : nat) (data : Data) (w : @World W)
    : outcome (Session * list Event * @World W) :=
  match fuel with
  | O => OutOfFuel
  | S fuel' =>
      match find_all_solutions solve fuel' (products_df data) (targets data)
              (excluded_products data) (rejected_solutions data)
              (Some (current_day data)) w with
      | Ret (found, ledger, w1) =>
          let searched :=
            Searched (current_day data) (rejected_solutions data) found ledger in
          let data := set_rejected data ledger (attempts data) in
          match found with
          | sol :: _ =>
              Ret (reviewing_day (set_current_solution data sol),
                   [searched; Proposed (current_day data) sol], w1)
          | [] =>
              (* the stored list is appended to in place *)
              let plan := weekly_plan data ++ [failed (current_day data)] in
              let next :=
                if (current_day data <? 7)%nat
                then present_day_plan fuel' (set_day_plan data (S (current_day data)) plan) w1
                else show_final_plan (set_day_plan data (current_day data) plan) w1 in
              match next with
              | Ret (s, evs, w2) => Ret (s, searched :: NoDiet (current_day data) :: evs, w2)
              | Raise e => Raise e
              | OutOfFuel => OutOfFuel
              end
          end
      | Raise e => Raise e
      | OutOfFuel => OutOfFuel
      end
  end.

(** After a day is resolved: the next day, or the final plan. *)
Definition proceed (fuel : nat) (data : Data) (w : @World W)
    : outcome (Session * list Event * @World W) :=
  if (current_day data <? 7)%nat
  then present_day_plan fuel (set_day_plan data (S (current_day data)) (weekly_plan data)) w
  else show_final_plan data w.

Definition process_day_review (fuel : nat) (user_response : Response) (data : Data)
    (w : @World W) : outcome (Session * list Event * @World W) :=
  match current_solution data with
  | None => Raise TypeError
  | Some sol =>
      match user_response with
      | accept =>
          let plan := weekly_plan data ++
            [{| day := current_day data; diet := Some (products sol);
                total_cost := optimization.total_cost sol |}] in
          proceed fuel (set_day_plan data (current_day data) plan) w
      | reject =>
          let ledger := {[ ids sol ]} ∪ rejected_solutions data in
          let n := S (default 0%nat (attempts data !! current_day data)) in
          let tries := <[ current_day data := n ]> (attempts data) in
          let data := set_rejected data ledger tries in
          if (n <? 5)%nat then
            match present_day_plan fuel data w with
            | Ret (s, evs, w') => Ret (s, TryAnother :: evs, w')
            | Raise e => Raise e
            | OutOfFuel => OutOfFuel
            end
          else
            let plan := weekly_plan data ++ [failed (current_day data)] in
            match proceed fuel (set_day_plan data (current_day data) plan) w with
            | Ret (s, evs, w') => Ret (s, NoSuitableDiet (current_day data) :: evs, w')
            | Raise e => Raise e
            | OutOfFuel => OutOfFuel
            end
      end
  end.

(** The tail of [generate_weekly_plan], once the targets are known. *)
Definition generate_weekly_plan (fuel : nat) (products_df : DataFrame) (t : Targets)
    (excluded_products : list pystr) (w : @World W)
    : outcome (Session * list Event * @World W) :=
  present_day_plan fuel
    {| products_df := products_df; targets := t; excluded_products := excluded_products;
       weekly_plan := []; current_day := 1; rejected_solutions := ∅; attempts := ∅;
       current_solution := None |} w.

(** An accept/reject button press; it is handled only while a day is
    under review. *)
Definition on_callback (fuel : nat) (user_response : Response) (s : Session) (w : @World W)
    : outcome (Session * list Event * @World W) :=
  match s with
  | reviewing_day data => process_day_review fuel user_response data w
  | cleared => Ret (cleared, [], w)
  end.

(** A sequence of button presses. *)
Fixpoint run (fuel : nat) (responses : list Response) (s : Session) (w : @World W)
    : outcome (Session * list Event * @World W) :=
  match responses with
  | [] => Ret (s, [], w)
  | r :: rest =>
      match on_callback fuel r s w with
      | Ret (s', evs, w') =>
          match run fuel rest s' w' with
          | Ret (s'', evs', w'') => Ret (s'', evs ++ evs', w'')
          | Raise e => Raise e
          | OutOfFuel => OutOfFuel
          end
      | Raise e => Raise e
      | OutOfFuel => OutOfFuel
      end
  end.

(** A whole session: the plan is started, then the user answers. *)
Definition week (fuel : nat) (products_df : DataFrame) (t : Targets)
    (excluded_products : list pystr) (responses : list Response) (w : @World W)
    : outcome (Session * list Event * @World W) :=
  match generate_weekly_plan fuel products_df t excluded_products w with
  | Ret (s, evs, w') =>
      match run fuel responses s w' with
      | Ret (s', evs', w'') => Ret (s', evs ++ evs', w'')
      | Raise e => Raise e
      | OutOfFuel => OutOfFuel
      end
  | Raise e => Raise e
  | OutOfFuel => OutOfFuel
  end.
End Dialogue.

End handlers.

(** ** Literals of the dialogue *)

Module lit.
Import Ascii String.

(** A literal of the source, as code points. *)
Definition py (s : string) : pystr := map N_of_ascii (list_ascii_of_string s).

Definition male : pystr := Eval cbv in py "male".
Definition female : pystr := Eval cbv in py "female".
Definition yes : pystr := Eval cbv in py "yes".
Definition no : pystr := Eval cbv in py "no".
Definition accept : pystr := Eval cbv in py "accept".
Definition reject : pystr := Eval cbv in py "reject".
Definition gender_ : pystr := Eval cbv in py "gender_".
Definition gender_male : pystr := Eval cbv in py "gender_male".
Definition gender_female : pystr := Eval cbv in py "gender_female".
Definition activity_ : pystr := Eval cbv in py "activity_".
Definition activity_sedentary : pystr := Eval cbv in py "activity_sedentary".
Definition activity_light : pystr := Eval cbv in py "activity_light".
Definition activity_moderate : pystr := Eval cbv in py "activity_moderate".
Definition activity_high : pystr := Eval cbv in py "activity_high".
Definition activity_extra : pystr := Eval cbv in py "activity_extra".
Definition sedentary : pystr := Eval cbv in py "sedentary".
Definition lightly_active : pystr := Eval cbv in py "lightly_active".
Definition moderately_active : pystr := Eval cbv in py "moderately_active".
Definition very_active : pystr := Eval cbv in py "very_active".
Definition extra_active : pystr := Eval cbv in py "extra_active".
Definition goal_ : pystr := Eval cbv in py "goal_".
Definition goal_lose_weight : pystr := Eval cbv in py "goal_lose_weight".
Definition goal_maintain_weight : pystr := Eval cbv in py "goal_maintain_weight".
Definition goal_gain_weight : pystr := Eval cbv in py "goal_gain_weight".
Definition lose_weight : pystr := Eval cbv in py "lose_weight".
Definition maintain_weight : pystr := Eval cbv in py "maintain_weight".
Definition gain_weight : pystr := Eval cbv in py "gain_weight".
Definition weight : pystr := Eval cbv in py "weight".
Definition height : pystr := Eval cbv in py "height".
Definition age : pystr := Eval cbv in py "age".
Definition gender : pystr := Eval cbv in py "gender".
Definition activity_level : pystr := Eval cbv in py "activity_level".
Definition goal : pystr := Eval cbv in py "goal".
Definition current_day : pystr := Eval cbv in py "current_day".
Definition excluded_products : pystr := Eval cbv in py "excluded_products".

(** The Cyrillic word for "no", [н е т]. *)
Definition net : pystr := [1085; 1077; 1090]%N.

Definition comma : N := Eval cbv in N_of_ascii ",".
Definition dot : N := Eval cbv in N_of_ascii ".".
Definition underscore : N := Eval cbv in N_of_ascii "_".
End lit.

(** ** Python string methods and dictionaries *)

Module str.

Definition startswith (s prefix : pystr) : bool :=
  bool_decide (take (length prefix) s = prefix).

(** [s.split(sep)] for a separator of one character. *)
Fixpoint split (sep : N) (s : pystr) : list pystr :=
  match s with
  | [] => [[]]
  | c :: s' =>
      if (c =? sep)%N then [] :: split sep s'
      else match split sep s' with
           | [] => [[c]]
           | word :: words => (c :: word) :: words
           end
  end.

(** [s.replace(old, new)] for single characters. *)
Definition replace (old new : N) (s : pystr) : pystr :=
  map (fun c => if (c =? old)%N then new else c) s.

(** The code points for which [str.isspace] holds. *)
Definition isspace (c : N) : bool :=
  ((9 <=? c) && (c <=? 13) || (28 <=? c) && (c <=? 32) || (c =? 133) || (c =? 160)
   || (c =? 5760) || (8192 <=? c) && (c <=? 8202) || (c =? 8232) || (c =? 8233)
   || (c =? 8239) || (c =? 8287) || (c =? 12288))%N.

Fixpoint lstrip (s : pystr) : pystr :=
  match s with
  | [] => []
  | c :: s' => if isspace c then lstrip s' else s
  end.

Definition rstrip (s : pystr) : pystr := reverse (lstrip (reverse s)).

Definition strip (s : pystr) : pystr := rstrip (lstrip s).

(** [s.lower()], with the case folding of [char_lower]. *)
Definition lower (s : pystr) : pystr := map char_lower s.

End str.

(** [d.get(k)] on a dictionary literal. *)
Fixpoint dict_get {V} (k : pystr) (d : list (pystr * V)) : option V :=
  match d with
  | [] => None
  | (k', v) :: d' => if bool_decide (k' = k) then Some v else dict_get k d'
  end.

Definition Qlt_bool (x y : Q) : bool := negb (Qle_bool y x).

(** ** optimization.py: the daily targets *)

Module formulas.

Definition calculate_bmr (weight body_fat_percentage : Q) : Q :=
  let body_fat_decimal := body_fat_percentage / 100 in
  let lean_body_mass := weight * (1 - body_fat_decimal) in
  370 + (216 # 10) * lean_body_mass.

Definition calculate_bmr_harris_benedict (gender : pystr) (weight height : Q) (age : Z) : Q :=
  if bool_decide (gender = lit.male)
  then (8836 # 100) + (134 # 10) * weight + (48 # 10) * height - (57 # 10) * inject_Z age
  else (4476 # 10) + (92 # 10) * weight + (31 # 10) * height - (43 # 10) * inject_Z age.

Definition activity_multipliers : list (pystr * Q) :=
  [ (lit.sedentary, 12 # 10);
    (lit.lightly_active, 1375 # 1000);
    (lit.moderately_active, 155 # 100);
    (lit.very_active, 1725 # 1000);
    (lit.extra_active, 19 # 10) ].

Definition calculate_daily_calories (bmr : Q) (activity_level : pystr) : Q :=
  let multiplier := default (12 # 10) (dict_get activity_level activity_multipliers) in
  bmr * multiplier.

Definition calculate_macros (weight daily_calories : Q) (goal : pystr) : Q * Q * Q :=
  let '(adjusted_calories, protein) :=
    if bool_decide (goal = lit.lose_weight) then (daily_calories - 500, 2 * weight)
    else if bool_decide (goal = lit.gain_weight) then (daily_calories + 500, (16 # 10) * weight)
    else (daily_calories, (14 # 10) * weight) in
  let fat := 1 * weight in
  let calories_from_protein := protein * 4 in
  let calories_from_fat := fat * 9 in
  let remaining_calories := adjusted_calories - (calories_from_protein + calories_from_fat) in
  let carbs := if Qlt_bool 0 remaining_calories then remaining_calories / 4 else 0 in
  (protein, fat, carbs).

End formulas.

(** ** keyboards.py: the callback data of the buttons, in the order shown *)

Module keyboards.

Definition yes_no_inline_keyboard : list pystr := [lit.yes; lit.no].

Definition gender_inline_keyboard : list pystr := [lit.gender_male; lit.gender_female].

Definition activity_level_inline_keyboard : list pystr :=
  [ lit.activity_sedentary; lit.activity_light; lit.activity_moderate;
    lit.activity_high; lit.activity_extra ].

Definition goal_inline_keyboard : list pystr :=
  [ lit.goal_lose_weight; lit.goal_maintain_weight; lit.goal_gain_weight ].

Definition confirm_inline_keyboard : list pystr := [lit.accept; lit.reject].

End keyboards.

(** ** database.py: the product table *)

Module database.

(** A row of the table [products]; the date is a day number. *)
Record Row := {
  product : Product;
  last_updated : Z
}.

Abbreviation Table := (list Row).

(** [SELECT * FROM products] *)
Definition load_products (db : Table) : DataFrame := map product db.

(** [DELETE FROM products], then one row per product, dated today. *)
Definition save_products (today : Z) (products_df : DataFrame) (db : Table) : Table :=
  map (fun p => {| product := p; last_updated := today |}) products_df.

(** [SELECT MAX(last_updated) FROM products]: NULL on an empty table. *)
Definition max_last_updated (db : Table) : option Z :=
  match db with
  | [] => None
  | r :: rest => Some (fold_left Z.max (map last_updated rest) (last_updated r))
  end.

Definition needs_update (today : Z) (db : Table) : bool :=
  match max_last_updated db with
  | Some last_updated => (7 <? today - last_updated)%Z
  | None => true
  end.

End database.

(** ** handlers.py: the dialogue that collects the parameters *)

Module form.

(** The states of the dialogue. *)
Module Form.
Inductive state :=
| weight | height | age | gender | body_fat_known | body_fat_percentage
| waist | neck | hip | activity_level | goal | excluded_products | reviewing_day.
End Form.

Global Instance Form_state_eq_dec : EqDecision Form.state.
Proof. solve_decision. Defined.

(** The dictionary of the dialogue storage.  A key that is absent is
    [None]; the keys written when the plan is started (the catalog, the
    targets, the plan, the ledger, ...) are kept together under [week]. *)
Record Data := {
  weight : option Q;
  height : option Q;
  age : option Z;
  gender : option pystr;
  body_fat_percentage : option Q;
  waist : option Q;
  neck : option Q;
  hip : option Q;
  activity_level : option pystr;
  goal : option pystr;
  excluded_products : option (list pystr);
  week : option handlers.Data
}.

Definition empty : Data :=
  {| weight := None; height := None; age := None; gender := None;
     body_fat_percentage := None; waist := None; neck := None; hip := None;
     activity_level := None; goal := None; excluded_products := None; week := None |}.

Definition set_weight (v : Q) (d : Data) : Data :=
  {| weight := Some v; height := height d; age := age d; gender := gender d;
     body_fat_percentage := body_fat_percentage d; waist := waist d; neck := neck d;
     hip := hip d; activity_level := activity_level d; goal := goal d;
     excluded_products := excluded_products d; week := week d |}.

Definition set_height (v : Q) (d : Data) : Data :=
  {| weight := weight d; height := Some v; age := age d; gender := gender d;
     body_fat_percentage := body_fat_percentage d; waist := waist d; neck := neck d;
     hip := hip d; activity_level := activity_level d; goal := goal d;
     excluded_products := excluded_products d; week := week d |}.

Definition set_age (v : Z) (d : Data) : Data :=
  {| weight := weight d; height := height d; age := Some v; gender := gender d;
     body_fat_percentage := body_fat_percentage d; waist := waist d; neck := neck d;
     hip := hip d; activity_level := activity_level d; goal := goal d;
     excluded_products := excluded_products d; week := week d |}.

Definition set_gender (v : pystr) (d : Data) : Data :=
  {| weight := weight d; height := height d; age := age d; gender := Some v;
     body_fat_percentage := body_fat_percentage d; waist := waist d; neck := neck d;
     hip := hip d; activity_level := activity_level d; goal := goal d;
     excluded_products := excluded_products d; week := week d |}.

Definition set_body_fat_percentage (v : Q) (d : Data) : Data :=
  {| weight := weight d; height := height d; age := age d; gender := gender d;
     body_fat_percentage := Some v; waist := waist d; neck := neck d;
     hip := hip d; activity_level := activity_level d; goal := goal d;
     excluded_products := excluded_products d; week := week d |}.

Definition set_waist (v : Q) (d : Data) : Data :=
  {| weight := weight d; height := height d; age := age d; gender := gender d;
     body_fat_percentage := body_fat_percentage d; waist := Some v; neck := neck d;
     hip := hip d; activity_level := activity_level d; goal := goal d;
     excluded_products := excluded_products d; week := week d |}.

Definition set_neck (v : Q) (d : Data) : Data :=
  {| weight := weight d; height := height d; age := age d; gender := gender d;
     body_fat_percentage := body_fat_percentage d; waist := waist d; neck := Some v;
     hip := hip d; activity_level := activity_level d; goal := goal d;
     excluded_products := excluded_products d; week := week d |}.

Definition set_hip (v : Q) (d : Data) : Data :=
  {| weight := weight d; height := height d; age := age d; gender := gender d;
     body_fat_percentage := body_fat_percentage d; waist := waist d; neck := neck d;
     hip := Some v; activity_level := activity_level d; goal := goal d;
     excluded_products := excluded_products d; week := week d |}.

Definition set_activity_level (v : pystr) (d : Data) : Data :=
  {| weight := weight d; height := height d; age := age d; gender := gender d;
     body_fat_percentage := body_fat_percentage d; waist := waist d; neck := neck d;
     hip := hip d; activity_level := Some v; goal := goal d;
     excluded_products := excluded_products d; week := week d |}.

Definition set_goal (v : pystr) (d : Data) : Data :=
  {| weight := weight d; height := height d; age := age d; gender := gender d;
     body_fat_percentage := body_fat_percentage d; waist := waist d; neck := neck d;
     hip := hip d; activity_level := activity_level d; goal := Some v;
     excluded_products := excluded_products d; week := week d |}.

Definition set_excluded_products (v : list pystr) (d : Data) : Data :=
  {| weight := weight d; height := height d; age := age d; gender := gender d;
     body_fat_percentage := body_fat_percentage d; waist := waist d; neck := neck d;
     hip := hip d; activity_level := activity_level d; goal := goal d;
     excluded_products := Some v; week := week d |}.

Definition set_week (v : handlers.Data) (d : Data) : Data :=
  {| weight := weight d; height := height d; age := age d; gender := gender d;
     body_fat_percentage := body_fat_percentage d; waist := waist d; neck := neck d;
     hip := hip d; activity_level := activity_level d; goal := goal d;
     excluded_products := excluded_products d; week := Some v |}.

(** The state and the dictionary of the one chat, and the product table. *)
Record Bot := {
  state : option Form.state;
  data : Data;
  db : database.Table
}.

Definition goto (s : Form.state) (d : Data) (b : Bot) : Bot :=
  {| state := Some s; data := d; db := db b |}.

(** [state.clear()]: no state, an empty dictionary. *)
Definition clear (b : Bot) : Bot :=
  {| state := None; data := empty; db := db b |}.

Definition set_db (t : database.Table) (b : Bot) : Bot :=
  {| state := state b; data := data b; db := t |}.

(** What a handler finds outside the chat: the date, and the frame the
    scraper delivers when it returns ([Outside] below has its raising). *)
Record Env := {
  today : Z;
  scraped : DataFrame
}.

Inductive Command := start | help | cancel.

(** A text message that is none of the three commands, a command, or a
    button press with its callback data.  A message without text is an
    [Incoming] below. *)
Inductive Update :=
| Cmd (c : Command)
| Message (text : pystr)
| CallbackQuery (callback_data : pystr).

Inductive Reply :=
| Started
| HelpText
| Cancelled
| Ask (s : Form.state)        (* the question of a step *)
| Invalid (s : Form.state)    (* the warning of a step; the question stands *)
| Choose (s : Form.state)     (* the notice of the two dictionary look-ups *)
| BodyFat (percentage : Q)
| BodyFatFailed
| Thanks
| NoProducts
| DailyTargets (t : Targets)
| Week (e : handlers.Event).

Inductive error :=
| KeyError (key : pystr)
| TypeError
| ZeroDivisionError
| IndexError
| AttributeError              (* [message.text] or [c.data] is [None] *)
| ScraperError                (* whatever the driver or the page raises *)
| InWeek (e : exn).

Inductive result (A : Type) :=
| Done (a : A)
| Raised (e : error)
| Starved.
Arguments Done {A} a.
Arguments Raised {A} e.
Arguments Starved {A}.

Definition between (lo hi x : Q) : bool := Qle_bool lo x && Qle_bool x hi.

Definition strictly_between (lo hi x : Q) : bool := Qlt_bool lo x && Qlt_bool x hi.

Definition activity_levels : list (pystr * pystr) :=
  [ (lit.activity_sedentary, lit.sedentary);
    (lit.activity_light, lit.lightly_active);
    (lit.activity_moderate, lit.moderately_active);
    (lit.activity_high, lit.very_active);
    (lit.activity_extra, lit.extra_active) ].

Definition goals : list (pystr * pystr) :=
  [ (lit.goal_lose_weight, lit.lose_weight);
    (lit.goal_maintain_weight, lit.maintain_weight);
    (lit.goal_gain_weight, lit.gain_weight) ].

(** [max(0, min(x, 100))] *)
Definition clamp (x : Q) : Q :=
  let m := if Qlt_bool 100 x then 100 else x in
  if Qlt_bool 0 m then m else 0.

(** The list the exclusion message is turned into. *)
Definition parse_excluded (text : pystr) : list pystr :=
  if bool_decide (str.strip (str.lower text) = lit.net) then []
  else map str.strip (str.split lit.comma text).

(** [all([proteins_target, fats_target, carbs_target, daily_calories])] on
    the stored targets: absent or zero is false. *)
Definition stored_targets (d : Data) : option Targets :=
  match week d with
  | Some wd =>
      let t := handlers.targets wd in
      if Qeq_bool (proteins_target t) 0 || Qeq_bool (fats_target t) 0
         || Qeq_bool (carbs_target t) 0 || Qeq_bool (daily_calories t) 0
      then None else Some t
  | None => None
  end.

Section Handlers.
Context {W : Type}.
Variable solve : LpProblem -> W -> LpStatus * (nat -> Z) * W.

(** [float(s)] when it is a finite number; [None] when it raises
    [ValueError] and for nan and the infinities, which fail every range
    check of the dialogue with the same [ValueError]. *)
Variable float : pystr -> option Q.

(** [int(re.findall(r'\d+', s)[0])]; [None] when there is no digit. *)
Variable first_int : pystr -> option Z.

Variable log10 : Q -> Q.

Definition read_float (text : pystr) (ok : Q -> bool) : option Q :=
  match float (str.replace lit.comma lit.dot (str.strip text)) with
  | Some x => if ok x then Some x else None
  | None => None
  end.

Definition cmd_start (b : Bot) : Bot * list Reply :=
  (goto Form.weight empty b, [Started]).

Definition cmd_help (b : Bot) : Bot * list Reply := (b, [HelpText]).

Definition cmd_cancel (b : Bot) : Bot * list Reply := (clear b, [Cancelled]).

Definition process_weight (text : pystr) (b : Bot) : Bot * list Reply :=
  match read_float text (between 30 300) with
  | Some user_weight =>
      (goto Form.height (set_weight user_weight (data b)) b, [Ask Form.height])
  | None => (b, [Invalid Form.weight])
  end.

Definition process_height (text : pystr) (b : Bot) : Bot * list Reply :=
  match read_float text (between 100 250) with
  | Some user_height =>
      (goto Form.age (set_height user_height (data b)) b, [Ask Form.age])
  | None => (b, [Invalid Form.height])
  end.

Definition process_age (text : pystr) (b : Bot) : Bot * list Reply :=
  match first_int (str.strip text) with
  | Some user_age =>
      if ((5 <=? user_age) && (user_age <=? 120))%Z
      then (goto Form.gender (set_age user_age (data b)) b, [Ask Form.gender])
      else (b, [Invalid Form.age])
  | None => (b, [Invalid Form.age])
  end.

Definition process_gender (callback_data : pystr) (b : Bot) : result (Bot * list Reply) :=
  match str.split lit.underscore callback_data !! 1%nat with
  | Some gender =>
      Done (goto Form.body_fat_known (set_gender gender (data b)) b, [Ask Form.body_fat_known])
  | None => Raised IndexError
  end.

Definition process_body_fat_known (answer : pystr) (b : Bot) : Bot * list Reply :=
  if bool_decide (answer = lit.yes)
  then (goto Form.body_fat_percentage (data b) b, [Ask Form.body_fat_percentage])
  else if bool_decide (gender (data b) = Some lit.female)
       then (goto Form.hip (data b) b, [Ask Form.hip])
       else (goto Form.waist (data b) b, [Ask Form.waist]).

Definition ask_activity_level (b : Bot) : Bot * list Reply :=
  (goto Form.activity_level (data b) b, [Ask Form.activity_level]).

Definition process_body_fat_percentage (text : pystr) (b : Bot) : Bot * list Reply :=
  match read_float text (strictly_between 0 100) with
  | Some body_fat_percentage =>
      let b := goto Form.body_fat_percentage
                 (set_body_fat_percentage body_fat_percentage (data b)) b in
      let '(b, asked) := ask_activity_level b in
      (b, BodyFat body_fat_percentage :: asked)
  | None => (b, [Invalid Form.body_fat_percentage])
  end.

Definition process_waist (text : pystr) (b : Bot) : Bot * list Reply :=
  match read_float text (between 30 200) with
  | Some waist => (goto Form.neck (set_waist waist (data b)) b, [Ask Form.neck])
  | None => (b, [Invalid Form.waist])
  end.

(** The two formulas; a missing key or a non-positive argument of the
    logarithm is answered with a warning and [state.clear()]. *)
Definition calculate_body_fat_percentage (b : Bot) : result (Bot * list Reply) :=
  let failure := Done (clear b, [BodyFatFailed]) in
  let store body_fat_percentage :=
    let body_fat_percentage := clamp body_fat_percentage in
    Done ({| state := state b;
             data := set_body_fat_percentage body_fat_percentage (data b);
             db := db b |},
          [BodyFat body_fat_percentage]) in
  match gender (data b) with
  | None => failure
  | Some g =>
      if bool_decide (g = lit.male) then
        match waist (data b), neck (data b), height (data b) with
        | Some waist, Some neck, Some height =>
            if Qle_bool (waist - neck) 0 || Qle_bool height 0 then failure
            else
              let denominator :=
                (10324 # 10000) - (19077 # 100000) * log10 (waist - neck)
                + (15456 # 100000) * log10 height in
              if Qeq_bool denominator 0 then Raised ZeroDivisionError
              else store (495 / denominator - 450)
        | _, _, _ => failure
        end
      else
        match waist (data b), neck (data b), height (data b) with
        | Some waist, Some neck, Some height =>
            match hip (data b) with
            | Some hip =>
                if Qle_bool (waist + hip - neck) 0 || Qle_bool height 0 then failure
                else
                  let denominator :=
                    (129579 # 100000) - (35004 # 100000) * log10 (waist + hip - neck)
                    + (22100 # 100000) * log10 height in
                  if Qeq_bool denominator 0 then Raised ZeroDivisionError
                  else store (495 / denominator - 450)
            | None => Raised TypeError
            end
        | _, _, _ => failure
        end
  end.

(** [calculate_body_fat_percentage] followed by [ask_activity_level], as
    both callers have it. *)
Definition measure_and_ask (b : Bot) : result (Bot * list Reply) :=
  match calculate_body_fat_percentage b with
  | Done (b, shown) =>
      let '(b, asked) := ask_activity_level b in
      Done (b, shown ++ asked)
  | Raised e => Raised e
  | Starved => Starved
  end.

Definition process_neck (text : pystr) (b : Bot) : result (Bot * list Reply) :=
  match read_float text (between 10 100) with
  | Some neck =>
      let b := {| state := state b; data := set_neck neck (data b); db := db b |} in
      match gender (data b) with
      | None => Raised (KeyError lit.gender)
      | Some g =>
          if bool_decide (g = lit.female)
          then Done (goto Form.hip (data b) b, [Ask Form.hip])
          else measure_and_ask b
      end
  | None => Done (b, [Invalid Form.neck])
  end.

Definition process_hip (text : pystr) (b : Bot) : result (Bot * list Reply) :=
  match read_float text (between 20 200) with
  | Some hip =>
      measure_and_ask {| state := state b; data := set_hip hip (data b); db := db b |}
  | None => Done (b, [Invalid Form.hip])
  end.

Definition process_activity_level (callback_data : pystr) (b : Bot) : Bot * list Reply :=
  match dict_get callback_data activity_levels with
  | Some activity_level =>
      (goto Form.goal (set_activity_level activity_level (data b)) b, [Ask Form.goal])
  | None => (b, [Choose Form.activity_level])
  end.

Definition process_goal (callback_data : pystr) (b : Bot) : Bot * list Reply :=
  match dict_get callback_data goals with
  | Some goal =>
      (goto Form.excluded_products (set_goal goal (data b)) b, [Ask Form.excluded_products])
  | None => (b, [Choose Form.goal])
  end.

(** The head of [generate_weekly_plan]: the targets, stored ones if all
    four are there and non-zero, computed ones otherwise. *)
Definition daily_targets (d : Data) : result Targets :=
  match stored_targets d with
  | Some t => Done t
  | None =>
      match weight d with
      | None => Raised (KeyError lit.weight)
      | Some weight =>
      match gender d with
      | None => Raised (KeyError lit.gender)
      | Some gender =>
      match height d with
      | None => Raised (KeyError lit.height)
      | Some height =>
      match age d with
      | None => Raised (KeyError lit.age)
      | Some age =>
      match activity_level d with
      | None => Raised (KeyError lit.activity_level)
      | Some activity_level =>
      match goal d with
      | None => Raised (KeyError lit.goal)
      | Some goal =>
          let bmr :=
            match body_fat_percentage d with
            | Some body_fat_percentage => formulas.calculate_bmr weight body_fat_percentage
            | None => formulas.calculate_bmr_harris_benedict gender weight height age
            end in
          let daily_calories := formulas.calculate_daily_calories bmr activity_level in
          let '(proteins_target, fats_target, carbs_target) :=
            formulas.calculate_macros weight daily_calories goal in
          Done {| proteins_target := proteins_target; fats_target := fats_target;
                  carbs_target := carbs_target; daily_calories := daily_calories |}
      end end end end end end
  end.

(** What a handler of the week leaves behind, as seen from the dialogue. *)
Definition after_week (b : Bot) (r : outcome (handlers.Session * list handlers.Event * @optimization.World W))
    : result (Bot * list Reply * @optimization.World W) :=
  match r with
  | Ret (handlers.reviewing_day wd, evs, w) =>
      Done (goto Form.reviewing_day (set_week wd (data b)) b, map Week evs, w)
  | Ret (handlers.cleared, evs, w) => Done (clear b, map Week evs, w)
  | Raise e => Raised (InWeek e)
  | OutOfFuel => Starved
  end.

Definition generate_weekly_plan (fuel : nat) (products_df : DataFrame) (b : Bot)
    (w : @optimization.World W) : result (Bot * list Reply * @optimization.World W) :=
  match daily_targets (data b) with
  | Done t =>
      match excluded_products (data b) with
      | None => Raised (KeyError lit.excluded_products)
      | Some excluded_products =>
          match after_week b
                  (handlers.generate_weekly_plan solve fuel products_df t excluded_products w)
          with
          | Done (b, shown, w) => Done (b, DailyTargets t :: shown, w)
          | Raised e => Raised e
          | Starved => Starved
          end
      end
  | Raised e => Raised e
  | Starved => Starved
  end.

Definition process_excluded_products (fuel : nat) (env : Env) (text : pystr) (b : Bot)
    (w : @optimization.World W) : result (Bot * list Reply * @optimization.World W) :=
  let excluded_products := parse_excluded text in
  let b := {| state := state b;
              data := set_excluded_products excluded_products (data b);
              db := db b |} in
  let plan products_df b :=
    match products_df with
    | [] => Done (clear b, [Thanks; NoProducts], w)
    | _ :: _ =>
        match generate_weekly_plan fuel products_df b w with
        | Done (b, shown, w) => Done (b, Thanks :: shown, w)
        | Raised e => Raised e
        | Starved => Starved
        end
    end in
  if database.needs_update (today env) (db b) then
    match scraped env with
    | [] => Done (clear b, [Thanks; NoProducts], w)
    | _ :: _ =>
        plan (scraped env) (set_db (database.save_products (today env) (scraped env) (db b)) b)
    end
  else plan (database.load_products (db b)) b.

Definition process_day_review (fuel : nat) (user_response : handlers.Response) (b : Bot)
    (w : @optimization.World W) : result (Bot * list Reply * @optimization.World W) :=
  match week (data b) with
  | None => Raised (KeyError lit.current_day)
  | Some wd => after_week b (handlers.process_day_review solve fuel user_response wd w)
  end.

(** The router: the commands first, then the handler registered for the
    state, if its filter lets the update through; an update no handler
    takes changes nothing. *)
Definition handle (fuel : nat) (env : Env) (u : Update) (b : Bot) (w : @optimization.World W)
    : result (Bot * list Reply * @optimization.World W) :=
  let pure (r : Bot * list Reply) := Done (fst r, snd r, w) in
  let lift (r : result (Bot * list Reply)) :=
    match r with
    | Done (b, shown) => Done (b, shown, w)
    | Raised e => Raised e
    | Starved => Starved
    end in
  let ignored := Done (b, [], w) in
  match u with
  | Cmd start => pure (cmd_start b)
  | Cmd help => pure (cmd_help b)
  | Cmd cancel => pure (cmd_cancel b)
  | Message text =>
      match state b with
      | Some Form.weight => pure (process_weight text b)
      | Some Form.height => pure (process_height text b)
      | Some Form.age => pure (process_age text b)
      | Some Form.body_fat_percentage => pure (process_body_fat_percentage text b)
      | Some Form.waist => pure (process_waist text b)
      | Some Form.neck => lift (process_neck text b)
      | Some Form.hip => lift (process_hip text b)
      | Some Form.excluded_products => process_excluded_products fuel env text b w
      | _ => ignored
      end
  | CallbackQuery callback_data =>
      match state b with
      | Some Form.gender =>
          if str.startswith callback_data lit.gender_
          then lift (process_gender callback_data b) else ignored
      | Some Form.body_fat_known =>
          if bool_decide (callback_data ∈ [lit.yes; lit.no])
          then pure (process_body_fat_known callback_data b) else ignored
      | Some Form.activity_level =>
          if str.startswith callback_data lit.activity_
          then pure (process_activity_level callback_data b) else ignored
      | Some Form.goal =>
          if str.startswith callback_data lit.goal_
          then pure (process_goal callback_data b) else ignored
      | Some Form.reviewing_day =>
          if bool_decide (callback_data = lit.accept)
          then process_day_review fuel handlers.accept b w
          else if bool_decide (callback_data = lit.reject)
               then process_day_review fuel handlers.reject b w
               else ignored
      | _ => ignored
      end
  end.

(** A conversation: the updates in turn, each with what it finds outside. *)
Fixpoint run (fuel : nat) (updates : list (Env * Update)) (b : Bot) (w : @optimization.World W)
    : result (Bot * list Reply * @optimization.World W) :=
  match updates with
  | [] => Done (b, [], w)
  | (env, u) :: rest =>
      match handle fuel env u b w with
      | Done (b, shown, w) =>
          match run fuel rest b w with
          | Done (b, shown', w) => Done (b, shown ++ shown', w)
          | Raised e => Raised e
          | Starved => Starved
          end
      | Raised e => Raised e
      | Starved => Starved
      end
  end.

(** What reaches the dispatcher: an update as above; a message that
    carries no text - a photo, a sticker, a voice note - and whose caption
    is none of the three commands; or a callback query that carries no
    data, as the button of a game does. *)
Inductive Incoming :=
| WithText (u : Update)
| NoText
| NoData.

(** What a handler finds outside, the scraper's failure included: when
    [scraper_raises], entering the scraper or parsing the page raises
    where it would have delivered the frame. *)
Record Outside := {
  env : Env;
  scraper_raises : bool
}.

(** The dispatcher over all that comes in.  Every handler of a text step
    reads [message.text] before anything else ([.strip()], [.lower()]) and
    so raises on a message without text; the steps answered with a button
    have no handler for a message.  The filters [c.data.startswith(...)]
    raise on a query without data, the filters [c.data in [...]] let it
    pass unhandled.  The scraper is entered when the table is due, after
    the exclusions were stored. *)
Definition dispatch (fuel : nat) (out : Outside) (i : Incoming) (b : Bot)
    (w : @optimization.World W) : result (Bot * list Reply * @optimization.World W) :=
  match i with
  | NoText =>
      match state b with
      | Some Form.weight | Some Form.height | Some Form.age
      | Some Form.body_fat_percentage | Some Form.waist | Some Form.neck
      | Some Form.hip | Some Form.excluded_products => Raised AttributeError
      | _ => Done (b, [], w)
      end
  | NoData =>
      match state b with
      | Some Form.gender | Some Form.activity_level | Some Form.goal =>
          Raised AttributeError
      | _ => Done (b, [], w)
      end
  | WithText u =>
      match u, state b with
      | Message _, Some Form.excluded_products =>
          if scraper_raises out && database.needs_update (today (env out)) (db b)
          then Raised ScraperError
          else handle fuel (env out) u b w
      | _, _ => handle fuel (env out) u b w
      end
  end.

(** A conversation over all that comes in. *)
Fixpoint converse (fuel : nat) (incoming : list (Outside * Incoming)) (b : Bot)
    (w : @optimization.World W) : result (Bot * list Reply * @optimization.World W) :=
  match incoming with
  | [] => Done (b, [], w)
  | (out, i) :: rest =>
      match dispatch fuel out i b w with
      | Done (b, shown, w) =>
          match converse fuel rest b w with
          | Done (b, shown', w) => Done (b, shown ++ shown', w)
          | Raised e => Raised e
          | Starved => Starved
          end
      | Raised e => Raised e
      | Starved => Starved
      end
  end.

End Handlers.

Definition init (db : database.Table) : Bot :=
  {| state := None; data := empty; db := db |}.

End form.

(** ** Concrete solvers and catalogs *)

Module solvers.
Import optimization.

(** Every assignment of [n] variables within the bounds 0..3. *)
Fixpoint assignments (n : nat) : list (list Z) :=
  match n with
  | O => [[]]
  | S n' => flat_map (fun a => map (fun q => q :: a) [0; 1; 2; 3]%Z) (assignments n')
  end.

Definition as_fun (a : list Z) : nat -> Z := fun i => nth i a 0%Z.

Definition terms_known (n : nat) (terms : list (nat * Q)) : bool :=
  forallb (fun t => fst t <? n)%nat terms.

Definition problem_known (p : LpProblem) : bool :=
  terms_known (lp_vars p) (lp_objective p) &&
  forallb (fun c => terms_known (lp_vars p) (c_terms c)) (lp_constraints p).

Definition satisfies (p : LpProblem) (a : list Z) : bool :=
  forallb (constraint_holdsb (as_fun a)) (lp_constraints p).

Definition cheaper (p : LpProblem) (best a : list Z) : list Z :=
  if Qle_bool (lp_cost p (as_fun best)) (lp_cost p (as_fun a)) then best else a.

(** Exhaustive search: a cheapest assignment among those that satisfy
    every constraint. *)
Definition brute_force (p : LpProblem) (o : unit) : LpStatus * (nat -> Z) * unit :=
  if problem_known p then
    match List.filter (satisfies p) (assignments (lp_vars p)) with
    | [] => (Infeasible, fun _ => 0%Z, o)
    | a :: rest => (Optimal, as_fun (fold_left (cheaper p) rest a), o)
    end
  else (Undefined, fun _ => 0%Z, o).

(** A scripted solver: on its even calls it selects one portion of row
    [k/2], on its odd calls it reports infeasibility. *)
Definition alternating (p : LpProblem) (k : nat) : LpStatus * (nat -> Z) * nat :=
  if Nat.even k
  then (Optimal, fun i => if (i =? k / 2)%nat then 1%Z else 0%Z, S k)
  else (Infeasible, fun _ => 0%Z, S k).

(** A solver that never finds anything. *)
Definition hopeless (p : LpProblem) (o : unit) : LpStatus * (nat -> Z) * unit :=
  (Infeasible, fun _ => 0%Z, o).

Definition text (codes : list N) : option pystr := Some codes.

Definition item (label : N) (pr fa ca kc pc : Q) : Product :=
  {| name := text [label]; proteins := pr; fats := fa; carbs := ca;
     calories := kc; weight := 100; price := pc |}.

(** Items A and B together meet the targets exactly, item C does so alone
    at a higher price. *)
Definition catalog3 : DataFrame :=
  [ item 65 10 5 20 170 2; item 66 5 2 10 80 1; item 67 15 7 30 250 4 ].

Definition targets3 : Targets :=
  {| proteins_target := 15; fats_target := 7; carbs_target := 30; daily_calories := 250 |}.

Definition catalog8 : DataFrame :=
  map (fun c => item c 1 1 1 1 1) [65; 66; 67; 68; 69; 70; 71; 72]%N.

Definition start {W} (o : W) : @World W := {| oracle := o; solver_log := [] |}.

(** The loop after one solution, with both support sets of the three-item
    catalog already in the ledger. *)
Definition partial_state : LoopState :=
  {| solutions := [make_solution catalog3 [1; 1; 0]%Z];
     attempts := 1;
     rejected := {[ [0; 1]%nat ]} ∪ {[ [2]%nat ]} |}.

(** The stored dictionary when the first day is about to be presented. *)
Definition week_start (df : DataFrame) (t : Targets) (ex : list pystr) : handlers.Data :=
  {| handlers.products_df := df; handlers.targets := t; handlers.excluded_products := ex;
     handlers.weekly_plan := []; handlers.current_day := 1;
     handlers.rejected_solutions := ∅; handlers.attempts := ∅;
     handlers.current_solution := None |}.

End solvers.

(** ** Sample readings and messages *)

Module samples.

(** Plain decimal numerals. *)
Fixpoint digits (acc : Z) (s : pystr) : option Z :=
  match s with
  | [] => Some acc
  | c :: s' =>
      if ((48 <=? c) && (c <=? 57))%N
      then digits (10 * acc + Z.of_N (c - 48)) s'
      else None
  end.

Definition number (s : pystr) : option Z :=
  match s with
  | [] => None
  | _ :: _ => digits 0 s
  end.

(** A reading of [float] and of the first integer on plain numerals. *)
Definition float (s : pystr) : option Q := option_map inject_Z (number s).

Definition first_int (s : pystr) : option Z := number s.

(** A coarse logarithm: the binary logarithm of the integer part, scaled. *)
Definition log10 (x : Q) : Q :=
  inject_Z (Z.log2 (Qnum x / Z.pos (Qden x))) * (301 # 1000).

Module says.
Import Ascii String.
Definition n20 : pystr := Eval cbv in lit.py "20".
Definition n30 : pystr := Eval cbv in lit.py "30".
Definition n40 : pystr := Eval cbv in lit.py "40".
Definition n45 : pystr := Eval cbv in lit.py "45".
Definition n62 : pystr := Eval cbv in lit.py "62".
Definition n80 : pystr := Eval cbv in lit.py "80".
Definition n95 : pystr := Eval cbv in lit.py "95".
Definition n168 : pystr := Eval cbv in lit.py "168".
Definition n180 : pystr := Eval cbv in lit.py "180".
Definition n999 : pystr := Eval cbv in lit.py "999".
Definition a_comma : pystr := Eval cbv in lit.py "A,".
End says.

(** The table is empty and the scraper delivers the eight-item catalog. *)
Definition day100 : form.Env := {| form.today := 100; form.scraped := solvers.catalog8 |}.

Definition sends (text : pystr) : form.Env * form.Update := (day100, form.Message text).

Definition presses (callback_data : pystr) : form.Env * form.Update :=
  (day100, form.CallbackQuery callback_data).

(** A man who knows his body fat, up to the exclusions. *)
Definition man_with_body_fat : list (form.Env * form.Update) :=
  [ (day100, form.Cmd form.start); sends says.n80; sends says.n180; sends says.n30;
    presses lit.gender_male; presses lit.yes; sends says.n20;
    presses lit.activity_moderate; presses lit.goal_maintain_weight ].

(** A woman who does not know her body fat, up to the hip question. *)
Definition woman_to_hip : list (form.Env * form.Update) :=
  [ (day100, form.Cmd form.start); sends says.n62; sends says.n168; sends says.n30;
    presses lit.gender_female; presses lit.no ].

(** A man who does not know his body fat, up to the neck question. *)
Definition man_to_neck : list (form.Env * form.Update) :=
  [ (day100, form.Cmd form.start); sends says.n80; sends says.n180; sends says.n30;
    presses lit.gender_male; presses lit.no; sends says.n40 ].

(** One row whose calories are those of its macronutrients. *)
Definition catalog_atwater : DataFrame :=
  [ {| name := Some [65%N]; proteins := 10; fats := 5; carbs := 20;
       calories := 165; weight := 100; price := 2 |} ].

(** A stored dictionary with all answers, for weight loss. *)
Definition answers_lose_weight : form.Data :=
  {| form.weight := Some 80; form.height := Some 180; form.age := Some 30%Z;
     form.gender := Some lit.male; form.body_fat_percentage := Some 20;
     form.waist := None; form.neck := None; form.hip := None;
     form.activity_level := Some lit.moderately_active;
     form.goal := Some lit.lose_weight;
     form.excluded_products := Some []; form.week := None |}.

(** The updates as they come in, with a scraper that delivers. *)
Definition arriving (updates : list (form.Env * form.Update))
    : list (form.Outside * form.Incoming) :=
  map (fun eu => ({| form.env := fst eu; form.scraper_raises := false |},
                  form.WithText (snd eu))) updates.

(** A photo without a caption. *)
Definition photo : form.Outside * form.Incoming :=
  ({| form.env := day100; form.scraper_raises := false |}, form.NoText).

(** The message that excludes nothing, on a day the scraper raises. *)
Definition net_scraper_down : form.Outside * form.Incoming :=
  ({| form.env := day100; form.scraper_raises := true |},
   form.WithText (form.Message lit.net)).

(** The eight items and a row with no price and no nutrients. *)
Definition catalog_water : DataFrame := solvers.catalog8 ++ [solvers.item 87 0 0 0 0 0].

(** The same message on a day the scraper delivers that catalog. *)
Definition net_water : form.Outside * form.Incoming :=
  ({| form.env := {| form.today := 100; form.scraped := catalog_water |};
      form.scraper_raises := false |},
   form.WithText (form.Message lit.net)).

End samples.

Import optimization solvers.

(** * Vocabulary of the statements *)

(** Every label in every tuple of the ledger names a row of the frame. *)
Definition ledger_known (n : nat) (ledger : Ledger) : Prop :=
  forall s, s ∈ ledger -> known_vars n s = true.

Section BodySteps.
Context {W : Type}.
Variable solve : LpProblem -> W -> LpStatus * (nat -> Z) * W.
Variables (df : DataFrame) (t : Targets) (day : option nat).

(** What one pass through the body can do. *)
Inductive body_step (st : LoopState) (w : @World W)
  : LoopState -> Flow -> @World W -> Prop :=
| step_break status x o :
    solve (build_problem df t (rejected st) day) (oracle w) = (status, x, o) ->
    status <> Optimal ->
    body_step st w st Break
      {| oracle := o;
         solver_log := solver_log w ++ [(build_problem df t (rejected st) day, status)] |}
| step_skip x o :
    solve (build_problem df t (rejected st) day) (oracle w) = (Optimal, x, o) ->
    all_valued df (rejected st) = true ->
    solution_ids df (map x (seq 0 (length df))) ∈ rejected st ->
    body_step st w
      {| solutions := solutions st; attempts := S (attempts st); rejected := rejected st |}
      Continue
      {| oracle := o;
         solver_log := solver_log w ++ [(build_problem df t (rejected st) day, Optimal)] |}
| step_new x o :
    solve (build_problem df t (rejected st) day) (oracle w) = (Optimal, x, o) ->
    all_valued df (rejected st) = true ->
    solution_ids df (map x (seq 0 (length df))) ∉ rejected st ->
    body_step st w
      {| solutions := solutions st ++ [make_solution df (map x (seq 0 (length df)))];
         attempts := S (attempts st);
         rejected := {[ solution_ids df (map x (seq 0 (length df))) ]} ∪ rejected st |}
      Continue
      {| oracle := o;
         solver_log := solver_log w ++ [(build_problem df t (rejected st) day, Optimal)] |}.

End BodySteps.

(** The solver answers [Optimal] only with an assignment that satisfies
    the bounds and every constraint of the problem it was given. *)
Definition solver_sound {W} (solve : LpProblem -> W -> LpStatus * (nat -> Z) * W) : Prop :=
  forall p o x o', solve p o = (Optimal, x, o') -> feasible p x.

(** ... and that assignment is a cheapest one among those. *)
Definition solver_optimal {W} (solve : LpProblem -> W -> LpStatus * (nat -> Z) * W) : Prop :=
  forall p o x o', solve p o = (Optimal, x, o') ->
    feasible p x /\ forall y, feasible p y -> lp_cost p x <= lp_cost p y.

Definition within_window (target value : Q) : Prop :=
  target * (1 - deviation) <= value /\ value <= target * (1 + deviation).

Definition meets_targets (df : DataFrame) (t : Targets) (qs : list Z) : Prop :=
  within_window (proteins_target t) (weighted_sum proteins df qs) /\
  within_window (fats_target t) (weighted_sum fats df qs) /\
  within_window (carbs_target t) (weighted_sum carbs df qs) /\
  within_window (daily_calories t) (weighted_sum calories df qs).

Definition Zsum (l : list Z) : Z := fold_right Z.add 0%Z l.

(** The rows an assignment selects, relative to a support set. *)
Definition support_within (x : nat -> Z) (s : list nat) : Prop :=
  forall i, (0 < x i)%Z -> i ∈ s.

Definition support_is (x : nat -> Z) (s : list nat) : Prop :=
  forall i, (0 < x i)%Z <-> i ∈ s.

(** The support sets of the solutions a call returned. *)
Definition found_ids {W}
    (r : outcome (list Solution * option Ledger * FunctionDefaults * @World W))
    : option (list (list nat)) :=
  match r with
  | Ret (sols, _, _, _) => Some (map ids sols)
  | _ => None
  end.

(** *** Sessions *)

(** How the ledger moves along the events of a session.  [ledger] is the
    ledger before the events, [fresh] the solutions of the latest search
    not yet shown to the user, [final] the ledger after the events. *)
Fixpoint ledger_chain (ledger : Ledger) (fresh : list Solution)
    (evs : list handlers.Event) (final : Ledger) : Prop :=
  match evs with
  | [] => ledger ⊆ final
  | handlers.Searched _ before found after :: rest =>
      ledger ⊆ before /\ before ⊆ after /\ NoDup (map ids found) /\
      (forall sol, sol ∈ found -> (ids sol ∉ before) /\ (ids sol ∈ after)) /\
      ledger_chain after found rest final
  | handlers.Proposed _ sol :: rest =>
      sol ∈ fresh /\ ids sol ∈ ledger /\ ledger_chain ledger [] rest final
  | _ :: rest => ledger_chain ledger fresh rest final
  end.

(** What holds of the stored dictionary whenever a day is under review. *)
Definition session_inv (df : DataFrame) (t : Targets) (ex : list pystr)
    (data : handlers.Data) : Prop :=
  handlers.products_df data = df /\
  handlers.targets data = t /\
  handlers.excluded_products data = ex /\
  ledger_known (length (exclude ex df)) (handlers.rejected_solutions data) /\
  (exists sol, handlers.current_solution data = Some sol /\
               ids sol ∈ handlers.rejected_solutions data) /\
  (forall k, (handlers.current_day data < k)%nat -> handlers.attempts data !! k = None).

(** The part of it that presenting a day relies on. *)
Definition framed (df : DataFrame) (t : Targets) (ex : list pystr)
    (data : handlers.Data) : Prop :=
  handlers.products_df data = df /\
  handlers.targets data = t /\
  handlers.excluded_products data = ex /\
  forall k, (handlers.current_day data < k)%nat -> handlers.attempts data !! k = None.

(** The catalog view of the specification: the items whose name contains
    none of the exclusion substrings, compared case-insensitively; with no
    exclusions every item is kept. *)
Definition name_matches (exclusions : list pystr) (item : Product) : bool :=
  match name item with
  | Some s => existsb (fun e => contains_ci e s) exclusions
  | None => false
  end.

Definition catalog_view (exclusions : list pystr) (catalog : DataFrame) : DataFrame :=
  filter (fun item => negb (name_matches exclusions item)) catalog.

(** A session whose stored catalog is the catalog view and whose engine
    calls are made without exclusions. *)
Definition prefiltered (data : handlers.Data) : handlers.Data :=
  {| handlers.products_df :=
       catalog_view (handlers.excluded_products data) (handlers.products_df data);
     handlers.targets := handlers.targets data;
     handlers.excluded_products := [];
     handlers.weekly_plan := handlers.weekly_plan data;
     handlers.current_day := handlers.current_day data;
     handlers.rejected_solutions := handlers.rejected_solutions data;
     handlers.attempts := handlers.attempts data;
     handlers.current_solution := handlers.current_solution data |}.

Definition view_session (s : handlers.Session) : handlers.Session :=
  match s with
  | handlers.reviewing_day data => handlers.reviewing_day (prefiltered data)
  | handlers.cleared => handlers.cleared
  end.

Definition view_outcome {W}
    (r : outcome (handlers.Session * list handlers.Event * @World W))
    : outcome (handlers.Session * list handlers.Event * @World W) :=
  match r with
  | Ret (s, evs, w) => Ret (view_session s, evs, w)
  | Raise e => Raise e
  | OutOfFuel => OutOfFuel
  end.

(** The solver calls made between two worlds are all for the filtered
    catalog and for day [d] or a later day. *)
Definition day_log {W} (df : DataFrame) (t : Targets) (ex : list pystr) (d : nat)
    (w w' : @World W) : Prop :=
  exists calls,
    solver_log w' = solver_log w ++ calls /\
    Forall (fun e => exists ledger d',
              fst e = build_problem (exclude ex df) t ledger (Some d') /\ (d <= d')%nat)
           calls.

Definition failed_days (d k : nat) : list handlers.DayPlan :=
  map handlers.failed (seq d k).

(** Where [present_day_plan] leaves the session: a proposal for the same or
    a later day, every day in between marked failed, or the final plan with
    all remaining days marked failed. *)
Definition resolved (data : handlers.Data) (s : handlers.Session)
    (evs : list handlers.Event) : Prop :=
  match s with
  | handlers.reviewing_day data' =>
      handlers.products_df data' = handlers.products_df data /\
      handlers.targets data' = handlers.targets data /\
      handlers.excluded_products data' = handlers.excluded_products data /\
      handlers.attempts data' = handlers.attempts data /\
      (exists sol, handlers.current_solution data' = Some sol /\
                   ids sol ∈ handlers.rejected_solutions data') /\
      exists k,
        handlers.current_day data' = (handlers.current_day data + k)%nat /\
        handlers.weekly_plan data'
          = handlers.weekly_plan data ++ failed_days (handlers.current_day data) k
  | handlers.cleared =>
      exists k cost,
        last evs = Some (handlers.FinalPlan
                           (handlers.weekly_plan data
                              ++ failed_days (handlers.current_day data) (S k)) cost)
  end.

(** *** Further vocabulary *)

(** No assignment within the bounds meets the four windows. *)
Definition unreachable (df : DataFrame) (t : Targets) : Prop :=
  forall x, in_bounds (length df) x -> ~ meets_targets df t (map x (seq 0 (length df))).

(** The totals a diet text shows are within the windows of its targets. *)
Definition text_within (txt : DietText) : Prop :=
  within_window (snd (shown_proteins txt)) (fst (shown_proteins txt)) /\
  within_window (snd (shown_fats txt)) (fst (shown_fats txt)) /\
  within_window (snd (shown_carbs txt)) (fst (shown_carbs txt)) /\
  within_window (snd (shown_calories txt)) (fst (shown_calories txt)).

(** A solution read back from an assignment within the bounds that meets
    the windows of the catalog view. *)
Definition good_solution (df : DataFrame) (t : Targets) (sol : Solution) : Prop :=
  exists x, sol = make_solution df (map x (seq 0 (length df))) /\
            in_bounds (length df) x /\
            meets_targets df t (map x (seq 0 (length df))).

(** An entry of the weekly plan: the failure marker, or an accepted
    solution with property [G]. *)
Definition entry_ok (G : Solution -> Prop) (p : handlers.DayPlan) : Prop :=
  (handlers.diet p = None /\ handlers.total_cost p = 0) \/
  exists sol, G sol /\ handlers.diet p = Some (products sol) /\
              handlers.total_cost p = total_cost sol.

(** The plan holds one entry for each of the days 1..d, in order. *)
Definition plan_shaped (G : Solution -> Prop) (d : nat) (plan : list handlers.DayPlan) : Prop :=
  map handlers.day plan = seq 1 d /\ Forall (entry_ok G) plan.

Definition review_inv (G : Solution -> Prop) (data : handlers.Data) : Prop :=
  (1 <= handlers.current_day data <= 7)%nat /\
  plan_shaped G (handlers.current_day data - 1) (handlers.weekly_plan data) /\
  (default 0%nat (handlers.attempts data !! handlers.current_day data) < 5)%nat /\
  exists sol, handlers.current_solution data = Some sol /\ G sol.

(** The events end with the final plan of seven entries and its cost. *)
Definition week_done (G : Solution -> Prop) (evs : list handlers.Event) : Prop :=
  exists plan,
    last evs = Some (handlers.FinalPlan plan (Qsum (map handlers.total_cost plan))) /\
    plan_shaped G 7 plan.

(** Every proposal comes right after a search and shows the first solution
    that search found. *)
Definition heads_shown (evs : list handlers.Event) : Prop :=
  forall j d sol, evs !! j = Some (handlers.Proposed d sol) ->
    exists j' before rest after,
      j = S j' /\ evs !! j' = Some (handlers.Searched d before (sol :: rest) after).

(** What is left of the retry budget of the week. *)
Definition budget_left (data : handlers.Data) : nat :=
  5 * (7 - handlers.current_day data)
  + (5 - default 0%nat (handlers.attempts data !! handlers.current_day data)).

(** *** Vocabulary of the dialogue *)

(** What the goal adds to the calories the macronutrients are computed
    from. *)
Definition calorie_shift (goal : pystr) : Q :=
  if bool_decide (goal = lit.lose_weight) then -500
  else if bool_decide (goal = lit.gain_weight) then 500
  else 0.

(** The energy of the macronutrient targets, at 4, 9 and 4 kcal per gram. *)
Definition macro_calories (t : Targets) : Q :=
  4 * proteins_target t + 9 * fats_target t + 4 * carbs_target t.

(** Every row states the calories of its macronutrients. *)
Definition atwater (df : DataFrame) : Prop :=
  Forall (fun p => calories p == 4 * proteins p + 9 * fats p + 4 * carbs p) df.

Definition if_set {A} (P : A -> Prop) (o : option A) : Prop :=
  match o with
  | Some v => P v
  | None => True
  end.

(** Every value of the dictionary is one its handler lets through. *)
Definition data_ok (d : form.Data) : Prop :=
  if_set (fun v => 30 <= v <= 300) (form.weight d) /\
  if_set (fun v => 100 <= v <= 250) (form.height d) /\
  if_set (fun v => (5 <= v <= 120)%Z) (form.age d) /\
  if_set (fun v => 0 <= v <= 100) (form.body_fat_percentage d) /\
  if_set (fun v => 30 <= v <= 200) (form.waist d) /\
  if_set (fun v => 10 <= v <= 100) (form.neck d) /\
  if_set (fun v => 20 <= v <= 200) (form.hip d) /\
  if_set (fun v => is_Some (dict_get v formulas.activity_multipliers)) (form.activity_level d) /\
  if_set (fun v => v ∈ [lit.lose_weight; lit.maintain_weight; lit.gain_weight]) (form.goal d).

(** The first four questions are answered. *)
Definition answered (d : form.Data) : Prop :=
  is_Some (form.weight d) /\ is_Some (form.height d) /\
  is_Some (form.age d) /\ is_Some (form.gender d).

(** The targets of the week are those of the lean-mass formula for the
    stored weight, body fat, activity level and goal. *)
Definition planned (d : form.Data) (wd : handlers.Data) : Prop :=
  exists weight body_fat activity_level goal,
    form.weight d = Some weight /\
    form.body_fat_percentage d = Some body_fat /\
    form.activity_level d = Some activity_level /\
    form.goal d = Some goal /\
    let daily_calories :=
      formulas.calculate_daily_calories (formulas.calculate_bmr weight body_fat)
        activity_level in
    let m := formulas.calculate_macros weight daily_calories goal in
    handlers.targets wd
      = {| proteins_target := fst (fst m); fats_target := snd (fst m);
           carbs_target := snd m; daily_calories := daily_calories |}.

(** What holds of the storage in each state of a conversation that began
    with an empty storage. *)
Definition form_inv (b : form.Bot) : Prop :=
  let d := form.data b in
  match form.state b with
  | None => d = form.empty
  | Some form.Form.weight => d = form.empty
  | Some form.Form.height =>
      is_Some (form.weight d) /\ form.waist d = None /\ form.week d = None
  | Some form.Form.age =>
      is_Some (form.weight d) /\ is_Some (form.height d) /\
      form.waist d = None /\ form.week d = None
  | Some form.Form.gender =>
      is_Some (form.weight d) /\ is_Some (form.height d) /\ is_Some (form.age d) /\
      form.waist d = None /\ form.week d = None
  | Some form.Form.body_fat_known | Some form.Form.body_fat_percentage =>
      answered d /\ form.waist d = None /\ form.week d = None
  | Some form.Form.waist =>
      answered d /\ form.gender d <> Some lit.female /\ form.week d = None
  | Some form.Form.neck =>
      answered d /\ form.gender d <> Some lit.female /\ form.week d = None
  | Some form.Form.hip =>
      answered d /\ form.waist d = None /\ form.week d = None
  | Some form.Form.activity_level =>
      form.week d = None /\
      (form.weight d = None \/ answered d /\ is_Some (form.body_fat_percentage d))
  | Some form.Form.goal =>
      form.week d = None /\
      (form.weight d = None \/
       answered d /\ is_Some (form.body_fat_percentage d) /\
       is_Some (form.activity_level d))
  | Some form.Form.excluded_products =>
      form.week d = None /\
      (form.weight d = None \/
       answered d /\ is_Some (form.body_fat_percentage d) /\
       is_Some (form.activity_level d) /\ is_Some (form.goal d))
  | Some form.Form.reviewing_day =>
      exists wd, form.week d = Some wd /\ planned d wd /\
        session_inv (handlers.products_df wd) (handlers.targets wd)
          (handlers.excluded_products wd) wd /\
        review_inv (fun _ => True) wd
  end.

(** The data was wiped on the way: the plan cannot be generated any more. *)
Definition stuck (b : form.Bot) : Prop :=
  form.week (form.data b) = None /\
  match form.state b with
  | None => True
  | Some s =>
      s ∈ [form.Form.activity_level; form.Form.goal; form.Form.excluded_products] /\
      form.weight (form.data b) = None
  end.

(** A reply that belongs to the week: the targets or an event of it. *)
Definition of_week (r : form.Reply) : bool :=
  match r with
  | form.DailyTargets _ | form.Week _ => true
  | _ => false
  end.

Definition is_start (u : form.Update) : bool :=
  match u with
  | form.Cmd form.start => true
  | _ => false
  end.

(** The stored gender is one of the two the keyboard offers. *)
Definition gender_known (d : form.Data) : Prop :=
  if_set (fun g => g = lit.male \/ g = lit.female) (form.gender d).

(** A button press comes from one of the keyboards. *)
Definition pressed (u : form.Update) : Prop :=
  match u with
  | form.CallbackQuery callback_data =>
      callback_data ∈ keyboards.yes_no_inline_keyboard ++ keyboards.gender_inline_keyboard
        ++ keyboards.activity_level_inline_keyboard ++ keyboards.goal_inline_keyboard
        ++ keyboards.confirm_inline_keyboard
  | _ => True
  end.

(** The ways a handler of the dialogue can fail. *)
Definition expected_failure (e : form.error) : Prop :=
  e = form.KeyError lit.weight \/ e = form.TypeError \/ e = form.ZeroDivisionError \/
  e = form.InWeek TypeError \/ e = form.AttributeError \/ e = form.ScraperError.

(** Every row of the frame has a price or a nutrient that is not zero. *)
Definition all_priced (df : DataFrame) : Prop := Forall (fun p => priced p = true) df.

(** The table and the catalog of the week, if there is one, have rows with
    a price or a nutrient only. *)
Definition stocked (b : form.Bot) : Prop :=
  all_priced (database.load_products (form.db b)) /\
  match form.week (form.data b) with
  | Some wd => all_priced (handlers.products_df wd)
  | None => True
  end.

(** What comes in is no button press, or one that a keyboard offers. *)
Definition from_keyboard (i : form.Incoming) : Prop :=
  match i with
  | form.WithText u => pressed u
  | form.NoText | form.NoData => True
  end.

(** * Properties *)

(** ** Sums and linear expressions *)

Lemma lp_eval_column_from (col : Product -> Q) (x : nat -> Z) (df : DataFrame) (k : nat) :
  Qsum (map (fun t => snd t * inject_Z (x (fst t)))
          (map (fun r => (fst r, col (snd r))) (zip (seq k (length df)) df)))
  = Qsum (map (fun rq => col (fst rq) * inject_Z (snd rq))
            (zip df (map x (seq k (length df))))).
Proof.
  revert k. induction df as [|p df IH]; intros k; [reflexivity|].
  cbn. f_equal. apply IH.
Qed.

Lemma lp_eval_column (col : Product -> Q) (df : DataFrame) (x : nat -> Z) :
  lp_eval (column_expr col df) x = weighted_sum col df (map x (seq 0 (length df))).
Proof. apply lp_eval_column_from. Qed.

(** ** The support of a solution lies inside the frame *)

Lemma selected_labels_lt (df : DataFrame) (qs : list Z) (i : nat) :
  i ∈ map (fun r => fst (fst r)) (selected_products df qs) -> (i < length df)%nat.
Proof.
  unfold selected_products, rows. intros Hi.
  apply list_elem_of_fmap in Hi as [[[j p] q] [-> Hin]]. cbn.
  apply list_elem_of_filter in Hin as [_ Hin].
  apply list_elem_of_lookup in Hin as [n Hn].
  apply lookup_zip_with_Some in Hn as (jp & q' & Heq & Hjp & _).
  injection Heq as <- <-.
  apply lookup_zip_with_Some in Hjp as (j' & p' & Heq & Hj & _).
  injection Heq as <- <-.
  apply lookup_seq in Hj. lia.
Qed.

Lemma solution_ids_lt (df : DataFrame) (qs : list Z) (i : nat) :
  i ∈ solution_ids df qs -> (i < length df)%nat.
Proof.
  unfold solution_ids, sorted. rewrite merge_sort_Permutation.
  apply selected_labels_lt.
Qed.

Lemma known_vars_solution_ids (df : DataFrame) (qs : list Z) :
  known_vars (length df) (solution_ids df qs) = true.
Proof.
  unfold known_vars. apply forallb_forall. intros i Hi.
  apply Nat.ltb_lt, solution_ids_lt with qs. by apply list_elem_of_In.
Qed.

Lemma ledger_known_check (n : nat) (ledger : Ledger) :
  forallb (known_vars n) (elements ledger) = true <-> ledger_known n ledger.
Proof.
  rewrite forallb_forall. unfold ledger_known. split; intros H s Hs.
  - apply H, list_elem_of_In, elem_of_elements, Hs.
  - apply H, elem_of_elements, list_elem_of_In, Hs.
Qed.

(** ** The loop of the search engine *)

Section EngineFacts.
Context {W : Type}.
Variable solve : LpProblem -> W -> LpStatus * (nat -> Z) * W.
Variables (df : DataFrame) (t : Targets) (day : option nat).

Lemma loop_body_Ret st w st' flow w' :
  loop_body solve df t day st w = Ret (st', flow, w') <->
  ledger_known (length df) (rejected st) /\ body_step solve df t day st w st' flow w'.
Proof.
  unfold loop_body, prob_solve. rewrite <- ledger_known_check.
  destruct (forallb _ _); cbn.
  2: { split; [discriminate | intros [? _]; discriminate]. }
  destruct (solve _ _) as [[status x] o] eqn:Hs.
  split.
  - intros H. split; [reflexivity|].
    destruct status; try (injection H as <- <- <-; eapply step_break; [eassumption|discriminate]).
    destruct (all_valued df (rejected st)) eqn:Hv; [|discriminate]. cbn in H.
    destruct (decide _) as [Hin|Hin]; injection H as <- <- <-.
    + eapply step_skip; eassumption.
    + eapply step_new; eassumption.
  - intros [_ H].
    inversion H as [s x' o' He Hne|x' o' He Hv Hin|x' o' He Hv Hin]; subst;
      rewrite Hs in He; injection He as -> -> ->.
    + by destruct s.
    + rewrite Hv. cbn. by rewrite decide_True.
    + rewrite Hv. cbn. by rewrite decide_False.
Qed.

Lemma loop_body_not_OutOfFuel st w : loop_body solve df t day st w <> OutOfFuel.
Proof.
  unfold loop_body, prob_solve. destruct (negb _); [discriminate|].
  destruct (solve _ _) as [[[] x] o]; try discriminate.
  destruct (negb _); [discriminate|]. destruct (decide _); discriminate.
Qed.

Lemma loop_body_total st w :
  ledger_known (length df) (rejected st) ->
  all_valued df (rejected st) = true ->
  exists st' flow w', loop_body solve df t day st w = Ret (st', flow, w').
Proof.
  intros Hk Hv. apply ledger_known_check in Hk.
  unfold loop_body, prob_solve. rewrite Hk, Hv. cbn.
  destruct (solve _ _) as [[[] x] o]; eauto.
  destruct (decide _); eauto.
Qed.

(** Without that, a pass returns or raises [TypeError]. *)
Lemma loop_body_ends st w :
  ledger_known (length df) (rejected st) ->
  (exists st' flow w', loop_body solve df t day st w = Ret (st', flow, w')) \/
  loop_body solve df t day st w = Raise TypeError.
Proof.
  intros Hk. apply ledger_known_check in Hk.
  unfold loop_body, prob_solve. rewrite Hk. cbn.
  destruct (solve _ _) as [[[] x] o]; eauto.
  destruct (all_valued df (rejected st)); cbn; [|by right].
  destruct (decide _); eauto.
Qed.

Lemma in_problem_mono ledger ledger' i :
  ledger ⊆ ledger' -> in_problem df ledger i = true -> in_problem df ledger' i = true.
Proof.
  intros Hsub. unfold in_problem. rewrite !orb_true_iff.
  intros [H|H]; [by left|right].
  apply existsb_exists in H as (s & Hs & Hi). apply existsb_exists. exists s.
  split; [|exact Hi]. apply list_elem_of_In, elem_of_elements, Hsub.
  by apply elem_of_elements, list_elem_of_In.
Qed.

Lemma all_valued_mono ledger ledger' :
  ledger ⊆ ledger' -> all_valued df ledger = true -> all_valued df ledger' = true.
Proof.
  intros Hsub. unfold all_valued. rewrite !forallb_forall.
  intros H i Hi. eapply in_problem_mono; [exact Hsub|by apply H].
Qed.

Lemma body_step_valued st w st' flow w' :
  body_step solve df t day st w st' flow w' ->
  all_valued df (rejected st) = true -> all_valued df (rejected st') = true.
Proof.
  intros H Hv. inversion H; subst; cbn; try assumption.
  eapply all_valued_mono; [|exact Hv]. apply union_subseteq_r.
Qed.

Lemma body_step_known st w st' flow w' :
  ledger_known (length df) (rejected st) -> body_step solve df t day st w st' flow w' ->
  ledger_known (length df) (rejected st').
Proof.
  intros Hk H. inversion H; subst; cbn; try assumption.
  intros s Hs. apply elem_of_union in Hs as [Hs|Hs]; [|by apply Hk].
  apply elem_of_singleton in Hs as ->. apply known_vars_solution_ids.
Qed.

(** The proof rule of the loop: an invariant [P] kept by every pass that
    continues, and a postcondition [R] reached when the loop is left. *)
Lemma while_loop_rule (P R : LoopState -> @World W -> Prop) :
  (forall st w st' w', loop_guard st = true -> P st w ->
      body_step solve df t day st w st' Continue w' -> P st' w') ->
  (forall st w st' w', loop_guard st = true -> P st w ->
      body_step solve df t day st w st' Break w' -> R st' w') ->
  (forall st w, loop_guard st = false -> P st w -> R st w) ->
  forall fuel st w st' w',
    P st w -> while_loop solve fuel df t day st w = Ret (st', w') -> R st' w'.
Proof.
  intros Hcont Hbreak Hexit. induction fuel as [|fuel IH]; intros st w st' w' HP Hrun; cbn in Hrun.
  - destruct (loop_guard st) eqn:Hg; [discriminate|].
    injection Hrun as <- <-. by apply Hexit.
  - destruct (loop_guard st) eqn:Hg.
    2: { injection Hrun as <- <-. by apply Hexit. }
    destruct (loop_body solve df t day st w) as [[[st1 flow] w1]| |] eqn:Hb; try discriminate.
    apply loop_body_Ret in Hb as [_ Hb].
    destruct flow.
    + eapply IH; [|exact Hrun]. eapply Hcont; eassumption.
    + injection Hrun as <- <-. eapply Hbreak; eassumption.
Qed.

Lemma while_loop_invariant (P : LoopState -> @World W -> Prop) :
  (forall st w st' flow w', loop_guard st = true -> P st w ->
      body_step solve df t day st w st' flow w' -> P st' w') ->
  forall fuel st w st' w',
    P st w -> while_loop solve fuel df t day st w = Ret (st', w') -> P st' w'.
Proof.
  intros Hstep. apply while_loop_rule; eauto.
Qed.

(** Enough fuel: the loop never asks for more passes than the attempts
    that are left. *)
Lemma while_loop_not_OutOfFuel fuel st w :
  (attempt_limit - attempts st <= fuel)%nat ->
  while_loop solve fuel df t day st w <> OutOfFuel.
Proof.
  revert st w. induction fuel as [|fuel IH]; intros st w Hfuel; cbn.
  - destruct (loop_guard st) eqn:Hg; [|discriminate].
    unfold loop_guard in Hg. apply andb_true_iff in Hg as [_ Hg].
    apply Nat.ltb_lt in Hg. lia.
  - destruct (loop_guard st) eqn:Hg; [|discriminate].
    destruct (loop_body solve df t day st w) as [[[st1 flow] w1]| |] eqn:Hb; try discriminate.
    + apply loop_body_Ret in Hb as [_ Hb]. destruct flow; [|discriminate].
      apply IH. inversion Hb; subst; cbn; unfold attempt_limit in *; lia.
    + by apply loop_body_not_OutOfFuel in Hb.
Qed.

Lemma while_loop_total fuel st w :
  (attempt_limit - attempts st <= fuel)%nat ->
  ledger_known (length df) (rejected st) ->
  all_valued df (rejected st) = true ->
  exists st' w', while_loop solve fuel df t day st w = Ret (st', w').
Proof.
  revert st w. induction fuel as [|fuel IH]; intros st w Hfuel Hk Hv; cbn.
  - destruct (loop_guard st) eqn:Hg; [|eauto].
    unfold loop_guard in Hg. apply andb_true_iff in Hg as [_ Hg].
    apply Nat.ltb_lt in Hg. lia.
  - destruct (loop_guard st) eqn:Hg; [|eauto].
    destruct (loop_body_total st w Hk Hv) as (st1 & flow & w1 & Hb). rewrite Hb.
    apply loop_body_Ret in Hb as [_ Hb]. destruct flow; [|eauto].
    apply IH; [|by eapply body_step_known|by eapply body_step_valued].
    inversion Hb; subst; cbn; unfold attempt_limit in *; lia.
Qed.

(** Whatever the catalog, the loop returns or raises [TypeError]. *)
Lemma while_loop_ends fuel st w :
  (attempt_limit - attempts st <= fuel)%nat ->
  ledger_known (length df) (rejected st) ->
  (exists st' w', while_loop solve fuel df t day st w = Ret (st', w')) \/
  while_loop solve fuel df t day st w = Raise TypeError.
Proof.
  revert st w. induction fuel as [|fuel IH]; intros st w Hfuel Hk; cbn.
  - destruct (loop_guard st) eqn:Hg; [|eauto].
    unfold loop_guard in Hg. apply andb_true_iff in Hg as [_ Hg].
    apply Nat.ltb_lt in Hg. lia.
  - destruct (loop_guard st) eqn:Hg; [|eauto].
    destruct (loop_body_ends st w Hk) as [(st1 & flow & w1 & Hb)|Hb]; rewrite Hb; [|by right].
    apply loop_body_Ret in Hb as [_ Hb]. destruct flow; [|eauto].
    apply IH; [|by eapply body_step_known].
    inversion Hb; subst; cbn; unfold attempt_limit in *; lia.
Qed.

(** More fuel does not change a result. *)
Lemma while_loop_fuel_mono fuel fuel' st w r :
  (fuel <= fuel')%nat ->
  while_loop solve fuel df t day st w = Ret r ->
  while_loop solve fuel' df t day st w = Ret r.
Proof.
  revert fuel' st w. induction fuel as [|fuel IH]; intros fuel' st w Hle Hrun.
  - cbn in Hrun. destruct (loop_guard st) eqn:Hg; [discriminate|].
    destruct fuel'; cbn; by rewrite Hg.
  - destruct fuel' as [|fuel']; [lia|]. cbn in *.
    destruct (loop_guard st); [|done].
    destruct (loop_body solve df t day st w) as [[[st1 flow] w1]| |]; try discriminate.
    destruct flow; [|done]. apply IH; [lia|done].
Qed.
End EngineFacts.

(** ** One call of the search *)

Lemma feasible_avoids (df : DataFrame) (t : Targets) (ledger : Ledger)
    (day : option nat) (x : nat -> Z) :
  feasible (build_problem df t ledger day) x <->
  in_bounds (length df) x /\
  Forall (constraint_holds x) (nutrient_constraints df t) /\
  forall s, s ∈ ledger -> constraint_holds x (avoid_constraint s).
Proof.
  unfold feasible.
  change (lp_constraints (build_problem df t ledger day))
    with (nutrient_constraints df t ++ map avoid_constraint (elements ledger)).
  change (lp_vars (build_problem df t ledger day)) with (length df).
  rewrite Forall_app, Forall_fmap.
  split; intros (Hb & Hn & Ha); (split; [|split]); try assumption.
  - intros s Hs. rewrite Forall_forall in Ha. apply (Ha s). by apply elem_of_elements.
  - apply Forall_forall. intros s Hs. apply Ha. by apply elem_of_elements.
Qed.

Lemma feasible_meets_targets (df : DataFrame) (t : Targets) (ledger : Ledger)
    (day : option nat) (x : nat -> Z) :
  feasible (build_problem df t ledger day) x ->
  meets_targets df t (map x (seq 0 (length df))).
Proof.
  intros HF. apply feasible_avoids in HF as (_ & HN & _).
  unfold nutrient_constraints in HN.
  repeat (apply Forall_cons in HN as [? HN]). clear HN.
  unfold constraint_holds in *. cbv [c_sense c_terms c_rhs] in *.
  rewrite !lp_eval_column in *.
  unfold meets_targets, within_window. tauto.
Qed.

Lemma feasible_ledger_mono (df : DataFrame) (t : Targets) (l1 l2 : Ledger)
    (d1 d2 : option nat) (x : nat -> Z) :
  l1 ⊆ l2 ->
  feasible (build_problem df t l2 d1) x -> feasible (build_problem df t l1 d2) x.
Proof.
  rewrite !feasible_avoids. intros Hsub (Hb & Hn & Ha). (split; [|split]); try assumption.
  intros s Hs. apply Ha, Hsub, Hs.
Qed.

Lemma lp_cost_build (df : DataFrame) (t : Targets) (ledger : Ledger)
    (day : option nat) (x : nat -> Z) :
  lp_cost (build_problem df t ledger day) x
  = weighted_sum price df (map x (seq 0 (length df))).
Proof. unfold lp_cost. cbn. apply lp_eval_column. Qed.

Section SearchCall.
Context {W : Type}.
Variable solve : LpProblem -> W -> LpStatus * (nat -> Z) * W.

Lemma find_all_solutions_Ret fuel pdf t ex ledger day (w : @World W) sols ledger' w' :
  find_all_solutions solve fuel pdf t ex ledger day w = Ret (sols, ledger', w') <->
  exists st,
    while_loop solve fuel (exclude ex pdf) t day
      {| solutions := []; attempts := 0; rejected := ledger |} w = Ret (st, w') /\
    sols = solutions st /\ ledger' = rejected st.
Proof.
  unfold find_all_solutions.
  destruct (while_loop _ _ _ _ _ _ _) as [[st w1]| |]; split.
  - intros H. injection H as <- <- <-. eauto.
  - intros (st' & H & -> & ->). by injection H as <- <-.
  - discriminate.
  - intros (? & ? & _). discriminate.
  - discriminate.
  - intros (? & ? & _). discriminate.
Qed.

Lemma find_all_solutions_fuel_mono fuel fuel' pdf t ex ledger day (w : @World W) r :
  (fuel <= fuel')%nat ->
  find_all_solutions solve fuel pdf t ex ledger day w = Ret r ->
  find_all_solutions solve fuel' pdf t ex ledger day w = Ret r.
Proof.
  intros Hle. unfold find_all_solutions.
  destruct (while_loop solve fuel _ _ _ _ _) as [r0| |] eqn:H; try discriminate.
  by rewrite (while_loop_fuel_mono _ _ _ _ _ _ _ _ _ Hle H).
Qed.

(** C1: every solution a search returns keeps the four nutrient sums,
    weighted by quantity over the catalog the search ran on, within
    target * (1 - 0.05) and target * (1 + 0.05), both ends included,
    provided the solver's optimal answers satisfy the constraints. *)
Theorem nutrient_sums_within_tolerance fuel pdf t ex ledger day (w : @World W)
    sols ledger' w' :
  solver_sound solve ->
  find_all_solutions solve fuel pdf t ex ledger day w = Ret (sols, ledger', w') ->
  deviation = 5 # 100 /\
  forall s, s ∈ sols -> meets_targets (exclude ex pdf) t (quantities s).
Proof.
  intros Hsound Hrun. split; [reflexivity|].
  apply find_all_solutions_Ret in Hrun as (st & Hrun & -> & _).
  revert Hrun.
  apply (while_loop_invariant solve _ _ _
           (fun st _ => forall s, s ∈ solutions st ->
                          meets_targets (exclude ex pdf) t (quantities s))).
  - intros st0 w0 st1 flow w1 _ HP Hstep. inversion Hstep; subst; cbn; try assumption.
    intros s Hs. apply elem_of_app in Hs as [Hs|Hs]; [by apply HP|].
    apply list_elem_of_singleton in Hs as ->. cbn.
    eapply feasible_meets_targets, Hsound. eassumption.
  - cbn. intros s Hs. by apply elem_of_nil in Hs.
Qed.

(** What a call does to the ledger it was handed. *)
Lemma find_all_solutions_ledger fuel pdf t ex ledger day (w : @World W)
    sols ledger' w' :
  find_all_solutions solve fuel pdf t ex ledger day w = Ret (sols, ledger', w') ->
  ledger ⊆ ledger' /\
  NoDup (map ids sols) /\
  (forall s, s ∈ sols -> (ids s ∉ ledger) /\ (ids s ∈ ledger')) /\
  size ledger' = (size ledger + length sols)%nat.
Proof.
  intros Hrun. apply find_all_solutions_Ret in Hrun as (st & Hrun & -> & ->).
  revert Hrun.
  apply (while_loop_invariant solve _ _ _
           (fun st _ => ledger ⊆ rejected st /\
                        NoDup (map ids (solutions st)) /\
                        (forall s, s ∈ solutions st -> (ids s ∉ ledger) /\ (ids s ∈ rejected st)) /\
                        size (rejected st) = (size ledger + length (solutions st))%nat)).
  - intros st0 w0 st1 flow w1 _ (Hsub & Hnd & Hin & Hsz) Hstep.
    inversion Hstep as [| |x o Hsolve Hvalued Hnew]; subst; cbn;
      try (split; [|split; [|split]]; assumption).
    split; [etrans; [exact Hsub|apply union_subseteq_r]|]. split; [|split].
    + rewrite map_app. cbn. apply NoDup_app. split; [done|]. split; [|apply NoDup_singleton].
      intros i Hi Hi'. apply list_elem_of_singleton in Hi' as ->.
      apply list_elem_of_fmap in Hi as (s & Heq & Hs).
      apply Hnew. rewrite Heq. by apply Hin.
    + intros s Hs. apply elem_of_app in Hs as [Hs|Hs].
      * destruct (Hin s Hs) as [Ha Hb]. split; [exact Ha|by apply elem_of_union_r].
      * apply list_elem_of_singleton in Hs as ->. cbn.
        split; [|by apply elem_of_union_l, elem_of_singleton].
        intros Hc. apply Hnew. by apply Hsub.
    + rewrite size_union by (by apply disjoint_singleton_l).
      rewrite size_singleton, length_app. cbn. lia.
  - cbn. split; [done|]. split; [apply NoDup_nil_2|]. split; [|lia].
    intros s Hs. by apply elem_of_nil in Hs.
Qed.

Lemma find_all_solutions_known fuel pdf t ex ledger day (w : @World W)
    sols ledger' w' :
  find_all_solutions solve fuel pdf t ex ledger day w = Ret (sols, ledger', w') ->
  ledger_known (length (exclude ex pdf)) ledger /\
  ledger_known (length (exclude ex pdf)) ledger'.
Proof.
  intros Hrun. apply find_all_solutions_Ret in Hrun as (st & Hrun & -> & ->).
  assert (Hk : ledger_known (length (exclude ex pdf)) ledger).
  { destruct fuel; cbn in Hrun; [discriminate|].
    destruct (loop_body _ _ _ _ _ _) as [[[st1 fl] w1]| |] eqn:Hb; try discriminate.
    by apply loop_body_Ret in Hb as [Hk _]. }
  split; [exact Hk|]. revert Hrun.
  apply (while_loop_invariant solve _ _ _
           (fun st _ => ledger_known (length (exclude ex pdf)) (rejected st))); [|exact Hk].
  intros st0 w0 st1 flow w1 _ HP Hstep. by eapply body_step_known.
Qed.

(** C9: with a solver whose optimal answers are cheapest for the problem at
    hand, the costs of the solutions of one call never decrease along the
    returned list. *)
Theorem costs_non_decreasing fuel pdf t ex ledger day (w : @World W) sols ledger' w' :
  solver_optimal solve ->
  find_all_solutions solve fuel pdf t ex ledger day w = Ret (sols, ledger', w') ->
  forall j k sj sk, (j < k)%nat -> sols !! j = Some sj -> sols !! k = Some sk ->
    total_cost sj <= total_cost sk.
Proof.
  intros Hopt Hrun. apply find_all_solutions_Ret in Hrun as (st & Hrun & -> & _).
  set (df := exclude ex pdf) in *.
  enough (Hinv :
    (forall s y, s ∈ solutions st -> feasible (build_problem df t (rejected st) day) y ->
        total_cost s <= weighted_sum price df (map y (seq 0 (length df)))) /\
    (forall j k sj sk, (j < k)%nat -> solutions st !! j = Some sj ->
        solutions st !! k = Some sk -> total_cost sj <= total_cost sk)) by apply Hinv.
  revert Hrun.
  apply (while_loop_invariant solve _ _ _
    (fun st _ =>
      (forall s y, s ∈ solutions st -> feasible (build_problem df t (rejected st) day) y ->
          total_cost s <= weighted_sum price df (map y (seq 0 (length df)))) /\
      (forall j k sj sk, (j < k)%nat -> solutions st !! j = Some sj ->
          solutions st !! k = Some sk -> total_cost sj <= total_cost sk))).
  - intros st0 w0 st1 flow w1 _ [Hmin Hord] Hstep.
    inversion Hstep as [| |x o Hsolve Hvalued Hnew]; subst; cbn; try done.
    destruct (Hopt _ _ _ _ Hsolve) as [Hfeas Hbest].
    split.
    + intros s y Hs Hy.
      assert (Hy0 : feasible (build_problem df t (rejected st0) day) y).
      { eapply feasible_ledger_mono; [|exact Hy]. apply union_subseteq_r. }
      apply elem_of_app in Hs as [Hs|Hs]; [by apply Hmin|].
      apply list_elem_of_singleton in Hs as ->. cbn.
      specialize (Hbest y Hy0). by rewrite !lp_cost_build in Hbest.
    + intros j k sj sk Hjk Hj Hk.
      assert (Hkl : (k < length (solutions st0 ++ [make_solution df (map x (seq 0 (length df)))]))%nat)
        by (eapply lookup_lt_Some; eassumption).
      rewrite length_app in Hkl. cbn in Hkl.
      rewrite lookup_app_l in Hj by lia.
      destruct (decide (k < length (solutions st0))%nat) as [Hlt|Hge].
      * rewrite lookup_app_l in Hk by lia. exact (Hord j k sj sk Hjk Hj Hk).
      * rewrite lookup_app_r in Hk by lia.
        replace (k - length (solutions st0))%nat with 0%nat in Hk by lia.
        injection Hk as <-. cbn.
        apply Hmin; [|exact Hfeas]. eapply list_elem_of_lookup_2; eassumption.
  - cbn. split.
    + intros s y Hs. by apply elem_of_nil in Hs.
    + intros j k sj sk _ Hj. by rewrite lookup_nil in Hj.
Qed.
End SearchCall.

(** ** Attempts, solver calls and termination *)

Section SearchBudget.
Context {W : Type}.
Variable solve : LpProblem -> W -> LpStatus * (nat -> Z) * W.

(** The solver calls of a loop: one per pass, all optimal except possibly
    the last, and the reason the loop was left. *)
Lemma while_loop_calls fuel df t day ledger (w : @World W) st' w' :
  while_loop solve fuel df t day
    {| solutions := []; attempts := 0; rejected := ledger |} w = Ret (st', w') ->
  exists calls,
    solver_log w' = solver_log w ++ calls /\
    (length calls <= attempt_limit)%nat /\
    (length (solutions st') <= max_solutions)%nat /\
    (forall i e, calls !! i = Some e -> snd e <> Optimal -> S i = length calls) /\
    (length (solutions st') = max_solutions \/
     length calls = attempt_limit \/
     exists e, last calls = Some e /\ snd e <> Optimal).
Proof.
  apply (while_loop_rule solve df t day
    (fun st w1 => exists calls,
       solver_log w1 = solver_log w ++ calls /\
       length calls = attempts st /\
       (attempts st <= attempt_limit)%nat /\
       (length (solutions st) <= max_solutions)%nat /\
       Forall (fun e => snd e = Optimal) calls)
    (fun st1 w1 => exists calls,
       solver_log w1 = solver_log w ++ calls /\
       (length calls <= attempt_limit)%nat /\
       (length (solutions st1) <= max_solutions)%nat /\
       (forall i e, calls !! i = Some e -> snd e <> Optimal -> S i = length calls) /\
       (length (solutions st1) = max_solutions \/
        length calls = attempt_limit \/
        exists e, last calls = Some e /\ snd e <> Optimal))).
  - intros st0 w0 st1 w1 Hg (calls & Hlog & Hlen & Hatt & Hsols & Hopt) Hstep.
    unfold loop_guard in Hg. apply andb_true_iff in Hg as [Hg1 Hg2].
    apply Nat.ltb_lt in Hg1, Hg2.
    exists (calls ++ [(build_problem df t (rejected st0) day, Optimal)]).
    inversion Hstep; subst; cbn; rewrite Hlog, <- app_assoc, ?length_app; cbn;
      (split; [reflexivity|]); (split; [lia|]); (split; [lia|]);
      (split; [lia|]); apply Forall_app; (split; [assumption|]);
      by apply Forall_singleton.
  - intros st0 w0 st1 w1 Hg (calls & Hlog & Hlen & Hatt & Hsols & Hopt) Hstep.
    unfold loop_guard in Hg. apply andb_true_iff in Hg as [Hg1 Hg2].
    apply Nat.ltb_lt in Hg1, Hg2.
    inversion Hstep as [status x o Hsolve Hne| |]; subst.
    exists (calls ++ [(build_problem df t (rejected st1) day, status)]). cbn.
    rewrite Hlog, <- app_assoc, length_app. cbn.
    split; [reflexivity|]. split; [lia|]. split; [lia|]. split.
    + intros i e Hi Hbad.
      destruct (decide (i < length calls)%nat) as [Hlt|Hge].
      * rewrite lookup_app_l in Hi by lia.
        rewrite Forall_forall in Hopt. exfalso. apply Hbad, Hopt.
        eapply list_elem_of_lookup_2; eassumption.
      * apply lookup_lt_Some in Hi. rewrite length_app in Hi. cbn in Hi. lia.
    + right. right. eexists. split; [apply last_snoc|]. exact Hne.
  - intros st0 w0 Hg (calls & Hlog & Hlen & Hatt & Hsols & Hopt).
    exists calls. split; [assumption|]. split; [lia|]. split; [assumption|]. split.
    + intros i e Hi Hbad. rewrite Forall_forall in Hopt. exfalso. apply Hbad, Hopt.
      eapply list_elem_of_lookup_2; eassumption.
    + unfold loop_guard in Hg. apply andb_false_iff in Hg as [Hg|Hg];
        apply Nat.ltb_ge in Hg; [left|right; left]; lia.
  - exists []. cbn. rewrite app_nil_r. unfold attempt_limit, max_solutions.
    split; [reflexivity|]. split; [reflexivity|]. split; [lia|]. split; [lia|].
    apply Forall_nil_2.
Qed.

(** C4: when a solve comes back with a status other than optimal, the loop
    is left at once: that solve is the last solver call, the attempt counter
    is not advanced, and the solutions gathered so far are what is returned,
    be the list empty or not.  Seen from the whole call, a status other
    than optimal can only belong to the last solver call. *)
Theorem non_optimal_status_stops_search fuel df t day st (w : @World W) status x o :
  loop_guard st = true ->
  ledger_known (length df) (rejected st) ->
  solve (build_problem df t (rejected st) day) (oracle w) = (status, x, o) ->
  status <> Optimal ->
  while_loop solve (S fuel) df t day st w
    = Ret (st, {| oracle := o;
                  solver_log :=
                    solver_log w ++ [(build_problem df t (rejected st) day, status)] |})
  /\ forall pdf ex ledger w0 sols ledger' w',
       find_all_solutions solve fuel pdf t ex ledger day w0 = Ret (sols, ledger', w') ->
       exists calls,
         solver_log w' = solver_log w0 ++ calls /\
         forall i e, calls !! i = Some e -> snd e <> Optimal -> S i = length calls.
Proof.
  intros Hg Hk Hsolve Hne. split.
  - cbn. rewrite Hg.
    assert (Hb : loop_body solve df t day st w
                 = Ret (st, Break,
                        {| oracle := o;
                           solver_log :=
                             solver_log w ++ [(build_problem df t (rejected st) day, status)] |})).
    { apply loop_body_Ret. split; [assumption|]. eapply step_break; eassumption. }
    by rewrite Hb.
  - intros pdf ex ledger w0 sols ledger' w' Hrun.
    apply find_all_solutions_Ret in Hrun as (st' & Hrun & _ & _).
    apply while_loop_calls in Hrun as (calls & Hlog & _ & _ & Hlast & _).
    eauto.
Qed.

(** C7: a search call terminates.  A pass through the loop that returns
    made one solver call; when the status is not optimal it leaves the loop
    with the state untouched, otherwise it advances the attempt counter by
    one and either finds the support set in the ledger and changes nothing
    else, or appends the solution and makes the ledger exactly one element
    larger.  With fuel for [attempt_limit] passes a call never runs out of
    fuel.  Whenever it returns it has made at most [attempt_limit] = 50
    solver calls, of which only the last can be other than optimal, and
    holds at most [max_solutions] = 5 solutions, one for each element the
    ledger has gained; it stopped because five solutions were gathered, or
    fifty attempts were made, or a solve was not optimal.  It does return
    when the ledger names rows of the catalog only and every variable is in
    the problem; with a variable left out of the problem it may instead
    end in the [TypeError] of [int(None)]. *)
Theorem search_terminates fuel pdf t ex ledger day (w : @World W) :
  (attempt_limit <= fuel)%nat ->
  (forall st w1 st' flow w1',
     loop_body solve (exclude ex pdf) t day st w1 = Ret (st', flow, w1') ->
     exists status x o,
       solve (build_problem (exclude ex pdf) t (rejected st) day) (oracle w1)
         = (status, x, o) /\
       w1' = {| oracle := o;
                solver_log :=
                  solver_log w1
                    ++ [(build_problem (exclude ex pdf) t (rejected st) day, status)] |} /\
       (status <> Optimal /\ flow = Break /\ st' = st \/
        status = Optimal /\ flow = Continue /\ attempts st' = S (attempts st) /\
        ((solution_ids (exclude ex pdf) (map x (seq 0 (length (exclude ex pdf)))) ∈ rejected st) /\
           solutions st' = solutions st /\ rejected st' = rejected st
         \/
         (solution_ids (exclude ex pdf) (map x (seq 0 (length (exclude ex pdf)))) ∉ rejected st) /\
           solutions st'
             = solutions st
                 ++ [make_solution (exclude ex pdf) (map x (seq 0 (length (exclude ex pdf))))] /\
           rejected st'
             = {[ solution_ids (exclude ex pdf) (map x (seq 0 (length (exclude ex pdf)))) ]}
                 ∪ rejected st /\
           rejected st ⊂ rejected st' /\
           size (rejected st') = S (size (rejected st))))) /\
  find_all_solutions solve fuel pdf t ex ledger day w <> OutOfFuel /\
  (forall sols ledger' w',
     find_all_solutions solve fuel pdf t ex ledger day w = Ret (sols, ledger', w') ->
     exists calls,
       solver_log w' = solver_log w ++ calls /\
       (length calls <= 50)%nat /\
       (length sols <= 5)%nat /\
       size ledger' = (size ledger + length sols)%nat /\
       (forall i e, calls !! i = Some e -> snd e <> Optimal -> S i = length calls) /\
       (length sols = 5%nat \/ length calls = 50%nat \/
        exists e, last calls = Some e /\ snd e <> Optimal)) /\
  (ledger_known (length (exclude ex pdf)) ledger ->
   (all_valued (exclude ex pdf) ledger = true ->
    exists sols ledger' w',
      find_all_solutions solve fuel pdf t ex ledger day w = Ret (sols, ledger', w')) /\
   ((exists sols ledger' w',
       find_all_solutions solve fuel pdf t ex ledger day w = Ret (sols, ledger', w')) \/
    find_all_solutions solve fuel pdf t ex ledger day w = Raise TypeError)).
Proof.
  intros Hfuel. split; [|split; [|split]].
  - intros st w1 st' flow w1' Hb. apply loop_body_Ret in Hb as [_ Hstep].
    inversion Hstep as [status x o Hsolve Hne|x o Hsolve Hvalued Hold|x o Hsolve Hvalued Hnew];
      subst;
      [exists status, x, o|exists Optimal, x, o|exists Optimal, x, o];
      (split; [exact Hsolve|]); (split; [reflexivity|]).
    + left. by destruct st'.
    + right. cbn. split; [reflexivity|]. split; [reflexivity|]. split; [reflexivity|].
      left. by split.
    + right. cbn. split; [reflexivity|]. split; [reflexivity|]. split; [reflexivity|].
      right. split; [exact Hnew|]. split; [reflexivity|]. split; [reflexivity|].
      split; [set_solver|]. rewrite size_union by set_solver. by rewrite size_singleton.
  - unfold find_all_solutions.
    destruct (while_loop _ _ _ _ _ _ _) as [[st w1]| |] eqn:Hrun; try discriminate.
    intros _. eapply while_loop_not_OutOfFuel; [|exact Hrun]. cbn. unfold attempt_limit in *. lia.
  - intros sols ledger' w' Hcall.
    pose proof (find_all_solutions_ledger solve _ _ _ _ _ _ _ _ _ _ Hcall)
      as (_ & _ & _ & Hsize).
    apply find_all_solutions_Ret in Hcall as (st' & Hrun & -> & ->).
    destruct (while_loop_calls _ _ _ _ _ _ _ _ Hrun)
      as (calls & Hlog & Hlen & Hsols & Hlast & Hwhy).
    exists calls. by repeat (split; [assumption|]).
  - intros Hk. split.
    + intros Hv.
      destruct (while_loop_total solve (exclude ex pdf) t day fuel
                  {| solutions := []; attempts := 0; rejected := ledger |} w)
        as (st' & w' & Hrun); [cbn; unfold attempt_limit in *; lia|exact Hk|exact Hv|].
      exists (solutions st'), (rejected st'), w'. apply find_all_solutions_Ret. eauto.
    + destruct (while_loop_ends solve (exclude ex pdf) t day fuel
                  {| solutions := []; attempts := 0; rejected := ledger |} w)
        as [(st' & w' & Hrun)|Hrun]; [cbn; unfold attempt_limit in *; lia|exact Hk| |].
      * left. exists (solutions st'), (rejected st'), w'. apply find_all_solutions_Ret. eauto.
      * right. unfold find_all_solutions. by rewrite Hrun.
Qed.
End SearchBudget.

(** ** The constraint that avoids a rejected support set *)

Lemma lp_eval_avoid (s : list nat) (x : nat -> Z) :
  lp_eval (map (fun i => (i, 1)) s) x == inject_Z (Zsum (map x s)).
Proof.
  unfold lp_eval. induction s as [|i s IH]; cbn; [reflexivity|].
  rewrite inject_Z_plus, IH, Qmult_1_l. reflexivity.
Qed.

Lemma avoid_constraint_sum (s : list nat) (x : nat -> Z) :
  constraint_holds x (avoid_constraint s) <->
  (Zsum (map x s) <= Z.of_nat (length s) - 1)%Z.
Proof.
  unfold constraint_holds, avoid_constraint. cbv [c_sense c_terms c_rhs].
  rewrite lp_eval_avoid, <- Zle_Qle. reflexivity.
Qed.

Lemma Zsum_all_selected (s : list nat) (x : nat -> Z) :
  (forall i, i ∈ s -> (1 <= x i)%Z) -> (Z.of_nat (length s) <= Zsum (map x s))%Z.
Proof.
  induction s as [|i s IH]; intros H; [cbn; lia|].
  change (Zsum (map x (i :: s))) with (x i + Zsum (map x s))%Z.
  cbn [length]. rewrite Nat2Z.inj_succ.
  assert (1 <= x i)%Z by (apply H; left).
  assert (Z.of_nat (length s) <= Zsum (map x s))%Z by (apply IH; intros; apply H; by right).
  lia.
Qed.

Lemma Zsum_at_most_one (s : list nat) (x : nat -> Z) :
  (forall i, i ∈ s -> (x i <= 1)%Z) -> (Zsum (map x s) <= Z.of_nat (length s))%Z.
Proof.
  induction s as [|i s IH]; intros H; [cbn; lia|].
  change (Zsum (map x (i :: s))) with (x i + Zsum (map x s))%Z.
  cbn [length]. rewrite Nat2Z.inj_succ.
  assert (x i <= 1)%Z by (apply H; left).
  assert (Zsum (map x s) <= Z.of_nat (length s))%Z by (apply IH; intros; apply H; by right).
  lia.
Qed.

Lemma Zsum_one_left_out (s : list nat) (x : nat -> Z) (j : nat) :
  (forall i, i ∈ s -> (x i <= 1)%Z) -> j ∈ s -> x j = 0%Z ->
  (Zsum (map x s) <= Z.of_nat (length s) - 1)%Z.
Proof.
  induction s as [|i s IH]; intros H Hj Hz; [by apply elem_of_nil in Hj|].
  change (Zsum (map x (i :: s))) with (x i + Zsum (map x s))%Z.
  cbn [length]. rewrite Nat2Z.inj_succ.
  assert (x i <= 1)%Z by (apply H; left).
  apply elem_of_cons in Hj as [->|Hj].
  - assert (Zsum (map x s) <= Z.of_nat (length s))%Z
      by (apply Zsum_at_most_one; intros; apply H; by right).
    lia.
  - assert (Zsum (map x s) <= Z.of_nat (length s) - 1)%Z
      by (apply IH; [intros; apply H; by right|done..]).
    lia.
Qed.

(** C3, as the code has it: the constraint built for a support set S holds
    exactly when the quantities over S sum to at most |S| - 1.  So it is
    violated by every assignment that selects all members of S, whatever
    the amounts, and it holds for an assignment that leaves a member of S
    out when no quantity over S exceeds one. *)
Theorem avoid_constraint_meaning (s : list nat) (x : nat -> Z) :
  (constraint_holds x (avoid_constraint s) <->
   (Zsum (map x s) <= Z.of_nat (length s) - 1)%Z) /\
  ((forall i, i ∈ s -> (1 <= x i)%Z) -> ~ constraint_holds x (avoid_constraint s)) /\
  ((forall i, i ∈ s -> (x i <= 1)%Z) -> (exists j, j ∈ s /\ x j = 0%Z) ->
   constraint_holds x (avoid_constraint s)).
Proof.
  split; [apply avoid_constraint_sum|]. split.
  - intros Hall Hc. apply avoid_constraint_sum in Hc.
    apply Zsum_all_selected in Hall. lia.
  - intros Hle (j & Hj & Hz). apply avoid_constraint_sum.
    by apply Zsum_one_left_out with j.
Qed.

(** C3 as claimed fails: with S = (0, 1), two portions of row 0 alone have
    a support strictly inside S, and two portions of row 0 with one of
    row 1 have support exactly S; the constraint rejects both. *)
Lemma avoid_constraint_rejects_more :
  let s := [0; 1]%nat in
  let x := fun i : nat => if (i =? 0)%nat then 2%Z else 0%Z in
  let y := fun i : nat => if (i =? 0)%nat then 2%Z else if (i =? 1)%nat then 1%Z else 0%Z in
  (in_bounds 2 x /\ support_within x s /\ x 1%nat = 0%Z /\
   ~ constraint_holds x (avoid_constraint s)) /\
  (in_bounds 2 y /\ support_is y s /\ ~ constraint_holds y (avoid_constraint s)).
Proof.
  cbv zeta. split; [split; [|split; [|split]]|split; [|split]].
  - intros i Hi. destruct i as [|[|i]]; cbn; lia.
  - intros i Hi. destruct i as [|[|i]]; cbn in Hi; [set_solver|lia|lia].
  - reflexivity.
  - rewrite avoid_constraint_sum. cbn. lia.
  - intros i Hi. destruct i as [|[|i]]; cbn; lia.
  - intros i. destruct i as [|[|i]]; cbn; split; intros H; try lia;
      try (by repeat constructor).
    exfalso. repeat (apply elem_of_cons in H as [H|H]; [discriminate|]).
    by apply elem_of_nil in H.
  - rewrite avoid_constraint_sum. cbn. lia.
Qed.

(** ** The exhaustive solver is sound and optimal *)

Lemma assignments_spec (n : nat) (a : list Z) :
  In a (assignments n) <-> length a = n /\ Forall (fun q => 0 <= q <= 3)%Z a.
Proof.
  revert a. induction n as [|n IH]; intros a; cbn [assignments].
  - split.
    + intros [<-|[]]. split; [reflexivity|constructor].
    + intros [Hl _]. left. symmetry. by apply nil_length_inv.
  - rewrite in_flat_map. split.
    + intros (b & Hb & Ha). apply IH in Hb as [Hl Hf].
      apply in_map_iff in Ha as (q & <- & Hq). split; [cbn; lia|].
      constructor; [|exact Hf]. cbn in Hq. lia.
    + intros [Hl Hf]. destruct a as [|q b]; [discriminate|].
      apply Forall_cons in Hf as [Hq Hf]. exists b. split.
      * apply IH. split; [by injection Hl|exact Hf].
      * apply in_map_iff. exists q. split; [reflexivity|]. cbn. lia.
Qed.

Lemma as_fun_tabulate (y : nat -> Z) (n i : nat) :
  (i < n)%nat -> as_fun (map y (seq 0 n)) i = y i.
Proof.
  intros Hi. unfold as_fun.
  rewrite (nth_indep _ 0%Z (y 0%nat)) by (rewrite length_map, length_seq; lia).
  rewrite map_nth, seq_nth by lia. reflexivity.
Qed.

Lemma lp_eval_ext (terms : list (nat * Q)) (x y : nat -> Z) :
  (forall tm, In tm terms -> x (fst tm) = y (fst tm)) -> lp_eval terms x = lp_eval terms y.
Proof.
  unfold lp_eval. induction terms as [|tm terms IH]; intros H; [reflexivity|].
  cbn. rewrite (H tm) by (by left). f_equal. apply IH. intros ? ?. apply H. by right.
Qed.

Lemma lp_eval_known (n : nat) (terms : list (nat * Q)) (y : nat -> Z) :
  terms_known n terms = true ->
  lp_eval terms (as_fun (map y (seq 0 n))) = lp_eval terms y.
Proof.
  intros Hk. apply lp_eval_ext. intros tm Hin.
  unfold terms_known in Hk. rewrite forallb_forall in Hk.
  apply as_fun_tabulate, Nat.ltb_lt, Hk, Hin.
Qed.

Lemma constraint_holdsb_spec (x : nat -> Z) (c : LpConstraint) :
  constraint_holdsb x c = true <-> constraint_holds x c.
Proof.
  unfold constraint_holdsb, constraint_holds. destruct (c_sense c); apply Qle_bool_iff.
Qed.

Lemma satisfies_spec (p : LpProblem) (a : list Z) :
  satisfies p a = true <-> Forall (constraint_holds (as_fun a)) (lp_constraints p).
Proof.
  unfold satisfies. rewrite forallb_forall, Forall_forall.
  split; intros H c Hc.
  - apply constraint_holdsb_spec, H, list_elem_of_In, Hc.
  - apply constraint_holdsb_spec, H, list_elem_of_In, Hc.
Qed.

Lemma as_fun_in_bounds (n : nat) (a : list Z) :
  In a (assignments n) -> in_bounds n (as_fun a).
Proof.
  intros Ha i Hi. apply assignments_spec in Ha as [Hl Hf].
  unfold as_fun. rewrite Forall_forall in Hf. apply Hf.
  apply list_elem_of_In, nth_In. lia.
Qed.

(** Folding [cheaper] yields a member of the list that costs no more than
    any other member. *)
Lemma fold_cheaper (p : LpProblem) (rest : list (list Z)) (a : list Z) :
  In (fold_left (cheaper p) rest a) (a :: rest) /\
  forall b, In b (a :: rest) ->
    lp_cost p (as_fun (fold_left (cheaper p) rest a)) <= lp_cost p (as_fun b).
Proof.
  revert a. induction rest as [|c rest IH]; intros a; cbn [fold_left].
  - split; [by left|]. intros b [<-|[]]. apply Qle_refl.
  - destruct (IH (cheaper p a c)) as [Hin Hmin]. split.
    + destruct Hin as [Heq|Hin]; [|right; by right].
      rewrite <- Heq. unfold cheaper. destruct (Qle_bool _ _); [by left|right; by left].
    + assert (Hac : lp_cost p (as_fun (cheaper p a c)) <= lp_cost p (as_fun a) /\
                    lp_cost p (as_fun (cheaper p a c)) <= lp_cost p (as_fun c)).
      { unfold cheaper. destruct (Qle_bool _ _) eqn:Hle.
        - apply Qle_bool_iff in Hle. split; [apply Qle_refl|exact Hle].
        - split; [|apply Qle_refl].
          destruct (Qlt_le_dec (lp_cost p (as_fun c)) (lp_cost p (as_fun a))) as [Hlt|Hle'].
          + by apply Qlt_le_weak.
          + apply Qle_bool_iff in Hle'. congruence. }
      intros b [<-|[<-|Hb]].
      * eapply Qle_trans; [apply Hmin; by left|apply Hac].
      * eapply Qle_trans; [apply Hmin; by left|apply Hac].
      * apply Hmin. by right.
Qed.

Lemma brute_force_optimal : solver_optimal brute_force.
Proof.
  intros p o x o' Hsolve. unfold brute_force in Hsolve.
  destruct (problem_known p) eqn:Hknown; [|discriminate].
  destruct (List.filter _ _) as [|a rest] eqn:Hcands; [discriminate|].
  injection Hsolve as <- _.
  destruct (fold_cheaper p rest a) as [Hin Hmin].
  rewrite <- Hcands in Hin, Hmin.
  apply filter_In in Hin as [Hin Hsat].
  unfold problem_known in Hknown. apply andb_true_iff in Hknown as [Hobj Hcons].
  rewrite forallb_forall in Hcons.
  split.
  - split; [by apply as_fun_in_bounds|by apply satisfies_spec].
  - intros y [Hb Hy].
    set (b := map y (seq 0 (lp_vars p))).
    assert (Hcost : lp_cost p (as_fun b) = lp_cost p y) by (by apply lp_eval_known).
    rewrite <- Hcost. apply Hmin. apply filter_In. split.
    + apply assignments_spec. unfold b. rewrite length_map, length_seq.
      split; [reflexivity|]. apply Forall_forall. intros q Hq.
      apply list_elem_of_In, in_map_iff in Hq as (i & <- & Hi).
      apply Hb. apply in_seq in Hi. lia.
    + apply satisfies_spec. rewrite Forall_forall in Hy |- *. intros c Hc.
      specialize (Hy c Hc). unfold constraint_holds, b in *.
      rewrite lp_eval_known by (apply Hcons, list_elem_of_In, Hc). exact Hy.
Qed.

Lemma brute_force_sound : solver_sound brute_force.
Proof. intros p o x o' H. by apply brute_force_optimal in H as [? _]. Qed.

(** ** The shared default ledger *)

(** C10: calls that omit [rejected_solutions] share one default set.  The
    support sets the first such call emits are in that set when the next
    such call starts, stay in it, and are never returned by the next call,
    whatever catalog, targets or day it is made for.  On the three-item
    catalog a call made first finds two solutions, made second it finds
    none. *)
Theorem default_ledger_is_shared :
  (forall W (solve : LpProblem -> W -> LpStatus * (nat -> Z) * W)
      fuel1 df1 t1 ex1 day1 fuel2 df2 t2 ex2 day2 defaults w
      sols1 r1 defaults1 w1 sols2 r2 defaults2 w2,
    call_find_all_solutions solve fuel1 df1 t1 ex1 None day1 defaults w
      = Ret (sols1, r1, defaults1, w1) ->
    call_find_all_solutions solve fuel2 df2 t2 ex2 None day2 defaults1 w1
      = Ret (sols2, r2, defaults2, w2) ->
    forall s1, s1 ∈ sols1 ->
      ids s1 ∈ default_rejected_solutions defaults1 /\
      ids s1 ∈ default_rejected_solutions defaults2 /\
      forall s2, s2 ∈ sols2 -> ids s2 <> ids s1) /\
  (found_ids (call_find_all_solutions brute_force 50 catalog3 targets3 [] None (Some 1%nat)
                defaults_at_import (start tt))
     = Some [[0; 1]; [2]]%nat /\
   forall sols1 r1 defaults1 w1,
     call_find_all_solutions brute_force 50 catalog3 targets3 [] None (Some 1%nat)
       defaults_at_import (start tt) = Ret (sols1, r1, defaults1, w1) ->
     found_ids (call_find_all_solutions brute_force 50 catalog3 targets3 [] None (Some 1%nat)
                  defaults1 w1)
       = Some []).
Proof.
  split.
  - intros W solve fuel1 df1 t1 ex1 day1 fuel2 df2 t2 ex2 day2 defaults w
      sols1 r1 defaults1 w1 sols2 r2 defaults2 w2 H1 H2 s1 Hs1.
    unfold call_find_all_solutions in H1, H2.
    destruct (find_all_solutions solve fuel1 _ _ _ _ _ _) as [[[a1 l1] v1]| |] eqn:E1;
      try discriminate.
    injection H1 as <- _ <- <-.
    destruct (find_all_solutions solve fuel2 _ _ _ _ _ _) as [[[a2 l2] v2]| |] eqn:E2;
      try discriminate.
    injection H2 as <- _ <- _. cbn in *.
    apply find_all_solutions_ledger in E1 as (_ & _ & Hin1 & _).
    apply find_all_solutions_ledger in E2 as (Hsub & _ & Hin2 & _).
    destruct (Hin1 s1 Hs1) as [_ Hl1].
    split; [exact Hl1|]. split; [by apply Hsub|].
    intros s2 Hs2 Heq. destruct (Hin2 s2 Hs2) as [Hout _].
    apply Hout. by rewrite Heq.
  - split; [by vm_compute|].
    intros sols1 r1 defaults1 w1 H.
    vm_compute in H. injection H as <- <- <- <-. by vm_compute.
Qed.

(** ** The ledger along a session *)

Import handlers.

Lemma ledger_chain_weaken (evs : list Event) (l1 l2 : Ledger) (fresh : list Solution)
    (final : Ledger) :
  l1 ⊆ l2 -> ledger_chain l2 [] evs final -> ledger_chain l1 fresh evs final.
Proof.
  revert fresh. induction evs as [|e evs IH]; intros fresh Hl; cbn.
  - intros H. by transitivity l2.
  - destruct e; try (by apply IH).
    + intros (H1 & H2). split; [by transitivity l2|exact H2].
    + intros (H1 & _). by apply elem_of_nil in H1.
Qed.

Lemma ledger_chain_subseteq (evs : list Event) (ledger : Ledger) (fresh : list Solution)
    (final : Ledger) :
  ledger_chain ledger fresh evs final -> ledger ⊆ final.
Proof.
  revert ledger fresh. induction evs as [|e evs IH]; intros ledger fresh; cbn; [done|].
  destruct e; try (by apply IH).
  - intros (H1 & H2 & _ & _ & H3). apply IH in H3.
    transitivity before; [done|]. by transitivity after.
  - intros (_ & _ & H3). by apply IH in H3.
Qed.

Lemma ledger_chain_app (evs1 evs2 : list Event) (ledger mid final : Ledger)
    (fresh : list Solution) :
  ledger_chain ledger fresh evs1 mid -> ledger_chain mid [] evs2 final ->
  ledger_chain ledger fresh (evs1 ++ evs2) final.
Proof.
  revert ledger fresh. induction evs1 as [|e evs1 IH]; intros ledger fresh; cbn.
  - intros H1 H2. eapply ledger_chain_weaken; [exact H1|exact H2].
  - destruct e; try (by apply IH).
    + intros (H1 & H2 & H3 & H4 & H5) H6. repeat (split; [assumption|]). by apply IH.
    + intros (H1 & H2 & H3) H6. repeat (split; [assumption|]). by apply IH.
Qed.

(** Each search of a chain: the ledger it was given contains the ledger the
    chain started from, it only added to it, and what it found is new and
    pairwise distinct. *)
Lemma ledger_chain_search (evs : list Event) (ledger : Ledger) (fresh : list Solution)
    (final : Ledger) i d before found after :
  ledger_chain ledger fresh evs final ->
  evs !! i = Some (Searched d before found after) ->
  ledger ⊆ before /\ before ⊆ after /\ after ⊆ final /\ NoDup (map ids found) /\
  forall sol, sol ∈ found -> (ids sol ∉ before) /\ (ids sol ∈ after).
Proof.
  revert ledger fresh i. induction evs as [|e evs IH]; intros ledger fresh i Hc Hi.
  - by rewrite lookup_nil in Hi.
  - destruct i as [|i]; cbn in Hi.
    + injection Hi as ->. cbn in Hc. destruct Hc as (H1 & H2 & H3 & H4 & H5).
      apply ledger_chain_subseteq in H5. done.
    + destruct e; cbn in Hc; try (by eapply IH).
      * destruct Hc as (H1 & H2 & _ & _ & H5).
        destruct (IH _ _ _ H5 Hi) as (H6 & H7). split; [|exact H7].
        transitivity before0; [done|]. by transitivity after0.
      * destruct Hc as (_ & _ & H5). by eapply IH.
Qed.

(** A shown solution either was fresh when the chain began, or is not in
    the ledger the chain began with. *)
Lemma ledger_chain_proposed (evs : list Event) (ledger : Ledger) (fresh : list Solution)
    (final : Ledger) j d sol :
  ledger_chain ledger fresh evs final ->
  evs !! j = Some (Proposed d sol) ->
  sol ∈ fresh \/ ids sol ∉ ledger.
Proof.
  revert ledger fresh j. induction evs as [|e evs IH]; intros ledger fresh j Hc Hj.
  - by rewrite lookup_nil in Hj.
  - destruct j as [|j]; cbn in Hj.
    + injection Hj as ->. cbn in Hc. left. apply Hc.
    + destruct e; cbn in Hc; try (by eapply IH).
      * destruct Hc as (H1 & H2 & _ & H4 & H5). right.
        destruct (IH _ _ _ H5 Hj) as [Hin|Hout].
        -- intros Hc. apply (H4 sol Hin). by apply H1.
        -- intros Hc. apply Hout. by apply H2, H1.
      * destruct Hc as (_ & _ & H5). right.
        destruct (IH _ _ _ H5 Hj) as [Hin|Hout]; [by apply elem_of_nil in Hin|done].
Qed.

Lemma ledger_chain_proposed_once (evs : list Event) (ledger : Ledger) (fresh : list Solution)
    (final : Ledger) i j d1 sol1 d2 sol2 :
  ledger_chain ledger fresh evs final -> (i < j)%nat ->
  evs !! i = Some (Proposed d1 sol1) -> evs !! j = Some (Proposed d2 sol2) ->
  ids sol1 <> ids sol2.
Proof.
  revert ledger fresh i j. induction evs as [|e evs IH]; intros ledger fresh i j Hc Hij Hi Hj.
  - by rewrite lookup_nil in Hi.
  - destruct j as [|j]; [lia|]. cbn in Hj.
    destruct i as [|i]; cbn in Hi.
    + injection Hi as ->. cbn in Hc. destruct Hc as (_ & Hin & Hc).
      destruct (ledger_chain_proposed _ _ _ _ _ _ _ Hc Hj) as [Hf|Hout];
        [by apply elem_of_nil in Hf|].
      intros Heq. apply Hout. by rewrite <- Heq.
    + assert (Hij' : (i < j)%nat) by lia.
      destruct e; cbn in Hc; try (by eapply IH).
      * destruct Hc as (_ & _ & _ & _ & H5). by eapply IH.
      * destruct Hc as (_ & _ & H5). by eapply IH.
Qed.

Lemma ledger_chain_search_pair (evs : list Event) (ledger : Ledger) (fresh : list Solution)
    (final : Ledger) i j d1 b1 f1 a1 d2 b2 f2 a2 :
  ledger_chain ledger fresh evs final -> (i < j)%nat ->
  evs !! i = Some (Searched d1 b1 f1 a1) -> evs !! j = Some (Searched d2 b2 f2 a2) ->
  a1 ⊆ b2.
Proof.
  revert ledger fresh i j. induction evs as [|e evs IH]; intros ledger fresh i j Hc Hij Hi Hj.
  - by rewrite lookup_nil in Hi.
  - destruct j as [|j]; [lia|]. cbn in Hj.
    destruct i as [|i]; cbn in Hi.
    + injection Hi as ->. cbn in Hc. destruct Hc as (_ & _ & _ & _ & Hc).
      by destruct (ledger_chain_search _ _ _ _ _ _ _ _ _ Hc Hj) as (H & _).
    + assert (Hij' : (i < j)%nat) by lia.
      destruct e; cbn in Hc; try (by eapply IH).
      * destruct Hc as (_ & _ & _ & _ & H5). by eapply IH.
      * destruct Hc as (_ & _ & H5). by eapply IH.
Qed.

(** ** Presenting a day *)

Lemma day_log_refl {W} df t ex d (w : @World W) : day_log df t ex d w w.
Proof. exists []. split; [by rewrite app_nil_r|constructor]. Qed.

Lemma day_log_trans {W} df t ex d d' (w w1 w2 : @World W) :
  (d <= d')%nat -> day_log df t ex d w w1 -> day_log df t ex d' w1 w2 ->
  day_log df t ex d w w2.
Proof.
  intros Hd (c1 & H1 & F1) (c2 & H2 & F2). exists (c1 ++ c2).
  split; [by rewrite H2, H1, app_assoc|].
  apply Forall_app. split; [exact F1|].
  eapply Forall_impl; [exact F2|]. cbn. intros e (l & d0 & He & Hle).
  exists l, d0. split; [exact He|lia].
Qed.

Section SessionFacts.
Context {W : Type}.
Variable solve : LpProblem -> W -> LpStatus * (nat -> Z) * W.

Lemma find_all_solutions_log fuel pdf t ex ledger d (w : @World W) sols ledger' w' :
  find_all_solutions solve fuel pdf t ex ledger (Some d) w = Ret (sols, ledger', w') ->
  day_log pdf t ex d w w'.
Proof.
  intros Hrun. apply find_all_solutions_Ret in Hrun as (st & Hrun & _ & _).
  revert Hrun.
  apply (while_loop_invariant solve _ _ _ (fun _ w1 => day_log pdf t ex d w w1)).
  - intros st0 w0 st1 flow w1 _ HP Hstep.
    eapply day_log_trans; [reflexivity|exact HP|].
    inversion Hstep; subst; eexists; (split; [reflexivity|]);
      apply Forall_singleton; eexists _, d; split; reflexivity || lia.
  - apply day_log_refl.
Qed.

Lemma find_all_solutions_total fuel pdf t ex ledger day (w : @World W) :
  (attempt_limit <= fuel)%nat ->
  ledger_known (length (exclude ex pdf)) ledger ->
  all_valued (exclude ex pdf) ledger = true ->
  exists sols ledger' w',
    find_all_solutions solve fuel pdf t ex ledger day w = Ret (sols, ledger', w').
Proof.
  intros Hfuel Hk Hv.
  destruct (while_loop_total solve (exclude ex pdf) t day fuel
              {| solutions := []; optimization.attempts := 0; rejected := ledger |} w)
    as (st' & w' & Hrun); [cbn; unfold attempt_limit in *; lia|exact Hk|exact Hv|].
  exists (solutions st'), (rejected st'), w'. apply find_all_solutions_Ret. eauto.
Qed.

Lemma find_all_solutions_ends fuel pdf t ex ledger day (w : @World W) :
  (attempt_limit <= fuel)%nat ->
  ledger_known (length (exclude ex pdf)) ledger ->
  (exists sols ledger' w',
     find_all_solutions solve fuel pdf t ex ledger day w = Ret (sols, ledger', w')) \/
  find_all_solutions solve fuel pdf t ex ledger day w = Raise TypeError.
Proof.
  intros Hfuel Hk.
  destruct (while_loop_ends solve (exclude ex pdf) t day fuel
              {| solutions := []; optimization.attempts := 0; rejected := ledger |} w)
    as [(st' & w' & Hrun)|Hrun]; [cbn; unfold attempt_limit in *; lia|exact Hk| |].
  - left. exists (solutions st'), (rejected st'), w'. apply find_all_solutions_Ret. eauto.
  - right. unfold find_all_solutions. by rewrite Hrun.
Qed.

(** A call that returns a solution has read a value for every variable,
    and the ledger it leaves names at least what the one it got named. *)
Lemma find_all_solutions_valued fuel pdf t ex ledger day (w : @World W) sols ledger' w' :
  find_all_solutions solve fuel pdf t ex ledger day w = Ret (sols, ledger', w') ->
  (all_valued (exclude ex pdf) ledger = true -> all_valued (exclude ex pdf) ledger' = true) /\
  (sols <> [] -> all_valued (exclude ex pdf) ledger' = true).
Proof.
  intros Hrun. apply find_all_solutions_Ret in Hrun as (st & Hrun & -> & ->).
  revert Hrun.
  apply (while_loop_invariant solve _ _ _
           (fun st _ =>
              (all_valued (exclude ex pdf) ledger = true ->
               all_valued (exclude ex pdf) (rejected st) = true) /\
              (solutions st <> [] -> all_valued (exclude ex pdf) (rejected st) = true))).
  - intros st0 w0 st1 flow w1 _ [HP1 HP2] Hstep. split.
    + intros Hv. eapply body_step_valued; [exact Hstep|by apply HP1].
    + intros Hne. inversion Hstep as [| |x o Hsolve Hvalued Hnew]; subst; cbn in *.
      * by apply HP2.
      * by apply HP2.
      * eapply all_valued_mono; [|exact Hvalued]. apply union_subseteq_r.
  - cbn. by split.
Qed.

Lemma present_day_plan_spec fuel data (w : @World W) s evs w' :
  present_day_plan solve fuel data w = Ret (s, evs, w') ->
  (exists final,
     ledger_chain (rejected_solutions data) [] evs final /\
     match s with
     | reviewing_day data' =>
         rejected_solutions data' = final /\
         ledger_known (length (exclude (excluded_products data) (products_df data))) final
     | cleared => True
     end) /\
  day_log (products_df data) (targets data) (excluded_products data) (current_day data) w w' /\
  resolved data s evs.
Proof.
  revert data w s evs w'. induction fuel as [|fuel IH]; intros data w s evs w' Hrun;
    [discriminate|].
  cbn [present_day_plan] in Hrun.
  destruct (find_all_solutions _ _ _ _ _ _ _ _) as [[[found ledger] w1]| |] eqn:Hcall;
    try discriminate.
  pose proof (find_all_solutions_ledger _ _ _ _ _ _ _ _ _ _ _ Hcall) as (Hsub & Hnd & Hnew & _).
  pose proof (find_all_solutions_known _ _ _ _ _ _ _ _ _ _ _ Hcall) as (_ & Hkn).
  pose proof (find_all_solutions_log _ _ _ _ _ _ _ _ _ _ Hcall) as Hlog.
  destruct found as [|sol found]; cbn -[Nat.ltb] in Hrun.
  - (* nothing found: the day is marked failed *)
    destruct (current_day data <? 7)%nat eqn:Hday.
    + destruct (present_day_plan solve fuel _ w1) as [[[s2 evs2] w2]| |] eqn:Hnext;
        try discriminate.
      injection Hrun as <- <- <-.
      apply IH in Hnext as ((final & Hchain & Hfinal) & Hlog2 & Hres). cbn in *.
      split; [|split].
      * exists final. split; [|exact Hfinal].
        split; [done|]. split; [done|]. split; [done|]. split; [done|]. exact Hchain.
      * eapply day_log_trans; [|exact Hlog|exact Hlog2]. lia.
      * destruct s2 as [data2|]; cbn in *.
        -- destruct Hres as (-> & -> & -> & -> & Hsol & k & -> & ->).
           repeat (split; [done|]). exists (S k). split; [lia|].
           by rewrite <- app_assoc.
        -- destruct Hres as (k & cost & Hlast). exists (S k), cost.
           destruct evs2 as [|e evs2]; [discriminate|].
           cbn [last] in *. rewrite Hlast. by rewrite <- app_assoc.
    + injection Hrun as <- <- <-. cbn. split; [|split].
      * exists ledger. split; [|done].
        split; [done|]. split; [done|]. split; [done|]. split; [done|]. done.
      * exact Hlog.
      * exists 0%nat, (Qsum (map total_cost (weekly_plan data ++ [failed (current_day data)]))).
        reflexivity.
  - (* the first solution is shown *)
    injection Hrun as <- <- <-. cbn. split; [|split].
    + exists ledger. split; [|done].
      split; [done|]. split; [done|]. split; [done|]. split; [done|].
      split; [by left|]. split; [apply Hnew; by left|done].
    + exact Hlog.
    + repeat (split; [done|]). split.
      * exists sol. split; [done|]. apply Hnew. by left.
      * exists 0%nat. split; [lia|]. cbn. by rewrite app_nil_r.
Qed.

(** With fuel for the loop and for the days that are left, presenting a
    day always comes back. *)
Lemma present_day_plan_total fuel data (w : @World W) :
  (attempt_limit < fuel)%nat ->
  (attempt_limit + 8 <= fuel + current_day data)%nat ->
  ledger_known (length (exclude (excluded_products data) (products_df data)))
    (rejected_solutions data) ->
  all_valued (exclude (excluded_products data) (products_df data)) (rejected_solutions data)
    = true ->
  exists s evs w', present_day_plan solve fuel data w = Ret (s, evs, w').
Proof.
  revert data w. induction fuel as [|fuel IH]; intros data w Hf1 Hf2 Hk Hv; [lia|].
  cbn [present_day_plan].
  destruct (find_all_solutions_total fuel (products_df data) (targets data)
              (excluded_products data) (rejected_solutions data)
              (Some (current_day data)) w) as (found & ledger & w1 & Hcall);
    [lia|exact Hk|exact Hv|].
  rewrite Hcall.
  destruct found as [|sol found]; [|eauto].
  pose proof (find_all_solutions_known _ _ _ _ _ _ _ _ _ _ _ Hcall) as (_ & Hkn).
  pose proof (find_all_solutions_valued _ _ _ _ _ _ _ _ _ _ Hcall) as (Hvn & _).
  cbn -[Nat.ltb].
  destruct (current_day data <? 7)%nat eqn:Hday; [|cbn; eauto].
  apply Nat.ltb_lt in Hday.
  destruct (IH (set_day_plan (set_rejected data ledger (attempts data))
                  (S (current_day data)) (weekly_plan data ++ [failed (current_day data)])) w1)
    as (s & evs & w2 & Hnext);
    [lia|cbn; unfold attempt_limit in *; lia|exact Hkn|by apply Hvn|].
  rewrite Hnext. eauto.
Qed.

(** Whatever the catalog, presenting a day comes back or ends in the
    [TypeError] of a variable without a value. *)
Lemma present_day_plan_ends fuel data (w : @World W) :
  (attempt_limit < fuel)%nat ->
  (attempt_limit + 8 <= fuel + current_day data)%nat ->
  ledger_known (length (exclude (excluded_products data) (products_df data)))
    (rejected_solutions data) ->
  (exists s evs w', present_day_plan solve fuel data w = Ret (s, evs, w')) \/
  present_day_plan solve fuel data w = Raise TypeError.
Proof.
  revert data w. induction fuel as [|fuel IH]; intros data w Hf1 Hf2 Hk; [lia|].
  cbn [present_day_plan].
  destruct (find_all_solutions_ends fuel (products_df data) (targets data)
              (excluded_products data) (rejected_solutions data)
              (Some (current_day data)) w) as [(found & ledger & w1 & Hcall)|Hcall];
    [lia|exact Hk| |]; rewrite Hcall; [|by right].
  destruct found as [|sol found]; [|eauto].
  pose proof (find_all_solutions_known _ _ _ _ _ _ _ _ _ _ _ Hcall) as (_ & Hkn).
  cbn -[Nat.ltb].
  destruct (current_day data <? 7)%nat eqn:Hday; [|cbn; eauto].
  apply Nat.ltb_lt in Hday.
  destruct (IH (set_day_plan (set_rejected data ledger (attempts data))
                  (S (current_day data)) (weekly_plan data ++ [failed (current_day data)])) w1)
    as [(s & evs & w2 & Hnext)|Hnext];
    [lia|cbn; unfold attempt_limit in *; lia|exact Hkn| |]; rewrite Hnext; eauto.
Qed.

(** A proposal is made only after every variable had a value. *)
Lemma present_day_plan_valued fuel data (w : @World W) data' evs w' :
  present_day_plan solve fuel data w = Ret (reviewing_day data', evs, w') ->
  all_valued (exclude (excluded_products data') (products_df data')) (rejected_solutions data')
    = true.
Proof.
  revert data w evs w'. induction fuel as [|fuel IH]; intros data w evs w' Hrun;
    [discriminate|].
  cbn [present_day_plan] in Hrun.
  destruct (find_all_solutions _ _ _ _ _ _ _ _) as [[[found ledger] w1]| |] eqn:Hcall;
    try discriminate.
  pose proof (find_all_solutions_valued _ _ _ _ _ _ _ _ _ _ Hcall) as (_ & Hv).
  destruct found as [|sol found]; cbn -[Nat.ltb] in Hrun.
  - destruct (current_day data <? 7)%nat; [|discriminate].
    destruct (present_day_plan solve fuel _ w1) as [[[s2 evs2] w2]| |] eqn:Hnext;
      try discriminate.
    injection Hrun as -> <- <-. by apply IH in Hnext.
  - injection Hrun as <- <- <-. cbn. by apply Hv.
Qed.
End SessionFacts.

(** ** Reviewing a day *)

Section Reviews.
Context {W : Type}.
Variable solve : LpProblem -> W -> LpStatus * (nat -> Z) * W.
Variables (df : DataFrame) (t : Targets) (ex : list pystr).

Lemma present_day_plan_inv fuel data (w : @World W) s evs w' :
  framed df t ex data ->
  present_day_plan solve fuel data w = Ret (s, evs, w') ->
  (exists final,
     ledger_chain (rejected_solutions data) [] evs final /\
     match s with
     | reviewing_day data' => rejected_solutions data' = final
     | cleared => True
     end) /\
  day_log df t ex (current_day data) w w' /\
  resolved data s evs /\
  match s with
  | reviewing_day data' => session_inv df t ex data'
  | cleared => True
  end.
Proof.
  intros (Hdf & Ht & Hex & Hatt) Hrun.
  apply present_day_plan_spec in Hrun as ((final & Hchain & Hfinal) & Hlog & Hres).
  rewrite Hdf, Ht, Hex in Hlog. rewrite Hdf, Hex in Hfinal.
  split; [|split; [exact Hlog|split; [exact Hres|]]].
  - exists final. split; [exact Hchain|]. destruct s; [apply Hfinal|done].
  - destruct s as [data'|]; [|done]. destruct Hfinal as [<- Hkn].
    destruct Hres as (H1 & H2 & H3 & H4 & Hsol & k & Hday & _).
    unfold session_inv. rewrite H1, H2, H3, H4.
    repeat (split; [assumption|]). intros j Hj. apply Hatt. lia.
Qed.

Lemma proceed_spec fuel data (w : @World W) s evs w' :
  framed df t ex data ->
  proceed solve fuel data w = Ret (s, evs, w') ->
  (exists final,
     ledger_chain (rejected_solutions data) [] evs final /\
     match s with
     | reviewing_day data' => rejected_solutions data' = final
     | cleared => True
     end) /\
  day_log df t ex (S (current_day data)) w w' /\
  match s with
  | reviewing_day data' =>
      session_inv df t ex data' /\ (current_day data < current_day data')%nat /\
      attempts data' = attempts data /\
      exists k, weekly_plan data' = weekly_plan data ++ failed_days (S (current_day data)) k
  | cleared =>
      exists k cost,
        last evs = Some (FinalPlan (weekly_plan data ++ failed_days (S (current_day data)) k) cost)
  end.
Proof.
  intros (Hdf & Ht & Hex & Hatt) Hrun. unfold proceed in Hrun.
  destruct (current_day data <? 7)%nat.
  - apply present_day_plan_inv in Hrun as (Hchain & Hlog & Hres & Hinv).
    2: { repeat (split; [assumption|]). cbn. intros k Hk. apply Hatt. lia. }
    cbn in Hchain, Hlog. split; [exact Hchain|]. split; [exact Hlog|].
    destruct s as [data'|]; cbn in Hres.
    + destruct Hres as (_ & _ & _ & H4 & _ & k & Hday & Hplan).
      split; [exact Hinv|]. split; [lia|]. split; [exact H4|]. by exists k.
    + destruct Hres as (k & cost & Hlast). by exists (S k), cost.
  - injection Hrun as <- <- <-. split; [|split].
    + exists (rejected_solutions data). split; [cbn; reflexivity|done].
    + apply day_log_refl.
    + exists 0%nat. eexists. cbn. by rewrite app_nil_r.
Qed.

Lemma process_day_review_spec fuel r data (w : @World W) s evs w' :
  session_inv df t ex data ->
  process_day_review solve fuel r data w = Ret (s, evs, w') ->
  (exists final,
     ledger_chain (rejected_solutions data) [] evs final /\
     match s with
     | reviewing_day data' => rejected_solutions data' = final
     | cleared => True
     end) /\
  day_log df t ex (current_day data) w w' /\
  match s with
  | reviewing_day data' =>
      session_inv df t ex data' /\ (current_day data <= current_day data')%nat
  | cleared => True
  end.
Proof.
  intros (Hdf & Ht & Hex & Hkn & (sol & Hsol & Hids) & Hatt) Hrun.
  unfold process_day_review in Hrun. rewrite Hsol in Hrun.
  destruct r.
  - (* accept *)
    apply proceed_spec in Hrun as (Hchain & Hlog & Hres); [|done].
    cbn in Hchain, Hlog. split; [exact Hchain|]. split.
    + eapply day_log_trans; [|apply day_log_refl|exact Hlog]. lia.
    + destruct s as [data'|]; [|done]. destruct Hres as (Hinv & Hday & _).
      cbn in Hday. split; [exact Hinv|lia].
  - (* reject *)
    set (n := S (default 0%nat (attempts data !! current_day data))) in *.
    assert (Htries : forall k, (current_day data < k)%nat ->
              <[current_day data := n]> (attempts data) !! k = None).
    { intros k Hk. rewrite lookup_insert_ne by lia. by apply Hatt. }
    assert (Hweak : forall evs0 final,
              ledger_chain ({[ids sol]} ∪ rejected_solutions data) [] evs0 final ->
              ledger_chain (rejected_solutions data) [] evs0 final).
    { intros evs0 final. apply ledger_chain_weaken. set_solver. }
    destruct (n <? 5)%nat.
    + destruct (present_day_plan solve fuel _ w) as [[[s1 evs1] w1]| |] eqn:Hplan;
        try discriminate.
      injection Hrun as <- <- <-.
      apply present_day_plan_inv in Hplan as ((final & Hchain & Hfinal) & Hlog & Hres & Hinv);
        [|done].
      cbn in Hchain, Hlog. split; [|split].
      * exists final. split; [cbn; by apply Hweak|exact Hfinal].
      * exact Hlog.
      * destruct s1 as [data'|]; [|done]. split; [exact Hinv|].
        destruct Hres as (_ & _ & _ & _ & _ & k & Hday & _). cbn in Hday. lia.
    + destruct (proceed solve fuel _ w) as [[[s1 evs1] w1]| |] eqn:Hnext; try discriminate.
      injection Hrun as <- <- <-.
      apply proceed_spec in Hnext as ((final & Hchain & Hfinal) & Hlog & Hres); [|done].
      cbn in Hchain, Hlog. split; [|split].
      * exists final. split; [cbn; by apply Hweak|exact Hfinal].
      * eapply day_log_trans; [|apply day_log_refl|exact Hlog]. lia.
      * destruct s1 as [data'|]; [|done]. destruct Hres as (Hinv & Hday & _).
        cbn in Hday. split; [exact Hinv|lia].
Qed.

Lemma run_cleared fuel rs (w : @World W) : run solve fuel rs cleared w = Ret (cleared, [], w).
Proof. induction rs as [|r rs IH]; [reflexivity|]. cbn. by rewrite IH. Qed.

Lemma run_spec fuel rs data (w : @World W) s evs w' :
  session_inv df t ex data ->
  run solve fuel rs (reviewing_day data) w = Ret (s, evs, w') ->
  (exists final,
     ledger_chain (rejected_solutions data) [] evs final /\
     match s with
     | reviewing_day data' => rejected_solutions data' = final
     | cleared => True
     end) /\
  day_log df t ex (current_day data) w w' /\
  match s with
  | reviewing_day data' =>
      session_inv df t ex data' /\ (current_day data <= current_day data')%nat
  | cleared => True
  end.
Proof.
  revert data w s evs w'. induction rs as [|r rs IH]; intros data w s evs w' Hinv Hrun.
  - injection Hrun as <- <- <-. split; [|split].
    + exists (rejected_solutions data). split; [cbn; reflexivity|done].
    + apply day_log_refl.
    + by split.
  - cbn [run on_callback] in Hrun.
    destruct (process_day_review solve fuel r data w) as [[[s1 evs1] w1]| |] eqn:Hstep;
      try discriminate.
    apply process_day_review_spec in Hstep as ((mid & Hc1 & Hmid) & Hlog1 & Hres1); [|done].
    destruct s1 as [data1|].
    + destruct (run solve fuel rs (reviewing_day data1) w1) as [[[s2 evs2] w2]| |] eqn:Hrest;
        try discriminate.
      injection Hrun as <- <- <-. destruct Hres1 as [Hinv1 Hday1].
      apply IH in Hrest as ((final & Hc2 & Hfinal) & Hlog2 & Hres2); [|done].
      rewrite Hmid in Hc2. split; [|split].
      * exists final. split; [by eapply ledger_chain_app|exact Hfinal].
      * eapply day_log_trans; [exact Hday1|exact Hlog1|exact Hlog2].
      * destruct s2 as [data2|]; [|done]. destruct Hres2 as [Hinv2 Hday2].
        split; [exact Hinv2|lia].
    + rewrite run_cleared in Hrun. injection Hrun as <- <- <-.
      rewrite app_nil_r. split; [|split; [exact Hlog1|done]].
      exists mid. by split.
Qed.

Lemma week_spec fuel rs (w : @World W) s evs w' :
  week solve fuel df t ex rs w = Ret (s, evs, w') ->
  (exists final,
     ledger_chain ∅ [] evs final /\
     match s with
     | reviewing_day data' => rejected_solutions data' = final
     | cleared => True
     end) /\
  day_log df t ex 1 w w' /\
  match s with
  | reviewing_day data' => session_inv df t ex data'
  | cleared => True
  end.
Proof.
  unfold week, generate_weekly_plan. intros Hrun.
  destruct (present_day_plan solve fuel _ w) as [[[s1 evs1] w1]| |] eqn:Hplan; try discriminate.
  apply present_day_plan_inv in Hplan as ((mid & Hc1 & Hmid) & Hlog1 & Hres1 & Hinv1).
  2: { repeat (split; [reflexivity|]). intros k _. apply lookup_empty. }
  cbn in Hc1, Hlog1.
  destruct (run solve fuel rs s1 w1) as [[[s2 evs2] w2]| |] eqn:Hrest; try discriminate.
  injection Hrun as <- <- <-.
  destruct s1 as [data1|].
  - apply run_spec in Hrest as ((final & Hc2 & Hfinal) & Hlog2 & Hres2); [|done].
    rewrite Hmid in Hc2. split; [|split].
    + exists final. split; [by eapply ledger_chain_app|exact Hfinal].
    + eapply day_log_trans; [|exact Hlog1|exact Hlog2].
      destruct Hres1 as (_ & _ & _ & _ & _ & k & Hday & _). cbn in Hday. lia.
    + destruct s2 as [data2|]; [|done]. apply Hres2.
  - rewrite run_cleared in Hrest. injection Hrest as <- <- <-.
    rewrite app_nil_r. split; [|split; [exact Hlog1|done]].
    exists mid. by split.
Qed.
End Reviews.

(** ** The claims about a session *)

Section SessionClaims.
Context {W : Type}.
Variable solve : LpProblem -> W -> LpStatus * (nat -> Z) * W.

(** C2: along a session the ledger only grows and no support set comes
    back twice.  Every search leaves a ledger that contains the one it was
    given, returns solutions with pairwise distinct support sets none of
    which was in the ledger, and adds them to it; a later search of the
    session starts from a ledger that contains the ledger the earlier one
    left, so it returns nothing that ledger holds; the ledger kept by the
    session contains all of them; and no two proposals shown to the user
    have the same support set. *)
Theorem support_sets_proposed_once fuel df t ex responses (w : @World W) s evs w' :
  week solve fuel df t ex responses w = Ret (s, evs, w') ->
  (forall i d before found after,
     evs !! i = Some (Searched d before found after) ->
     before ⊆ after /\
     NoDup (map ids found) /\
     (forall sol, sol ∈ found -> (ids sol ∉ before) /\ (ids sol ∈ after)) /\
     (forall data, s = reviewing_day data -> after ⊆ rejected_solutions data) /\
     forall j d' before' found' after',
       (i < j)%nat -> evs !! j = Some (Searched d' before' found' after') ->
       after ⊆ before' /\ forall sol, sol ∈ found' -> ids sol ∉ after) /\
  (forall i j d1 sol1 d2 sol2,
     (i < j)%nat -> evs !! i = Some (Proposed d1 sol1) -> evs !! j = Some (Proposed d2 sol2) ->
     ids sol1 <> ids sol2).
Proof.
  intros Hweek. apply week_spec in Hweek as ((final & Hchain & Hfinal) & _ & _).
  split.
  - intros i d before found after Hi.
    destruct (ledger_chain_search _ _ _ _ _ _ _ _ _ Hchain Hi) as (_ & H1 & H2 & H3 & H4).
    repeat (split; [assumption|]). split.
    + intros data ->. by rewrite Hfinal.
    + intros j d' before' found' after' Hij Hj.
      pose proof (ledger_chain_search_pair _ _ _ _ _ _ _ _ _ _ _ _ _ _ Hchain Hij Hi Hj) as Hsub.
      split; [exact Hsub|]. intros sol Hsol Hin.
      destruct (ledger_chain_search _ _ _ _ _ _ _ _ _ Hchain Hj) as (_ & _ & _ & _ & H5).
      apply (H5 sol Hsol). by apply Hsub.
  - intros i j d1 sol1 d2 sol2 Hij Hi Hj.
    exact (ledger_chain_proposed_once _ _ _ _ _ _ _ _ _ _ Hchain Hij Hi Hj).
Qed.

Lemma proceed_total fuel data (w : @World W) :
  (attempt_limit + 8 <= fuel)%nat ->
  ledger_known (length (exclude (excluded_products data) (products_df data)))
    (rejected_solutions data) ->
  all_valued (exclude (excluded_products data) (products_df data)) (rejected_solutions data)
    = true ->
  exists s evs w', proceed solve fuel data w = Ret (s, evs, w').
Proof.
  intros Hfuel Hk Hv. unfold proceed. destruct (current_day data <? 7)%nat.
  - apply present_day_plan_total; [lia|cbn; unfold attempt_limit in *; lia|exact Hk|exact Hv].
  - cbn. eauto.
Qed.

Lemma proceed_ends fuel data (w : @World W) :
  (attempt_limit + 8 <= fuel)%nat ->
  ledger_known (length (exclude (excluded_products data) (products_df data)))
    (rejected_solutions data) ->
  (exists s evs w', proceed solve fuel data w = Ret (s, evs, w')) \/
  proceed solve fuel data w = Raise TypeError.
Proof.
  intros Hfuel Hk. unfold proceed. destruct (current_day data <? 7)%nat.
  - apply present_day_plan_ends; [lia|cbn; unfold attempt_limit in *; lia|exact Hk].
  - left. cbn. eauto.
Qed.

Lemma proceed_valued fuel data (w : @World W) data' evs w' :
  proceed solve fuel data w = Ret (reviewing_day data', evs, w') ->
  all_valued (exclude (excluded_products data') (products_df data')) (rejected_solutions data')
    = true.
Proof.
  unfold proceed. destruct (current_day data <? 7)%nat; [|discriminate].
  apply present_day_plan_valued.
Qed.

(** Whenever a day is under review every variable has had a value. *)
Lemma process_day_review_valued fuel r data (w : @World W) data' evs w' :
  process_day_review solve fuel r data w = Ret (reviewing_day data', evs, w') ->
  all_valued (exclude (excluded_products data') (products_df data')) (rejected_solutions data')
    = true.
Proof.
  unfold process_day_review. destruct (current_solution data) as [sol|]; [|discriminate].
  destruct r; [apply proceed_valued|].
  destruct (_ <? 5)%nat.
  - destruct (present_day_plan solve fuel _ w) as [[[s1 evs1] w1]| |] eqn:Hplan;
      try discriminate.
    intros [= -> <- <-]. by apply present_day_plan_valued in Hplan.
  - destruct (proceed solve fuel _ w) as [[[s1 evs1] w1]| |] eqn:Hnext; try discriminate.
    intros [= -> <- <-]. by apply proceed_valued in Hnext.
Qed.

Lemma run_valued fuel rs data (w : @World W) data' evs w' :
  all_valued (exclude (excluded_products data) (products_df data)) (rejected_solutions data)
    = true ->
  run solve fuel rs (reviewing_day data) w = Ret (reviewing_day data', evs, w') ->
  all_valued (exclude (excluded_products data') (products_df data')) (rejected_solutions data')
    = true.
Proof.
  revert data w evs. induction rs as [|r rs IH]; intros data w evs Hv Hrun.
  - by injection Hrun as <- <- <-.
  - cbn [run on_callback] in Hrun.
    destruct (process_day_review solve fuel r data w) as [[[s1 evs1] w1]| |] eqn:Hstep;
      try discriminate.
    destruct s1 as [data1|]; [|by rewrite run_cleared in Hrun].
    destruct (run solve fuel rs (reviewing_day data1) w1) as [[[s2 evs2] w2]| |] eqn:Hrest;
      try discriminate.
    injection Hrun as -> <- <-.
    eapply IH; [|exact Hrest]. by eapply process_day_review_valued.
Qed.

Lemma week_valued fuel df t ex rs (w : @World W) data evs w' :
  week solve fuel df t ex rs w = Ret (reviewing_day data, evs, w') ->
  all_valued (exclude (excluded_products data) (products_df data)) (rejected_solutions data)
    = true.
Proof.
  unfold week, generate_weekly_plan.
  destruct (present_day_plan solve fuel _ w) as [[[s1 evs1] w1]| |] eqn:Hplan; try discriminate.
  destruct (run solve fuel rs s1 w1) as [[[s2 evs2] w2]| |] eqn:Hrest; try discriminate.
  intros [= -> <- <-].
  destruct s1 as [data1|]; [|by rewrite run_cleared in Hrest].
  eapply run_valued; [|exact Hrest]. by eapply present_day_plan_valued.
Qed.

Lemma reject_same_day fuel df t ex data (w : @World W) data' evs w' :
  session_inv df t ex data ->
  process_day_review solve fuel reject data w = Ret (reviewing_day data', evs, w') ->
  current_day data' = current_day data ->
  default 0%nat (attempts data' !! current_day data)
    = S (default 0%nat (attempts data !! current_day data)) /\
  weekly_plan data' = weekly_plan data.
Proof.
  intros (Hdf & Ht & Hex & Hkn & (sol & Hsol & Hids) & Hatt) Hrun Hday.
  unfold process_day_review in Hrun. rewrite Hsol in Hrun.
  destruct (_ <? 5)%nat.
  - destruct (present_day_plan solve fuel _ w) as [[[s1 evs1] w1]| |] eqn:Hplan;
      try discriminate.
    injection Hrun as -> <- <-.
    apply present_day_plan_spec in Hplan as (_ & _ & Hres).
    destruct Hres as (_ & _ & _ & H4 & _ & k & Hk & Hplan). cbn in *.
    assert (k = 0%nat) as -> by lia.
    rewrite H4, lookup_insert_eq. split; [reflexivity|].
    rewrite Hplan. cbn. apply app_nil_r.
  - destruct (proceed solve fuel _ w) as [[[s1 evs1] w1]| |] eqn:Hnext; try discriminate.
    injection Hrun as -> <- <-.
    apply (proceed_spec solve df t ex) in Hnext as (_ & _ & _ & Hlt & _).
    + cbn in Hlt. lia.
    + repeat (split; [assumption|]). cbn. intros k Hk.
      rewrite lookup_insert_ne by lia. by apply Hatt.
Qed.

Lemma run_rejects_same_day fuel df t ex n data (w : @World W) data' evs w' :
  session_inv df t ex data ->
  run solve fuel (replicate n reject) (reviewing_day data) w = Ret (reviewing_day data', evs, w') ->
  current_day data' = current_day data ->
  session_inv df t ex data' /\
  default 0%nat (attempts data' !! current_day data)
    = (n + default 0%nat (attempts data !! current_day data))%nat /\
  weekly_plan data' = weekly_plan data.
Proof.
  revert data w evs. induction n as [|n IH]; intros data w evs Hinv Hrun Hday.
  - injection Hrun as <- <- <-. done.
  - cbn [replicate run on_callback] in Hrun.
    destruct (process_day_review solve fuel reject data w) as [[[s1 evs1] w1]| |] eqn:Hstep;
      try discriminate.
    destruct s1 as [data1|]; [|by rewrite run_cleared in Hrun].
    destruct (run solve fuel (replicate n reject) (reviewing_day data1) w1)
      as [[[s2 evs2] w2]| |] eqn:Hrest; try discriminate.
    injection Hrun as -> <- <-.
    pose proof (process_day_review_spec solve df t ex _ _ _ _ _ _ _ Hinv Hstep)
      as (_ & _ & Hinv1 & Hle1).
    pose proof (run_spec solve df t ex _ _ _ _ _ _ _ Hinv1 Hrest) as (_ & _ & _ & Hle2).
    assert (Hday1 : current_day data1 = current_day data) by lia.
    destruct (reject_same_day _ _ _ _ _ _ _ _ _ Hinv Hstep Hday1) as [Hcnt1 Hplan1].
    destruct (IH data1 w1 evs2 Hinv1 Hrest) as (Hinv' & Hcnt & Hplan); [lia|].
    rewrite Hday1 in Hcnt. split; [exact Hinv'|]. split; [lia|congruence].
Qed.

Lemma reject_exhausted fuel df t ex data (w : @World W) :
  (attempt_limit + 8 <= fuel)%nat ->
  session_inv df t ex data ->
  all_valued (exclude ex df) (rejected_solutions data) = true ->
  default 0%nat (attempts data !! current_day data) = 4%nat ->
  exists s evs w',
    process_day_review solve fuel reject data w
      = Ret (s, NoSuitableDiet (current_day data) :: evs, w') /\
    day_log df t ex (S (current_day data)) w w' /\
    match s with
    | reviewing_day data' =>
        (current_day data < current_day data')%nat /\
        (forall k, (current_day data < k)%nat -> attempts data' !! k = None) /\
        exists k, weekly_plan data'
                  = weekly_plan data ++ failed (current_day data)
                      :: failed_days (S (current_day data)) k
    | cleared =>
        exists k cost,
          last evs = Some (FinalPlan (weekly_plan data ++ failed (current_day data)
                                        :: failed_days (S (current_day data)) k) cost)
    end.
Proof.
  intros Hfuel (Hdf & Ht & Hex & Hkn & (sol & Hsol & Hids) & Hatt) Hv Hcnt.
  unfold process_day_review. rewrite Hsol, Hcnt.
  change (5 <? 5)%nat with false. cbv iota.
  set (data1 := set_day_plan _ _ _).
  assert (Hframed : framed df t ex data1).
  { repeat (split; [assumption|]). cbn. intros k Hk.
    rewrite lookup_insert_ne by lia. by apply Hatt. }
  destruct (proceed_total fuel data1 w Hfuel) as (s & evs & w' & Hnext).
  { cbn. rewrite Hdf, Hex. intros s Hs. apply Hkn.
    apply elem_of_union in Hs as [Hs|Hs]; [|exact Hs].
    apply elem_of_singleton in Hs as ->. exact Hids. }
  { cbn. rewrite Hdf, Hex. eapply all_valued_mono; [|exact Hv]. apply union_subseteq_r. }
  rewrite Hnext. exists s, evs, w'. split; [reflexivity|].
  apply (proceed_spec solve df t ex) in Hnext as (_ & Hlog & Hres); [|exact Hframed].
  split; [exact Hlog|]. destruct s as [data'|]; cbn in Hres.
  - destruct Hres as (_ & Hlt & Hatt' & k & Hplan). split; [exact Hlt|]. split.
    + intros j Hj. rewrite Hatt'. cbn. rewrite lookup_insert_ne by lia. by apply Hatt.
    + exists k. rewrite Hplan. cbn. by rewrite <- app_assoc.
  - destruct Hres as (k & cost & Hlast). exists k, cost.
    rewrite Hlast. cbn. by rewrite <- app_assoc.
Qed.

(** C5: when the user has rejected the first four proposals of a day and
    rejects the fifth, the day is closed with the failure marker (no diet,
    cost 0); the solver is not called again for that day, only for later
    days; and no later day has a retry count yet, so the next day starts
    from 0. *)
Theorem five_rejections_fail_the_day fuel df t ex history (w0 : @World W)
    data evs0 w data4 evs4 w4 :
  (attempt_limit + 8 <= fuel)%nat ->
  week solve fuel df t ex history w0 = Ret (reviewing_day data, evs0, w) ->
  attempts data !! current_day data = None ->
  run solve fuel [reject; reject; reject; reject] (reviewing_day data) w
    = Ret (reviewing_day data4, evs4, w4) ->
  current_day data4 = current_day data ->
  exists s5 evs5 w5 calls,
    on_callback solve fuel reject (reviewing_day data4) w4
      = Ret (s5, NoSuitableDiet (current_day data) :: evs5, w5) /\
    failed (current_day data) = {| day := current_day data; diet := None; total_cost := 0 |} /\
    solver_log w5 = solver_log w4 ++ calls /\
    Forall (fun e => exists d', lp_day (fst e) = Some d' /\ (current_day data < d')%nat) calls /\
    match s5 with
    | reviewing_day data5 =>
        (current_day data < current_day data5)%nat /\
        (forall k, (current_day data < k)%nat -> attempts data5 !! k = None) /\
        exists k, weekly_plan data5
                  = weekly_plan data ++ failed (current_day data)
                      :: failed_days (S (current_day data)) k
    | cleared =>
        exists k cost,
          last evs5 = Some (FinalPlan (weekly_plan data ++ failed (current_day data)
                                         :: failed_days (S (current_day data)) k) cost)
    end.
Proof.
  intros Hfuel Hweek Hfresh Hrun Hday.
  pose proof (week_valued _ _ _ _ _ _ _ _ _ Hweek) as Hv.
  apply week_spec in Hweek as (_ & _ & Hinv).
  pose proof (run_valued _ _ _ _ _ _ _ Hv Hrun) as Hv4.
  destruct (run_rejects_same_day fuel df t ex 4 data w data4 evs4 w4 Hinv Hrun Hday)
    as (Hinv4 & Hcnt & Hplan).
  rewrite Hfresh in Hcnt. cbn in Hcnt.
  destruct (reject_exhausted fuel df t ex data4 w4 Hfuel Hinv4) as (s5 & evs5 & w5 & Hstep & Hlog & Hres).
  { destruct Hinv4 as (Hdf4 & _ & Hex4 & _). by rewrite Hdf4, Hex4 in Hv4. }
  { by rewrite Hday. }
  rewrite Hday, Hplan in *.
  destruct Hlog as (calls & Hcalls & Hdays).
  exists s5, evs5, w5, calls. split; [exact Hstep|]. split; [reflexivity|].
  split; [exact Hcalls|]. split; [|exact Hres].
  eapply Forall_impl; [exact Hdays|]. cbn. intros e (l & d' & He & Hle).
  exists d'. rewrite He. split; [reflexivity|lia].
Qed.

(** C6: when the engine finds nothing for a day, the day is closed at once
    with the failure marker - no diet, cost 0 -, the retry counts are left
    as they were, and the plan goes on: with the presentation of the next
    day when the day is before the seventh, with the final plan otherwise.
    The failed day decides nothing about the outcome: what comes back is
    what the presentation of the next day comes back with, the two events
    of the failed day put in front.  That presentation returns when every
    variable of the catalog is in the problem; otherwise it returns or ends
    in the [TypeError] that a later optimal solve meets on a variable
    without a value, and in nothing else. *)
Theorem empty_result_fails_day_and_continues fuel data (w : @World W) ledger w1 :
  (attempt_limit + 8 <= fuel)%nat ->
  find_all_solutions solve attempt_limit (products_df data) (targets data)
    (excluded_products data) (rejected_solutions data) (Some (current_day data)) w
    = Ret ([], ledger, w1) ->
  failed (current_day data) = {| day := current_day data; diet := None; total_cost := 0 |} /\
  present_day_plan solve fuel data w
    = (if (current_day data <? 7)%nat
       then
         match present_day_plan solve (pred fuel)
                 (set_day_plan (set_rejected data ledger (attempts data)) (S (current_day data))
                    (weekly_plan data ++ [failed (current_day data)])) w1 with
         | Ret (s, evs, w') =>
             Ret (s, Searched (current_day data) (rejected_solutions data) [] ledger
                       :: NoDiet (current_day data) :: evs, w')
         | Raise e => Raise e
         | OutOfFuel => OutOfFuel
         end
       else
         Ret (cleared,
              [Searched (current_day data) (rejected_solutions data) [] ledger;
               NoDiet (current_day data);
               FinalPlan (weekly_plan data ++ [failed (current_day data)])
                 (Qsum (map total_cost (weekly_plan data ++ [failed (current_day data)])))],
              w1)) /\
  ((exists s evs w', present_day_plan solve fuel data w = Ret (s, evs, w')) \/
   present_day_plan solve fuel data w = Raise TypeError) /\
  (all_valued (exclude (excluded_products data) (products_df data)) ledger = true ->
   exists s evs w', present_day_plan solve fuel data w = Ret (s, evs, w')) /\
  forall s evs0 w',
    present_day_plan solve fuel data w = Ret (s, evs0, w') ->
    exists evs,
      evs0 = Searched (current_day data) (rejected_solutions data) [] ledger
               :: NoDiet (current_day data) :: evs /\
      match s with
      | reviewing_day data' =>
          attempts data' = attempts data /\
          (current_day data < current_day data')%nat /\
          exists k, weekly_plan data'
                    = weekly_plan data ++ failed (current_day data)
                        :: failed_days (S (current_day data)) k
      | cleared =>
          exists k cost,
            last evs = Some (FinalPlan (weekly_plan data ++ failed (current_day data)
                                          :: failed_days (S (current_day data)) k) cost)
      end.
Proof.
  intros Hfuel Hcall.
  destruct fuel as [|fuel]; [unfold attempt_limit in Hfuel; lia|].
  pose proof (find_all_solutions_known _ _ _ _ _ _ _ _ _ _ _ Hcall) as (_ & Hkn).
  apply (find_all_solutions_fuel_mono solve attempt_limit fuel) in Hcall;
    [|unfold attempt_limit in *; lia].
  split; [reflexivity|].
  assert (Hstep :
    present_day_plan solve (S fuel) data w
    = (if (current_day data <? 7)%nat
       then
         match present_day_plan solve fuel
                 (set_day_plan (set_rejected data ledger (attempts data)) (S (current_day data))
                    (weekly_plan data ++ [failed (current_day data)])) w1 with
         | Ret (s, evs, w') =>
             Ret (s, Searched (current_day data) (rejected_solutions data) [] ledger
                       :: NoDiet (current_day data) :: evs, w')
         | Raise e => Raise e
         | OutOfFuel => OutOfFuel
         end
       else
         Ret (cleared,
              [Searched (current_day data) (rejected_solutions data) [] ledger;
               NoDiet (current_day data);
               FinalPlan (weekly_plan data ++ [failed (current_day data)])
                 (Qsum (map total_cost (weekly_plan data ++ [failed (current_day data)])))],
              w1))).
  { cbn [present_day_plan]. rewrite Hcall. cbn -[Nat.ltb present_day_plan].
    by destruct (current_day data <? 7)%nat. }
  split; [exact Hstep|]. rewrite Hstep. cbn [pred].
  set (data1 := set_day_plan _ _ _).
  destruct (current_day data <? 7)%nat eqn:Hday.
  - apply Nat.ltb_lt in Hday. split; [|split].
    + destruct (present_day_plan_ends solve fuel data1 w1) as [(s & evs & w' & Hnext)|Hnext];
        [unfold attempt_limit in *; lia|cbn; unfold attempt_limit in *; lia|exact Hkn| |];
        rewrite Hnext; eauto.
    + intros Hv.
      destruct (present_day_plan_total solve fuel data1 w1) as (s & evs & w' & Hnext);
        [unfold attempt_limit in *; lia|cbn; unfold attempt_limit in *; lia|exact Hkn|exact Hv|].
      rewrite Hnext. eauto.
    + intros s evs0 w'.
      destruct (present_day_plan solve fuel data1 w1) as [[[s1 evs1] w2]| |] eqn:Hnext;
        try discriminate.
      intros [= <- <- <-]. exists evs1. split; [reflexivity|].
      apply present_day_plan_spec in Hnext as (_ & _ & Hres).
      destruct s1 as [data'|]; cbn in Hres.
      * destruct Hres as (_ & _ & _ & H4 & _ & k & Hk & Hplan).
        split; [exact H4|]. split; [lia|]. exists k. rewrite Hplan. by rewrite <- app_assoc.
      * destruct Hres as (k & cost & Hlast). exists (S k), cost.
        rewrite Hlast. by rewrite <- app_assoc.
  - split; [eauto|]. split; [eauto|].
    intros s evs0 w' [= <- <- <-]. eexists. split; [reflexivity|].
    exists 0%nat. eexists. reflexivity.
Qed.
End SessionClaims.

(** ** Filtering once or at every search *)

Lemma filter_keeps_all {A} (P : A -> Prop) `{forall x, Decision (P x)} (l : list A) :
  (forall x, P x) -> filter P l = l.
Proof.
  intros HP. induction l as [|x l IH]; [reflexivity|].
  rewrite filter_cons_True by apply HP. by rewrite IH.
Qed.

Lemma exclude_catalog_view (ex : list pystr) (df : DataFrame) :
  exclude ex df = catalog_view ex df.
Proof.
  destruct ex as [|e ex]; [|reflexivity].
  unfold exclude, catalog_view. symmetry. apply filter_keeps_all.
  intros item. unfold name_matches. by destruct (name item).
Qed.

Section FilterOnce.
Context {W : Type}.
Variable solve : LpProblem -> W -> LpStatus * (nat -> Z) * W.

Lemma find_all_solutions_view fuel df t ex ledger day (w : @World W) :
  find_all_solutions solve fuel (catalog_view ex df) t [] ledger day w
  = find_all_solutions solve fuel df t ex ledger day w.
Proof. unfold find_all_solutions. by rewrite <- exclude_catalog_view. Qed.

Lemma present_day_plan_view fuel data (w : @World W) :
  present_day_plan solve fuel (prefiltered data) w
  = view_outcome (present_day_plan solve fuel data w).
Proof.
  revert data w. induction fuel as [|fuel IH]; intros data w; [reflexivity|].
  cbn [present_day_plan].
  change (find_all_solutions solve fuel (products_df (prefiltered data))
            (targets (prefiltered data)) (excluded_products (prefiltered data))
            (rejected_solutions (prefiltered data)) (Some (current_day (prefiltered data))) w)
    with (find_all_solutions solve fuel
            (catalog_view (excluded_products data) (products_df data)) (targets data) []
            (rejected_solutions data) (Some (current_day data)) w).
  rewrite find_all_solutions_view.
  destruct (find_all_solutions _ _ _ _ _ _ _ _) as [[[found ledger] w1]| |]; try reflexivity.
  destruct found as [|sol found]; [|reflexivity].
  cbn -[Nat.ltb present_day_plan].
  destruct (current_day data <? 7)%nat; [|reflexivity].
  change (set_day_plan (set_rejected (prefiltered data) ledger (attempts data))
            (S (current_day data)) (weekly_plan data ++ [failed (current_day data)]))
    with (prefiltered (set_day_plan (set_rejected data ledger (attempts data))
            (S (current_day data)) (weekly_plan data ++ [failed (current_day data)]))).
  rewrite IH.
  by destruct (present_day_plan solve fuel _ w1) as [[[s evs] w2]| |].
Qed.

Lemma present_day_plan_view_eq fuel data data' (w : @World W) :
  data' = prefiltered data ->
  present_day_plan solve fuel data' w = view_outcome (present_day_plan solve fuel data w).
Proof. intros ->. apply present_day_plan_view. Qed.

Ltac view_plan fuel w :=
  match goal with
  | |- ?lhs = view_outcome ?rhs =>
      match lhs with
      | context [present_day_plan _ fuel ?x w] =>
          match rhs with
          | context [present_day_plan _ fuel ?y w] =>
              rewrite (present_day_plan_view_eq fuel y x w eq_refl);
              destruct (present_day_plan solve fuel y w) as [[[? ?] ?]| |]; reflexivity
          end
      end
  end.

Lemma process_day_review_view fuel r data (w : @World W) :
  process_day_review solve fuel r (prefiltered data) w
  = view_outcome (process_day_review solve fuel r data w).
Proof.
  unfold process_day_review. cbn [current_solution prefiltered].
  destruct (current_solution data) as [sol|]; [|reflexivity].
  destruct r.
  - unfold proceed. cbn -[Nat.ltb present_day_plan].
    destruct (current_day data <? 7)%nat; [|reflexivity].
    view_plan fuel w.
  - cbn -[Nat.ltb present_day_plan].
    destruct (_ <? 5)%nat.
    + view_plan fuel w.
    + unfold proceed. cbn -[Nat.ltb present_day_plan].
      destruct (current_day data <? 7)%nat; [|reflexivity].
      view_plan fuel w.
Qed.

Lemma run_view fuel rs s (w : @World W) :
  run solve fuel rs (view_session s) w = view_outcome (run solve fuel rs s w).
Proof.
  revert s w. induction rs as [|r rs IH]; intros s w; [reflexivity|].
  cbn [run]. destruct s as [data|]; cbn [view_session on_callback].
  - rewrite process_day_review_view.
    destruct (process_day_review solve fuel r data w) as [[[s1 evs1] w1]| |]; try reflexivity.
    cbn [view_outcome]. rewrite IH.
    by destruct (run solve fuel rs s1 w1) as [[[s2 evs2] w2]| |].
  - rewrite !run_cleared. reflexivity.
Qed.

(** C8: the code filters inside every search, and this is the same as
    filtering once before day 1.  The filter of the code is the catalog
    view of the specification; a session run on the full catalog with the
    exclusions behaves exactly as a session run on the catalog view with
    no exclusions (same events, same solver calls, same plan); the stored
    catalog and exclusions never change; and every problem handed to the
    solver, on every day and retry, is built from the catalog view. *)
Theorem exclusion_filter_once fuel df t ex responses (w : @World W) :
  exclude ex df = catalog_view ex df /\
  week solve fuel (catalog_view ex df) t [] responses w
    = view_outcome (week solve fuel df t ex responses w) /\
  forall s evs w',
    week solve fuel df t ex responses w = Ret (s, evs, w') ->
    (forall data, s = reviewing_day data ->
       products_df data = df /\ excluded_products data = ex) /\
    exists calls,
      solver_log w' = solver_log w ++ calls /\
      Forall (fun e => exists ledger d,
                fst e = build_problem (catalog_view ex df) t ledger (Some d)) calls.
Proof.
  split; [apply exclude_catalog_view|]. split.
  - unfold week, generate_weekly_plan.
    rewrite (present_day_plan_view_eq fuel
               {| products_df := df; targets := t; excluded_products := ex;
                  weekly_plan := []; current_day := 1; rejected_solutions := ∅;
                  attempts := ∅; current_solution := None |}
               {| products_df := catalog_view ex df; targets := t; excluded_products := [];
                  weekly_plan := []; current_day := 1; rejected_solutions := ∅;
                  attempts := ∅; current_solution := None |} w eq_refl).
    destruct (present_day_plan solve fuel _ w) as [[[s1 evs1] w1]| |]; try reflexivity.
    cbn [view_outcome]. rewrite run_view.
    by destruct (run solve fuel responses s1 w1) as [[[s2 evs2] w2]| |].
  - intros s evs w' Hweek. apply week_spec in Hweek as (_ & Hlog & Hinv). split.
    + intros data ->. destruct Hinv as (H1 & _ & H3 & _). by split.
    + destruct Hlog as (calls & Hcalls & Hall). exists calls. split; [exact Hcalls|].
      eapply Forall_impl; [exact Hall|]. cbn. intros e (l & d & He & _).
      exists l, d. by rewrite <- exclude_catalog_view.
Qed.
End FilterOnce.

(** * The statements on concrete runs *)

(** The exhaustive solver on the three-item catalog: both solutions of the
    call are within the windows. *)
Lemma nutrient_sums_within_tolerance_witness :
  solver_sound brute_force /\
  exists sols ledger' w',
    find_all_solutions brute_force 50 catalog3 targets3 [] ∅ (Some 1%nat) (start tt)
      = Ret (sols, ledger', w') /\
    map quantities sols = [[1; 1; 0]; [0; 0; 1]]%Z /\
    forall s, s ∈ sols -> meets_targets (exclude [] catalog3) targets3 (quantities s).
Proof.
  split; [exact brute_force_sound|].
  eexists _, _, _.
  assert (Hrun : find_all_solutions brute_force 50 catalog3 targets3 [] ∅ (Some 1%nat) (start tt)
                 = Ret (?[sols], ?[ledger'], ?[w'])) by (vm_compute; reflexivity).
  split; [exact Hrun|]. split; [reflexivity|].
  exact (proj2 (nutrient_sums_within_tolerance brute_force _ _ _ _ _ _ _ _ _ _
                  brute_force_sound Hrun)).
Defined.

(** The same call: its two solutions cost 3 and then 4. *)
Lemma costs_non_decreasing_witness :
  solver_optimal brute_force /\
  exists sols ledger' w',
    find_all_solutions brute_force 50 catalog3 targets3 [] ∅ (Some 1%nat) (start tt)
      = Ret (sols, ledger', w') /\
    map optimization.total_cost sols = [3; 4] /\
    forall j k sj sk, (j < k)%nat -> sols !! j = Some sj -> sols !! k = Some sk ->
      optimization.total_cost sj <= optimization.total_cost sk.
Proof.
  split; [exact brute_force_optimal|].
  eexists _, _, _.
  assert (Hrun : find_all_solutions brute_force 50 catalog3 targets3 [] ∅ (Some 1%nat) (start tt)
                 = Ret (?[sols], ?[ledger'], ?[w'])) by (vm_compute; reflexivity).
  split; [exact Hrun|]. split; [reflexivity|].
  exact (costs_non_decreasing brute_force _ _ _ _ _ _ _ _ _ _ brute_force_optimal Hrun).
Defined.

(** The same call with fuel for fifty passes: it returns after three
    solver calls, the last of which is infeasible. *)
Lemma search_terminates_witness :
  (attempt_limit <= 50)%nat /\
  find_all_solutions brute_force 50 catalog3 targets3 [] ∅ (Some 1%nat) (start tt)
    <> OutOfFuel /\
  exists sols ledger' w' calls,
    find_all_solutions brute_force 50 catalog3 targets3 [] ∅ (Some 1%nat) (start tt)
      = Ret (sols, ledger', w') /\
    solver_log w' = solver_log (start tt) ++ calls /\
    (length calls <= 50)%nat /\
    (length sols <= 5)%nat /\
    size ledger' = (size (∅ : Ledger) + length sols)%nat /\
    (forall i e, calls !! i = Some e -> snd e <> Optimal -> S i = length calls) /\
    (length sols = 5%nat \/ length calls = 50%nat \/
     exists e, last calls = Some e /\ snd e <> Optimal).
Proof.
  assert (Hfuel : (attempt_limit <= 50)%nat) by (unfold attempt_limit; lia).
  destruct (search_terminates brute_force 50 catalog3 targets3 [] ∅ (Some 1%nat) (start tt) Hfuel)
    as (_ & Hstop & Hret & Hends).
  split; [exact Hfuel|]. split; [exact Hstop|].
  destruct Hends as (Htotal & _).
  { intros s Hs. by apply not_elem_of_empty in Hs. }
  destruct Htotal as (sols & ledger' & w' & Hrun); [vm_compute; reflexivity|].
  destruct (Hret _ _ _ Hrun) as (calls & Hcalls).
  exists sols, ledger', w', calls. split; [exact Hrun|exact Hcalls].
Defined.

(** The exhaustive solver finds the problem of [partial_state] infeasible:
    the loop returns the state as it is, one solution included. *)
Lemma non_optimal_status_stops_search_witness :
  loop_guard partial_state = true /\
  ledger_known (length catalog3) (rejected partial_state) /\
  brute_force (build_problem catalog3 targets3 (rejected partial_state) (Some 1%nat)) tt
    = (Infeasible, fun _ => 0%Z, tt) /\
  Infeasible <> Optimal /\
  while_loop brute_force 1 catalog3 targets3 (Some 1%nat) partial_state (start tt)
    = Ret (partial_state,
           {| oracle := tt;
              solver_log :=
                [(build_problem catalog3 targets3 (rejected partial_state) (Some 1%nat),
                  Infeasible)] |}).
Proof.
  assert (H1 : loop_guard partial_state = true) by reflexivity.
  assert (H2 : ledger_known (length catalog3) (rejected partial_state))
    by (apply ledger_known_check; vm_compute; reflexivity).
  assert (H3 : brute_force (build_problem catalog3 targets3 (rejected partial_state)
                              (Some 1%nat)) (oracle (start tt))
               = (Infeasible, fun _ => 0%Z, tt)) by (vm_compute; reflexivity).
  assert (H4 : Infeasible <> Optimal) by discriminate.
  split; [exact H1|]. split; [exact H2|]. split; [exact H3|]. split; [exact H4|].
  exact (proj1 (non_optimal_status_stops_search brute_force 0 catalog3 targets3 (Some 1%nat)
                  partial_state (start tt) Infeasible (fun _ => 0%Z) tt H1 H2 H3 H4)).
Defined.

(** One portion of row 0 and none of row 1 passes the constraint built for
    the support set (0, 1). *)
Lemma avoid_constraint_meaning_witness :
  let s := [0; 1]%nat in
  let x := fun i : nat => if (i =? 0)%nat then 1%Z else 0%Z in
  (forall i, i ∈ s -> (x i <= 1)%Z) /\
  (exists j, j ∈ s /\ x j = 0%Z) /\
  constraint_holds x (avoid_constraint s).
Proof.
  cbv zeta.
  assert (H1 : forall i, i ∈ [0; 1]%nat ->
                 ((fun i : nat => if (i =? 0)%nat then 1%Z else 0%Z) i <= 1)%Z).
  { intros i _. cbn. destruct (i =? 0)%nat; lia. }
  assert (H2 : exists j, j ∈ [0; 1]%nat /\
                 (fun i : nat => if (i =? 0)%nat then 1%Z else 0%Z) j = 0%Z).
  { exists 1%nat. split; [|reflexivity]. right. left. }
  split; [exact H1|]. split; [exact H2|].
  exact (proj2 (proj2 (avoid_constraint_meaning [0; 1]%nat
                         (fun i : nat => if (i =? 0)%nat then 1%Z else 0%Z))) H1 H2).
Defined.

(** Two calls in a row that omit the ledger, with the exhaustive solver. *)
Lemma default_ledger_is_shared_witness :
  exists sols1 r1 d1 w1 sols2 r2 d2 w2,
    call_find_all_solutions brute_force 50 catalog3 targets3 [] None (Some 1%nat)
      defaults_at_import (start tt) = Ret (sols1, r1, d1, w1) /\
    call_find_all_solutions brute_force 50 catalog3 targets3 [] None (Some 2%nat) d1 w1
      = Ret (sols2, r2, d2, w2) /\
    map ids sols1 = [[0; 1]; [2]]%nat /\ sols2 = [] /\
    forall s1, s1 ∈ sols1 ->
      ids s1 ∈ default_rejected_solutions d1 /\
      ids s1 ∈ default_rejected_solutions d2 /\
      forall s2, s2 ∈ sols2 -> ids s2 <> ids s1.
Proof.
  eexists _, _, _, _, _, _, _, _.
  assert (H1 : call_find_all_solutions brute_force 50 catalog3 targets3 [] None (Some 1%nat)
                 defaults_at_import (start tt) = Ret (?[sols1], ?[r1], ?[d1], ?[w1]))
    by (vm_compute; reflexivity).
  match type of H1 with
  | _ = Ret (_, _, ?d, ?w) =>
      assert (H2 : call_find_all_solutions brute_force 50 catalog3 targets3 [] None
                     (Some 2%nat) d w = Ret (?[sols2], ?[r2], ?[d2], ?[w2]))
        by (vm_compute; reflexivity)
  end.
  split; [exact H1|]. split; [exact H2|]. split; [reflexivity|]. split; [reflexivity|].
  exact (proj1 default_ledger_is_shared _ brute_force _ _ _ _ _ _ _ _ _ _ _ _ _ _ _ _ _ _ _ _
           H1 H2).
Defined.

(** A session with the scripted solver: reject, accept, reject. *)
Lemma support_sets_proposed_once_witness :
  exists s evs w',
    week alternating 60 catalog8 targets3 [] [reject; accept; reject] (start 0%nat)
      = Ret (s, evs, w') /\
    (forall i d before found after,
       evs !! i = Some (Searched d before found after) ->
       before ⊆ after /\
       NoDup (map ids found) /\
       (forall sol, sol ∈ found -> (ids sol ∉ before) /\ (ids sol ∈ after)) /\
       (forall data, s = reviewing_day data -> after ⊆ rejected_solutions data) /\
       forall j d' before' found' after',
         (i < j)%nat -> evs !! j = Some (Searched d' before' found' after') ->
         after ⊆ before' /\ forall sol, sol ∈ found' -> ids sol ∉ after) /\
    (forall i j d1 sol1 d2 sol2,
       (i < j)%nat -> evs !! i = Some (Proposed d1 sol1) ->
       evs !! j = Some (Proposed d2 sol2) -> ids sol1 <> ids sol2).
Proof.
  eexists _, _, _.
  assert (Hrun : week alternating 60 catalog8 targets3 [] [reject; accept; reject]
                   (start 0%nat) = Ret (?[s], ?[evs], ?[w'])) by (vm_compute; reflexivity).
  split; [exact Hrun|].
  exact (support_sets_proposed_once alternating _ _ _ _ _ _ _ _ _ Hrun).
Defined.

(** Five rejections on the first day, with the scripted solver. *)
Lemma five_rejections_fail_the_day_witness :
  exists data evs0 w data4 evs4 w4,
    (attempt_limit + 8 <= 60)%nat /\
    week alternating 60 catalog8 targets3 [] [] (start 0%nat)
      = Ret (reviewing_day data, evs0, w) /\
    attempts data !! current_day data = None /\
    run alternating 60 [reject; reject; reject; reject] (reviewing_day data) w
      = Ret (reviewing_day data4, evs4, w4) /\
    current_day data4 = current_day data /\
    current_day data = 1%nat /\
    exists s5 evs5 w5 calls,
      on_callback alternating 60 reject (reviewing_day data4) w4
        = Ret (s5, NoSuitableDiet (current_day data) :: evs5, w5) /\
      failed (current_day data)
        = {| day := current_day data; diet := None; total_cost := 0 |} /\
      solver_log w5 = solver_log w4 ++ calls /\
      Forall (fun e => exists d', lp_day (fst e) = Some d' /\ (current_day data < d')%nat)
        calls /\
      match s5 with
      | reviewing_day data5 =>
          (current_day data < current_day data5)%nat /\
          (forall k, (current_day data < k)%nat -> attempts data5 !! k = None) /\
          exists k, weekly_plan data5
                    = weekly_plan data ++ failed (current_day data)
                        :: failed_days (S (current_day data)) k
      | cleared =>
          exists k cost,
            last evs5 = Some (FinalPlan (weekly_plan data ++ failed (current_day data)
                                           :: failed_days (S (current_day data)) k) cost)
      end.
Proof.
  eexists _, _, _, _, _, _.
  assert (Hfuel : (attempt_limit + 8 <= 60)%nat) by (unfold attempt_limit; lia).
  assert (Hweek : week alternating 60 catalog8 targets3 [] [] (start 0%nat)
                  = Ret (reviewing_day ?[data], ?[evs0], ?[w])) by (vm_compute; reflexivity).
  match type of Hweek with
  | _ = Ret (reviewing_day ?d, _, ?w) =>
      assert (Hfresh : attempts d !! current_day d = None) by (vm_compute; reflexivity);
      assert (Hrun : run alternating 60 [reject; reject; reject; reject] (reviewing_day d) w
                     = Ret (reviewing_day ?[data4], ?[evs4], ?[w4]))
        by (vm_compute; reflexivity)
  end.
  match type of Hrun with
  | run _ _ _ (reviewing_day ?d) _ = Ret (reviewing_day ?d4, _, _) =>
      assert (Hday : current_day d4 = current_day d) by reflexivity
  end.
  split; [exact Hfuel|]. split; [exact Hweek|]. split; [exact Hfresh|].
  split; [exact Hrun|]. split; [exact Hday|]. split; [reflexivity|].
  exact (five_rejections_fail_the_day alternating 60 catalog8 targets3 [] [] (start 0%nat)
           _ _ _ _ _ _ Hfuel Hweek Hfresh Hrun Hday).
Defined.

(** A solver that finds nothing: the first day fails at once and so do the
    six that follow. *)
Lemma empty_result_fails_day_and_continues_witness :
  exists ledger w1,
    (attempt_limit + 8 <= 60)%nat /\
    find_all_solutions hopeless attempt_limit catalog3 targets3 [] ∅ (Some 1%nat) (start tt)
      = Ret ([], ledger, w1) /\
    failed 1 = {| day := 1; diet := None; total_cost := 0 |} /\
    exists s evs0 w',
      present_day_plan hopeless 60 (week_start catalog3 targets3 []) (start tt)
        = Ret (s, evs0, w') /\
      s = cleared /\
      exists evs,
        evs0 = Searched 1 ∅ [] ledger :: NoDiet 1 :: evs /\
        exists k cost,
          last evs = Some (FinalPlan ([] ++ failed 1 :: failed_days 2 k) cost).
Proof.
  eexists _, _.
  assert (Hfuel : (attempt_limit + 8 <= 60)%nat) by (unfold attempt_limit; lia).
  assert (Hcall : find_all_solutions hopeless attempt_limit
                    (products_df (week_start catalog3 targets3 []))
                    (targets (week_start catalog3 targets3 []))
                    (excluded_products (week_start catalog3 targets3 []))
                    (rejected_solutions (week_start catalog3 targets3 []))
                    (Some (current_day (week_start catalog3 targets3 []))) (start tt)
                  = Ret ([], ?[ledger], ?[w1])) by (vm_compute; reflexivity).
  split; [exact Hfuel|]. split; [exact Hcall|].
  destruct (empty_result_fails_day_and_continues hopeless 60
              (week_start catalog3 targets3 []) (start tt) _ _ Hfuel Hcall)
    as (Hmark & _ & _ & Htotal & Hres).
  split; [exact Hmark|].
  destruct Htotal as (s & evs0 & w' & Hplan); [vm_compute; reflexivity|].
  exists s, evs0, w'. split; [exact Hplan|].
  assert (Hs : s = cleared).
  { vm_compute in Hplan. by injection Hplan as <- _ _. }
  split; [exact Hs|].
  destruct (Hres _ _ _ Hplan) as (evs & Hevs & Hlast).
  exists evs. split; [exact Hevs|]. rewrite Hs in Hlast. exact Hlast.
Defined.

(** An exclusion that removes item A, written in lower case. *)
Lemma exclusion_filter_once_witness :
  length (catalog_view [[97%N]] catalog8) = 7%nat /\
  exists s evs w',
    week alternating 60 catalog8 targets3 [[97%N]] [accept] (start 0%nat) = Ret (s, evs, w') /\
    week alternating 60 (catalog_view [[97%N]] catalog8) targets3 [] [accept] (start 0%nat)
      = Ret (view_session s, evs, w') /\
    (forall data, s = reviewing_day data ->
       products_df data = catalog8 /\ excluded_products data = [[97%N]]) /\
    exists calls,
      solver_log w' = solver_log (start 0%nat) ++ calls /\
      Forall (fun e => exists ledger d,
                fst e = build_problem (catalog_view [[97%N]] catalog8) targets3 ledger (Some d))
        calls.
Proof.
  split; [reflexivity|].
  eexists _, _, _.
  assert (Hrun : week alternating 60 catalog8 targets3 [[97%N]] [accept] (start 0%nat)
                 = Ret (?[s], ?[evs], ?[w'])) by (vm_compute; reflexivity).
  destruct (exclusion_filter_once alternating 60 catalog8 targets3 [[97%N]] [accept]
              (start 0%nat)) as (_ & Hview & Hall).
  split; [exact Hrun|]. split.
  - rewrite Hview, Hrun. reflexivity.
  - exact (Hall _ _ _ Hrun).
Defined.

(** * More about the search *)

(** ** The rows a solution selects *)

Lemma selected_from (df : DataFrame) (qs : list Z) (k : nat) :
  let sel :=
    filter (fun r : nat * Product * Z => (0 <? snd r)%Z) (zip (zip (seq k (length df)) df) qs) in
  Forall (fun i => (k <= i)%nat) (map (fun r => fst (fst r)) sel) /\
  StronglySorted lt (map (fun r => fst (fst r)) sel) /\
  forall i p q, (i, p, q) ∈ sel <->
    (k <= i)%nat /\ df !! (i - k)%nat = Some p /\ qs !! (i - k)%nat = Some q /\ (0 < q)%Z.
Proof.
  cbv zeta. revert qs k. induction df as [|p0 df IH]; intros qs k.
  - cbn. split; [constructor|]. split; [constructor|].
    intros i p q. split; [intros H; by apply elem_of_nil in H|].
    intros (_ & H & _). by rewrite lookup_nil in H.
  - destruct qs as [|q0 qs].
    { cbn. split; [constructor|]. split; [constructor|].
      intros i p q. split; [intros H; by apply elem_of_nil in H|].
      intros (_ & _ & H & _). by rewrite lookup_nil in H. }
    destruct (IH qs (S k)) as (Hge & Hsorted & Hmem).
    assert (Hge' : Forall (fun i => (k < i)%nat)
              (map (fun r : nat * Product * Z => fst (fst r))
                 (filter (fun r : nat * Product * Z => (0 <? snd r)%Z)
                    (zip (zip (seq (S k) (length df)) df) qs)))).
    { eapply Forall_impl; [exact Hge|]. cbn. lia. }
    assert (Hrest : forall i p q,
              (k <= i)%nat /\ (p0 :: df) !! (i - k)%nat = Some p /\
              (q0 :: qs) !! (i - k)%nat = Some q /\ (0 < q)%Z <->
              (i = k /\ p = p0 /\ q = q0 /\ (0 < q0)%Z) \/
              ((S k <= i)%nat /\ df !! (i - S k)%nat = Some p /\
               qs !! (i - S k)%nat = Some q /\ (0 < q)%Z)).
    { intros i p q. destruct (decide (i = k)) as [->|Hne].
      - rewrite Nat.sub_diag. cbn. split.
        + intros (_ & [= <-] & [= <-] & Hq). left. done.
        + intros [(_ & -> & -> & Hq)|(Hlt & _)]; [done|lia].
      - split.
        + intros (Hle & Hp & Hq & Hpos). right.
          replace (i - k)%nat with (S (i - S k)) in Hp, Hq by lia. cbn in Hp, Hq.
          split; [lia|done].
        + intros [(-> & _)|(Hle & Hp & Hq & Hpos)]; [done|].
          replace (i - k)%nat with (S (i - S k)) by lia. cbn. split; [lia|done]. }
    cbn [length seq zip zip_with].
    destruct (decide (0 < q0)%Z) as [Hpos|Hneg].
    + rewrite filter_cons_True by (cbn; by apply Is_true_true, Z.ltb_lt).
      cbn [map fst]. split; [|split].
      * constructor; [lia|]. eapply Forall_impl; [exact Hge'|]. cbn. lia.
      * constructor; [exact Hsorted|exact Hge'].
      * intros i p q. rewrite elem_of_cons, Hmem, Hrest. split.
        -- intros [[= -> -> ->]|H]; [by left|by right].
        -- intros [(-> & -> & -> & _)|H]; [by left|by right].
    + rewrite filter_cons_False by (cbn; rewrite Is_true_true, Z.ltb_lt; exact Hneg).
      split; [|split].
      * eapply Forall_impl; [exact Hge'|]. cbn. lia.
      * exact Hsorted.
      * intros i p q. rewrite Hmem, Hrest. split; [by right|].
        intros [(_ & _ & _ & H)|H]; [done|exact H].
Qed.

Lemma selected_products_spec (df : DataFrame) (qs : list Z) i p q :
  (i, p, q) ∈ selected_products df qs <->
  df !! i = Some p /\ qs !! i = Some q /\ (0 < q)%Z.
Proof.
  destruct (selected_from df qs 0) as (_ & _ & H).
  unfold selected_products, rows. rewrite H, Nat.sub_0_r.
  split; [intros (_ & ?); done|intros ?; split; [lia|done]].
Qed.

Lemma StronglySorted_lt_le (l : list nat) : StronglySorted lt l -> StronglySorted le l.
Proof.
  induction 1 as [|a l Hl IH Ha]; constructor; [exact IH|].
  eapply Forall_impl; [exact Ha|]. cbn. lia.
Qed.

Lemma solution_ids_labels (df : DataFrame) (qs : list Z) :
  solution_ids df qs = map (fun r => fst (fst r)) (selected_products df qs) /\
  StronglySorted lt (solution_ids df qs).
Proof.
  destruct (selected_from df qs 0) as (_ & Hsorted & _).
  assert (Heq : solution_ids df qs = map (fun r => fst (fst r)) (selected_products df qs)).
  { unfold solution_ids, sorted.
    apply (StronglySorted_unique le).
    - apply StronglySorted_merge_sort; apply _.
    - unfold selected_products, rows. apply StronglySorted_lt_le, Hsorted.
    - apply merge_sort_Permutation. }
  split; [exact Heq|]. rewrite Heq. exact Hsorted.
Qed.

Lemma solution_ids_spec (df : DataFrame) (qs : list Z) (i : nat) :
  i ∈ solution_ids df qs <->
  exists p q, df !! i = Some p /\ qs !! i = Some q /\ (0 < q)%Z.
Proof.
  rewrite (proj1 (solution_ids_labels df qs)), list_elem_of_fmap. split.
  - intros ([[j p] q] & -> & Hin). apply selected_products_spec in Hin. eauto.
  - intros (p & q & H). exists (i, p, q). split; [reflexivity|].
    by apply selected_products_spec.
Qed.

Lemma lookup_tabulate (x : nat -> Z) (n i : nat) (q : Z) :
  map x (seq 0 n) !! i = Some q <-> (i < n)%nat /\ q = x i.
Proof.
  change (map x (seq 0 n)) with (x <$> seq 0 n).
  rewrite list_lookup_fmap. split.
  - intros H. destruct (seq 0 n !! i) as [j|] eqn:Hj; [|discriminate].
    apply lookup_seq in Hj as [-> Hlt]. cbn in H. injection H as <-. done.
  - intros [Hlt ->]. by rewrite (lookup_seq_lt _ _ _ Hlt).
Qed.

Lemma in_bounds_tabulate (n : nat) (x : nat -> Z) :
  in_bounds n x -> Forall (fun q => 0 <= q <= 3)%Z (map x (seq 0 n)).
Proof.
  intros Hb. apply Forall_forall. intros q Hq.
  apply list_elem_of_lookup in Hq as [i Hi]. apply lookup_tabulate in Hi as [Hlt ->].
  by apply Hb.
Qed.

(** A feasible assignment never has a support set of the ledger. *)
Lemma feasible_fresh (df : DataFrame) (t : Targets) (ledger : Ledger) (day : option nat)
    (x : nat -> Z) :
  feasible (build_problem df t ledger day) x ->
  solution_ids df (map x (seq 0 (length df))) ∉ ledger.
Proof.
  intros Hf Hin. apply feasible_avoids in Hf as (_ & _ & Ha).
  specialize (Ha _ Hin). apply avoid_constraint_sum in Ha.
  assert (Z.of_nat (length (solution_ids df (map x (seq 0 (length df)))))
          <= Zsum (map x (solution_ids df (map x (seq 0 (length df))))))%Z; [|lia].
  apply Zsum_all_selected. intros i Hi.
  apply solution_ids_spec in Hi as (p & q & _ & Hq & Hpos).
  apply lookup_tabulate in Hq as [_ ->]. lia.
Qed.

(** ** The totals of a diet *)

Lemma diet_sum_from (col : Product -> Q) (df : DataFrame) (qs : list Z) (k : nat) :
  Forall (fun q => 0 <= q)%Z qs ->
  Qsum (map (fun r : nat * Product * Z => col (snd (fst r)) * inject_Z (snd r))
          (filter (fun r : nat * Product * Z => (0 <? snd r)%Z)
             (zip (zip (seq k (length df)) df) qs)))
  == Qsum (map (fun rq : Product * Z => col (fst rq) * inject_Z (snd rq)) (zip df qs)).
Proof.
  revert qs k. induction df as [|p0 df IH]; intros qs k Hqs; [reflexivity|].
  destruct qs as [|q0 qs]; [reflexivity|].
  apply Forall_cons in Hqs as [Hq0 Hqs].
  cbn [length seq zip zip_with].
  destruct (decide (0 < q0)%Z) as [Hpos|Hneg].
  - rewrite filter_cons_True by (cbn; by apply Is_true_true, Z.ltb_lt).
    cbn [map Qsum fold_right fst snd]. rewrite (IH qs (S k) Hqs). reflexivity.
  - rewrite filter_cons_False by (cbn; rewrite Is_true_true, Z.ltb_lt; exact Hneg).
    cbn [map Qsum fold_right fst snd]. rewrite (IH qs (S k) Hqs).
    assert (q0 = 0%Z) as -> by lia.
    rewrite Qmult_0_r, Qplus_0_l. reflexivity.
Qed.

Lemma diet_sum_weighted (col : Product -> Q) (df : DataFrame) (qs : list Z) :
  Forall (fun q => 0 <= q)%Z qs ->
  diet_sum col (selected_products df qs) == weighted_sum col df qs.
Proof. apply diet_sum_from. Qed.

Lemma within_window_eq (target v v' : Q) :
  v == v' -> within_window target v -> within_window target v'.
Proof. unfold within_window. intros Heq [H1 H2]. rewrite <- Heq. by split. Qed.

Section Solutions.
Context {W : Type}.
Variable solve : LpProblem -> W -> LpStatus * (nat -> Z) * W.

(** Every solution of a call was read back from an optimal answer. *)
Lemma find_all_solutions_made fuel pdf t ex ledger day (w : @World W) sols ledger' w' :
  find_all_solutions solve fuel pdf t ex ledger day w = Ret (sols, ledger', w') ->
  forall s, s ∈ sols ->
    exists x l o o',
      s = make_solution (exclude ex pdf) (map x (seq 0 (length (exclude ex pdf)))) /\
      solve (build_problem (exclude ex pdf) t l day) o = (Optimal, x, o').
Proof.
  intros Hrun. apply find_all_solutions_Ret in Hrun as (st & Hrun & -> & _).
  revert Hrun.
  apply (while_loop_invariant solve _ _ _
           (fun st _ => forall s, s ∈ solutions st ->
              exists x l o o',
                s = make_solution (exclude ex pdf) (map x (seq 0 (length (exclude ex pdf)))) /\
                solve (build_problem (exclude ex pdf) t l day) o = (Optimal, x, o'))).
  - intros st0 w0 st1 flow w1 _ HP Hstep. inversion Hstep; subst; cbn; try assumption.
    intros s Hs. apply elem_of_app in Hs as [Hs|Hs]; [by apply HP|].
    apply list_elem_of_singleton in Hs as ->.
    exists x, (rejected st0), (oracle w0), o. by split.
  - cbn. intros s Hs. by apply elem_of_nil in Hs.
Qed.

Lemma find_all_solutions_good fuel pdf t ex ledger day (w : @World W) sols ledger' w' :
  solver_sound solve ->
  find_all_solutions solve fuel pdf t ex ledger day w = Ret (sols, ledger', w') ->
  forall s, s ∈ sols -> good_solution (exclude ex pdf) t s.
Proof.
  intros Hsound Hrun s Hs.
  destruct (find_all_solutions_made _ _ _ _ _ _ _ _ _ _ Hrun s Hs) as (x & l & o & o' & -> & Hx).
  apply Hsound in Hx. exists x. split; [reflexivity|]. split; [apply Hx|].
  by eapply feasible_meets_targets.
Qed.

(** X1: with a sound solver every solution carries one quantity per row
    of the catalog the search ran on, each an integer from 0 to 3. *)
Theorem solution_quantities_bounded fuel pdf t ex ledger day (w : @World W) sols ledger' w' :
  solver_sound solve ->
  find_all_solutions solve fuel pdf t ex ledger day w = Ret (sols, ledger', w') ->
  forall s, s ∈ sols ->
    length (quantities s) = length (exclude ex pdf) /\
    Forall (fun q => 0 <= q <= 3)%Z (quantities s).
Proof.
  intros Hsound Hrun s Hs.
  destruct (find_all_solutions_good _ _ _ _ _ _ _ _ _ _ Hsound Hrun s Hs) as (x & -> & Hb & _).
  cbn. split; [by rewrite length_map, length_seq|by apply in_bounds_tabulate].
Qed.

(** X2: the support set of a solution is the strictly increasing list of
    the rows with a positive quantity; it is the list of labels of the
    selected rows, and a row is selected with its catalog entry and its
    quantity exactly when that quantity is positive. *)
Theorem solution_support fuel pdf t ex ledger day (w : @World W) sols ledger' w' :
  find_all_solutions solve fuel pdf t ex ledger day w = Ret (sols, ledger', w') ->
  forall s, s ∈ sols ->
    ids s = map (fun r => fst (fst r)) (products s) /\
    StronglySorted lt (ids s) /\
    (forall i, i ∈ ids s <-> exists q, quantities s !! i = Some q /\ (0 < q)%Z) /\
    (forall i p q, (i, p, q) ∈ products s <->
       exclude ex pdf !! i = Some p /\ quantities s !! i = Some q /\ (0 < q)%Z).
Proof.
  intros Hrun s Hs.
  destruct (find_all_solutions_made _ _ _ _ _ _ _ _ _ _ Hrun s Hs) as (x & l & o & o' & -> & _).
  cbn. destruct (solution_ids_labels (exclude ex pdf)
                   (map x (seq 0 (length (exclude ex pdf))))) as [Hlabels Hsorted].
  split; [exact Hlabels|]. split; [exact Hsorted|]. split.
  - intros i. rewrite solution_ids_spec. split.
    + intros (p & q & _ & Hq & Hpos). eauto.
    + intros (q & Hq & Hpos).
      pose proof (proj1 (lookup_tabulate _ _ _ _) Hq) as [Hlt _].
      destruct (lookup_lt_is_Some_2 (exclude ex pdf) i Hlt) as [p Hp]. eauto.
  - intros i p q. apply selected_products_spec.
Qed.

(** X3: with a sound solver the text of every solution shows totals within
    the windows: the totals are taken over the selected rows only and agree
    with the sums over the whole catalog, and the cost shown is the price
    of the selected rows. *)
Theorem diet_text_within_tolerance fuel pdf t ex ledger day (w : @World W) sols ledger' w' :
  solver_sound solve ->
  find_all_solutions solve fuel pdf t ex ledger day w = Ret (sols, ledger', w') ->
  forall s d, s ∈ sols ->
    text_within (format_diet_text (products s) t (optimization.total_cost s) d) /\
    shown_cost (format_diet_text (products s) t (optimization.total_cost s) d)
      == diet_sum price (products s).
Proof.
  intros Hsound Hrun s d Hs.
  destruct (find_all_solutions_good _ _ _ _ _ _ _ _ _ _ Hsound Hrun s Hs)
    as (x & -> & Hb & H1 & H2 & H3 & H4).
  assert (Hpos : Forall (fun q => 0 <= q)%Z (map x (seq 0 (length (exclude ex pdf))))).
  { eapply Forall_impl; [by apply in_bounds_tabulate|]. cbn. lia. }
  cbn. split.
  - unfold text_within. cbn.
    repeat split;
      (eapply within_window_eq; [symmetry; by apply diet_sum_weighted|assumption]).
  - symmetry. by apply diet_sum_weighted.
Qed.

(** X4: with a sound solver no optimal answer is discarded as already
    rejected, so a call makes at most five solver calls: one per solution
    it returns, and possibly a last one that is not optimal. *)
Theorem sound_solver_calls fuel pdf t ex ledger day (w : @World W) sols ledger' w' :
  solver_sound solve ->
  find_all_solutions solve fuel pdf t ex ledger day w = Ret (sols, ledger', w') ->
  exists calls,
    solver_log w' = solver_log w ++ calls /\
    (length calls <= 5)%nat /\
    (length calls = length sols \/
     length calls = S (length sols) /\ exists e, last calls = Some e /\ snd e <> Optimal).
Proof.
  intros Hsound Hrun. apply find_all_solutions_Ret in Hrun as (st & Hrun & -> & _).
  revert Hrun.
  apply (while_loop_rule solve _ _ _
    (fun st w1 => exists calls,
       solver_log w1 = solver_log w ++ calls /\
       length calls = length (solutions st) /\
       (length (solutions st) <= 5)%nat)
    (fun st w1 => exists calls,
       solver_log w1 = solver_log w ++ calls /\
       (length calls <= 5)%nat /\
       (length calls = length (solutions st) \/
        length calls = S (length (solutions st)) /\
        exists e, last calls = Some e /\ snd e <> Optimal))).
  - intros st0 w0 st1 w1 Hg (calls & Hlog & Hlen & Hle) Hstep.
    unfold loop_guard in Hg. apply andb_true_iff in Hg as [Hg _].
    apply Nat.ltb_lt in Hg. unfold max_solutions in Hg.
    inversion Hstep as [|x o Hsolve Hvalued Hold|x o Hsolve Hvalued Hnew]; subst.
    + exfalso. by apply (feasible_fresh _ _ _ _ _ (Hsound _ _ _ _ Hsolve)).
    + eexists. cbn. rewrite Hlog, <- app_assoc. split; [reflexivity|].
      rewrite !length_app. cbn. lia.
  - intros st0 w0 st1 w1 Hg (calls & Hlog & Hlen & Hle) Hstep.
    unfold loop_guard in Hg. apply andb_true_iff in Hg as [Hg _].
    apply Nat.ltb_lt in Hg. unfold max_solutions in Hg.
    inversion Hstep as [status x o Hsolve Hne| |]; subst.
    eexists. cbn. rewrite Hlog, <- app_assoc. split; [reflexivity|].
    rewrite length_app. cbn. split; [lia|]. right. split; [lia|].
    eexists. split; [apply last_snoc|exact Hne].
  - intros st0 w0 _ (calls & Hlog & Hlen & Hle). exists calls.
    split; [exact Hlog|]. split; [lia|by left].
  - exists []. cbn. rewrite app_nil_r. split; [reflexivity|]. split; [reflexivity|lia].
Qed.

(** X5: a call leaves in the ledger exactly what it was given together
    with the support sets of the solutions it returns. *)
Theorem ledger_after_search fuel pdf t ex ledger day (w : @World W) sols ledger' w' :
  find_all_solutions solve fuel pdf t ex ledger day w = Ret (sols, ledger', w') ->
  ledger' = ledger ∪ list_to_set (map ids sols).
Proof.
  intros Hrun. apply find_all_solutions_Ret in Hrun as (st & Hrun & -> & ->).
  revert Hrun.
  apply (while_loop_invariant solve _ _ _
           (fun st _ => rejected st = ledger ∪ list_to_set (map ids (solutions st)))).
  - intros st0 w0 st1 flow w1 _ HP Hstep. inversion Hstep; subst; cbn; try assumption.
    rewrite HP, map_app, list_to_set_app_L. cbn.
    apply set_eq. intros s. rewrite !elem_of_union, elem_of_singleton, elem_of_empty. tauto.
  - cbn. apply set_eq. intros s. rewrite elem_of_union, elem_of_empty. tauto.
Qed.

(** X6: when no assignment within the bounds meets the windows, a sound
    solver makes the call return at once: one solver call, not optimal, no
    solution, the ledger as it was. *)
Theorem unreachable_targets_give_nothing fuel pdf t ex ledger day (w : @World W) :
  solver_sound solve ->
  unreachable (exclude ex pdf) t ->
  (1 <= fuel)%nat ->
  ledger_known (length (exclude ex pdf)) ledger ->
  exists status o,
    status <> Optimal /\
    find_all_solutions solve fuel pdf t ex ledger day w
      = Ret ([], ledger,
             {| oracle := o;
                solver_log :=
                  solver_log w ++ [(build_problem (exclude ex pdf) t ledger day, status)] |}).
Proof.
  intros Hsound Hno Hfuel Hk. destruct fuel as [|fuel]; [lia|].
  destruct (solve (build_problem (exclude ex pdf) t ledger day) (oracle w))
    as [[status x] o] eqn:Hsolve.
  assert (Hne : status <> Optimal).
  { intros ->. apply Hsound in Hsolve.
    apply (Hno x); [apply Hsolve|by eapply feasible_meets_targets]. }
  exists status, o. split; [exact Hne|].
  unfold find_all_solutions. cbn [while_loop].
  change (loop_guard {| solutions := []; optimization.attempts := 0; rejected := ledger |})
    with true. cbv iota.
  assert (Hb : loop_body solve (exclude ex pdf) t day
                 {| solutions := []; optimization.attempts := 0; rejected := ledger |} w
               = Ret ({| solutions := []; optimization.attempts := 0; rejected := ledger |},
                      Break,
                      {| oracle := o;
                         solver_log :=
                           solver_log w
                             ++ [(build_problem (exclude ex pdf) t ledger day, status)] |})).
  { apply loop_body_Ret. split; [exact Hk|]. eapply step_break; eassumption. }
  by rewrite Hb.
Qed.
End Solutions.

(** * More about the week *)

Lemma heads_shown_nil : heads_shown [].
Proof. intros j d sol H. by rewrite lookup_nil in H. Qed.

Lemma heads_shown_cons (e : Event) (evs : list Event) :
  (forall d sol, e <> Proposed d sol) -> heads_shown evs -> heads_shown (e :: evs).
Proof.
  intros He H j d sol Hj. destruct j as [|j]; cbn in Hj.
  - injection Hj as ->. by destruct (He d sol).
  - destruct (H j d sol Hj) as (j' & b & rest & a & -> & Hs).
    exists (S j'), b, rest, a. by split.
Qed.

Lemma heads_shown_app (evs1 evs2 : list Event) :
  heads_shown evs1 -> heads_shown evs2 -> heads_shown (evs1 ++ evs2).
Proof.
  intros H1 H2 j d sol Hj.
  destruct (decide (j < length evs1)%nat) as [Hlt|Hge].
  - rewrite lookup_app_l in Hj by exact Hlt.
    destruct (H1 j d sol Hj) as (j' & b & rest & a & -> & Hs).
    exists j', b, rest, a. split; [reflexivity|].
    rewrite lookup_app_l by lia. exact Hs.
  - rewrite lookup_app_r in Hj by lia.
    destruct (H2 _ d sol Hj) as (j' & b & rest & a & Heq & Hs).
    exists (length evs1 + j')%nat, b, rest, a. split; [lia|].
    rewrite lookup_app_r by lia.
    replace (length evs1 + j' - length evs1)%nat with j' by lia. exact Hs.
Qed.

Lemma heads_shown_pair d before sol rest after :
  heads_shown [Searched d before (sol :: rest) after; Proposed d sol].
Proof.
  intros j d' sol' Hj. destruct j as [|[|j]]; cbn in Hj; try discriminate.
  injection Hj as <- <-. exists 0%nat, before, rest, after. by split.
Qed.

Lemma week_done_cons G (e : Event) (evs : list Event) :
  week_done G evs -> week_done G (e :: evs).
Proof.
  intros (plan & Hlast & Hplan). exists plan. split; [|exact Hplan].
  destruct evs as [|e' evs]; [discriminate|exact Hlast].
Qed.

Lemma week_done_app G (evs1 evs2 : list Event) :
  week_done G evs2 -> week_done G (evs1 ++ evs2).
Proof. intros H. induction evs1 as [|e evs1 IH]; [exact H|]. by apply week_done_cons. Qed.

Lemma plan_shaped_snoc G (d : nat) (plan : list DayPlan) (p : DayPlan) :
  (1 <= d)%nat -> plan_shaped G (d - 1) plan -> day p = d -> entry_ok G p ->
  plan_shaped G d (plan ++ [p]).
Proof.
  intros Hd [Hdays Hok] Hp Hentry. split.
  - rewrite map_app, Hdays. cbn. rewrite Hp.
    replace d with (S (d - 1)) at 3 by lia. rewrite seq_S. f_equal. f_equal. lia.
  - apply Forall_app. split; [exact Hok|]. by apply Forall_singleton.
Qed.

Lemma entry_ok_failed G (d : nat) : entry_ok G (failed d).
Proof. left. by split. Qed.

Section WeekShape.
Context {W : Type}.
Variable solve : LpProblem -> W -> LpStatus * (nat -> Z) * W.
Variables (df : DataFrame) (t : Targets) (ex : list pystr).
Variable G : Solution -> Prop.
Hypothesis Hfind :
  forall fuel ledger d (w : @World W) found ledger' w',
    find_all_solutions solve fuel df t ex ledger (Some d) w = Ret (found, ledger', w') ->
    forall s, s ∈ found -> G s.

Lemma present_day_plan_shape fuel data (w : @World W) s evs w' :
  framed df t ex data ->
  (1 <= current_day data <= 7)%nat ->
  plan_shaped G (current_day data - 1) (weekly_plan data) ->
  (default 0%nat (attempts data !! current_day data) < 5)%nat ->
  present_day_plan solve fuel data w = Ret (s, evs, w') ->
  heads_shown evs /\
  match s with
  | reviewing_day data' => review_inv G data'
  | cleared => week_done G evs
  end.
Proof.
  revert data w s evs w'.
  induction fuel as [|fuel IH]; intros data w s evs w' Hfr Hday Hplan Hcnt Hrun;
    [discriminate|].
  destruct Hfr as (Hdf & Ht & Hex & Hatt).
  cbn [present_day_plan] in Hrun. rewrite Hdf, Ht, Hex in Hrun.
  destruct (find_all_solutions _ _ _ _ _ _ _ _) as [[[found ledger] w1]| |] eqn:Hcall;
    try discriminate.
  pose proof (Hfind _ _ _ _ _ _ _ Hcall) as HG.
  destruct found as [|sol found]; cbn -[Nat.ltb] in Hrun.
  - destruct (current_day data <? 7)%nat eqn:Hlt.
    + apply Nat.ltb_lt in Hlt.
      destruct (present_day_plan solve fuel _ w1) as [[[s2 evs2] w2]| |] eqn:Hnext;
        try discriminate.
      injection Hrun as <- <- <-.
      apply IH in Hnext as [Hheads Hres].
      * split.
        -- apply heads_shown_cons; [discriminate|].
           apply heads_shown_cons; [discriminate|exact Hheads].
        -- destruct s2; [exact Hres|]. by do 2 apply week_done_cons.
      * repeat (split; [assumption|]). cbn. intros k Hk. apply Hatt. lia.
      * cbn. lia.
      * cbn. rewrite Nat.sub_0_r.
        apply plan_shaped_snoc; [lia|exact Hplan|reflexivity|apply entry_ok_failed].
      * cbn. rewrite Hatt by lia. cbn. lia.
    + apply Nat.ltb_ge in Hlt. injection Hrun as <- <- <-. split.
      * apply heads_shown_cons; [discriminate|].
        apply heads_shown_cons; [discriminate|].
        apply heads_shown_cons; [discriminate|apply heads_shown_nil].
      * eexists. split; [reflexivity|].
        replace 7%nat with (current_day data) by lia.
        apply plan_shaped_snoc; [lia|exact Hplan|reflexivity|apply entry_ok_failed].
  - injection Hrun as <- <- <-. split; [apply heads_shown_pair|].
    split; [exact Hday|]. split; [exact Hplan|]. split; [exact Hcnt|].
    exists sol. split; [reflexivity|]. apply HG. by left.
Qed.

Lemma proceed_shape fuel data (w : @World W) s evs w' :
  framed df t ex data ->
  (1 <= current_day data <= 7)%nat ->
  plan_shaped G (current_day data) (weekly_plan data) ->
  proceed solve fuel data w = Ret (s, evs, w') ->
  heads_shown evs /\
  match s with
  | reviewing_day data' => review_inv G data'
  | cleared => week_done G evs
  end.
Proof.
  intros (Hdf & Ht & Hex & Hatt) Hday Hplan Hrun. unfold proceed in Hrun.
  destruct (current_day data <? 7)%nat eqn:Hlt.
  - apply Nat.ltb_lt in Hlt. apply present_day_plan_shape in Hrun; [exact Hrun|..].
    + repeat (split; [assumption|]). cbn. intros k Hk. apply Hatt. lia.
    + cbn. lia.
    + cbn. by rewrite Nat.sub_0_r.
    + cbn. rewrite Hatt by lia. cbn. lia.
  - apply Nat.ltb_ge in Hlt. injection Hrun as <- <- <-. split.
    + apply heads_shown_cons; [discriminate|apply heads_shown_nil].
    + eexists. split; [reflexivity|]. by replace 7%nat with (current_day data) by lia.
Qed.

Lemma process_day_review_shape fuel r data (w : @World W) s evs w' :
  session_inv df t ex data ->
  review_inv G data ->
  process_day_review solve fuel r data w = Ret (s, evs, w') ->
  heads_shown evs /\
  match s with
  | reviewing_day data' => review_inv G data'
  | cleared => week_done G evs
  end.
Proof.
  intros (Hdf & Ht & Hex & Hkn & _ & Hatt) (Hday & Hplan & Hcnt & sol & Hsol & HG) Hrun.
  unfold process_day_review in Hrun. rewrite Hsol in Hrun.
  destruct r.
  - apply proceed_shape in Hrun; [exact Hrun|..].
    + by repeat (split; [assumption|]).
    + exact Hday.
    + cbn. apply plan_shaped_snoc; [lia|exact Hplan|reflexivity|].
      right. exists sol. by split.
  - set (n := S (default 0%nat (attempts data !! current_day data))) in *.
    assert (Htries : forall k, (current_day data < k)%nat ->
              <[current_day data := n]> (attempts data) !! k = None).
    { intros k Hk. rewrite lookup_insert_ne by lia. by apply Hatt. }
    destruct (n <? 5)%nat eqn:Hn.
    + apply Nat.ltb_lt in Hn.
      destruct (present_day_plan solve fuel _ w) as [[[s1 evs1] w1]| |] eqn:Hnext;
        try discriminate.
      injection Hrun as <- <- <-.
      apply present_day_plan_shape in Hnext as [Hheads Hres].
      * split; [apply heads_shown_cons; [discriminate|exact Hheads]|].
        destruct s1; [exact Hres|by apply week_done_cons].
      * by repeat (split; [assumption|]).
      * exact Hday.
      * exact Hplan.
      * cbn. rewrite lookup_insert_eq. exact Hn.
    + destruct (proceed solve fuel _ w) as [[[s1 evs1] w1]| |] eqn:Hnext; try discriminate.
      injection Hrun as <- <- <-.
      apply proceed_shape in Hnext as [Hheads Hres].
      * split; [apply heads_shown_cons; [discriminate|exact Hheads]|].
        destruct s1; [exact Hres|by apply week_done_cons].
      * by repeat (split; [assumption|]).
      * exact Hday.
      * cbn. apply plan_shaped_snoc; [lia|exact Hplan|reflexivity|apply entry_ok_failed].
Qed.

Lemma run_shape fuel rs data (w : @World W) s evs w' :
  session_inv df t ex data ->
  review_inv G data ->
  run solve fuel rs (reviewing_day data) w = Ret (s, evs, w') ->
  heads_shown evs /\
  match s with
  | reviewing_day data' => review_inv G data'
  | cleared => week_done G evs
  end.
Proof.
  revert data w s evs w'. induction rs as [|r rs IH]; intros data w s evs w' Hinv Hrev Hrun.
  - injection Hrun as <- <- <-. split; [apply heads_shown_nil|exact Hrev].
  - cbn [run on_callback] in Hrun.
    destruct (process_day_review solve fuel r data w) as [[[s1 evs1] w1]| |] eqn:Hstep;
      try discriminate.
    pose proof (process_day_review_spec solve df t ex _ _ _ _ _ _ _ Hinv Hstep)
      as (_ & _ & Hinv1).
    apply process_day_review_shape in Hstep as [Hheads1 Hres1]; [|done..].
    destruct s1 as [data1|].
    + destruct (run solve fuel rs (reviewing_day data1) w1) as [[[s2 evs2] w2]| |] eqn:Hrest;
        try discriminate.
      injection Hrun as <- <- <-.
      apply IH in Hrest as [Hheads2 Hres2]; [|apply Hinv1|exact Hres1].
      split; [by apply heads_shown_app|].
      destruct s2; [exact Hres2|by apply week_done_app].
    + rewrite run_cleared in Hrun. injection Hrun as <- <- <-.
      rewrite app_nil_r. by split.
Qed.

Lemma week_shape fuel rs (w : @World W) s evs w' :
  week solve fuel df t ex rs w = Ret (s, evs, w') ->
  heads_shown evs /\
  match s with
  | reviewing_day data' => review_inv G data'
  | cleared => week_done G evs
  end.
Proof.
  unfold week, generate_weekly_plan. intros Hrun.
  destruct (present_day_plan solve fuel _ w) as [[[s1 evs1] w1]| |] eqn:Hplan; try discriminate.
  assert (Hfr : framed df t ex
                  {| products_df := df; targets := t; excluded_products := ex;
                     weekly_plan := []; current_day := 1; rejected_solutions := ∅;
                     attempts := ∅; current_solution := None |}).
  { repeat (split; [reflexivity|]). intros k _. apply lookup_empty. }
  pose proof (present_day_plan_inv solve df t ex _ _ _ _ _ _ Hfr Hplan) as (_ & _ & _ & Hinv1).
  apply present_day_plan_shape in Hplan as [Hheads1 Hres1]; [|exact Hfr|cbn; lia| |].
  2: { split; [reflexivity|constructor]. }
  2: { cbn. rewrite lookup_empty. cbn. lia. }
  destruct (run solve fuel rs s1 w1) as [[[s2 evs2] w2]| |] eqn:Hrest; try discriminate.
  injection Hrun as <- <- <-.
  destruct s1 as [data1|].
  - apply run_shape in Hrest as [Hheads2 Hres2]; [|exact Hinv1|exact Hres1].
    split; [by apply heads_shown_app|].
    destruct s2; [exact Hres2|by apply week_done_app].
  - rewrite run_cleared in Hrest. injection Hrest as <- <- <-.
    rewrite app_nil_r. by split.
Qed.
End WeekShape.

Section WeekClaims.
Context {W : Type}.
Variable solve : LpProblem -> W -> LpStatus * (nat -> Z) * W.

(** X7: the shape of the plan.  While a day is under review it is one of
    the days 1..7 and the plan holds exactly the days before it, in order;
    when the session is over the last event is the final plan with exactly
    the days 1..7 in order, and the cost it reports is the sum of the
    costs of its entries. *)
Theorem weekly_plan_days fuel df t ex responses (w : @World W) s evs w' :
  week solve fuel df t ex responses w = Ret (s, evs, w') ->
  match s with
  | reviewing_day data =>
      (1 <= current_day data <= 7)%nat /\
      map day (weekly_plan data) = seq 1 (current_day data - 1)
  | cleared =>
      exists plan,
        last evs = Some (FinalPlan plan (Qsum (map total_cost plan))) /\
        map day plan = [1; 2; 3; 4; 5; 6; 7]%nat
  end.
Proof.
  intros Hweek.
  apply (week_shape solve df t ex (fun _ => True)) in Hweek as [_ Hres]; [|done].
  destruct s as [data|].
  - destruct Hres as (Hday & [Hdays _] & _). by split.
  - destruct Hres as (plan & Hlast & [Hdays _]). by exists plan.
Qed.

(** X8: with a sound solver every entry of the final plan is either the
    failure marker, with cost 0, or a diet whose text shows totals within
    the windows and whose cost is the price of its rows. *)
Theorem final_plan_within_tolerance fuel df t ex responses (w : @World W) evs w' :
  solver_sound solve ->
  week solve fuel df t ex responses w = Ret (cleared, evs, w') ->
  exists plan cost,
    last evs = Some (FinalPlan plan cost) /\
    forall p, p ∈ plan ->
      (diet p = None /\ total_cost p = 0) \/
      exists rows,
        diet p = Some rows /\
        text_within (format_diet_text rows t (total_cost p) (day p)) /\
        total_cost p == diet_sum price rows.
Proof.
  intros Hsound Hweek.
  apply (week_shape solve df t ex (good_solution (exclude ex df) t)) in Hweek as [_ Hres].
  2: { intros fuel0 ledger d w0 found ledger' w0' Hcall.
       by apply (find_all_solutions_good solve _ _ _ _ _ _ _ _ _ _ Hsound Hcall). }
  destruct Hres as (plan & Hlast & [_ Hok]). exists plan, (Qsum (map total_cost plan)).
  split; [exact Hlast|]. intros p Hp. rewrite Forall_forall in Hok.
  destruct (Hok p Hp) as [Hfail|(sol & (x & -> & Hb & H1 & H2 & H3 & H4) & Hdiet & Hcost)];
    [by left|right].
  assert (Hpos : Forall (fun q => 0 <= q)%Z (map x (seq 0 (length (exclude ex df))))).
  { eapply Forall_impl; [by apply in_bounds_tabulate|]. cbn. lia. }
  eexists. split; [exact Hdiet|]. rewrite Hcost. cbn. split.
  - unfold text_within. cbn.
    repeat split;
      (eapply within_window_eq; [symmetry; by apply diet_sum_weighted|assumption]).
  - symmetry. by apply diet_sum_weighted.
Qed.

(** X9: of the solutions a search finds only the first is ever shown.
    Every proposal comes right after a search and is the first solution
    that search found; no proposal of the session, earlier or later, has
    the support set of any other solution a search found. *)
Theorem only_first_solution_shown fuel df t ex responses (w : @World W) s evs w' :
  week solve fuel df t ex responses w = Ret (s, evs, w') ->
  (forall j d sol, evs !! j = Some (Proposed d sol) ->
     exists j' before rest after,
       j = S j' /\ evs !! j' = Some (Searched d before (sol :: rest) after)) /\
  (forall i d before first rest after,
     evs !! i = Some (Searched d before (first :: rest) after) ->
     forall other, other ∈ rest ->
     forall j d' sol, evs !! j = Some (Proposed d' sol) -> ids sol <> ids other).
Proof.
  intros Hweek.
  pose proof (week_shape solve df t ex (fun _ => True) (fun _ _ _ _ _ _ _ _ _ _ => I)
                _ _ _ _ _ _ Hweek) as [Hheads _].
  apply week_spec in Hweek as ((final & Hchain & _) & _ & _).
  split; [exact Hheads|].
  intros i d before first rest after Hi other Hother j d' sol Hj.
  destruct (ledger_chain_search _ _ _ _ _ _ _ _ _ Hchain Hi) as (_ & _ & _ & Hnd & Hnew).
  destruct (Hnew other (list_elem_of_further _ _ _ Hother)) as [Hout Hin].
  destruct (Hheads j d' sol Hj) as (j' & b' & rest' & a' & -> & Hj').
  destruct (ledger_chain_search _ _ _ _ _ _ _ _ _ Hchain Hj') as (_ & _ & _ & _ & Hnew').
  destruct (Hnew' sol (list_elem_of_here _ _)) as [Hout' Hin'].
  destruct (lt_eq_lt_dec j' i) as [[Hlt|Heq]|Hgt].
  - pose proof (ledger_chain_search_pair _ _ _ _ _ _ _ _ _ _ _ _ _ _ Hchain Hlt Hj' Hi) as Hsub.
    intros Heq. apply Hout. rewrite <- Heq. by apply Hsub.
  - subst j'. rewrite Hi in Hj'. injection Hj' as <- <- <- <-.
    cbn in Hnd. apply NoDup_cons in Hnd as [Hnotin _].
    intros Heq. apply Hnotin. rewrite Heq. by apply list_elem_of_fmap_2.
  - pose proof (ledger_chain_search_pair _ _ _ _ _ _ _ _ _ _ _ _ _ _ Hchain Hgt Hi Hj') as Hsub.
    intros Heq. apply Hout'. rewrite Heq. by apply Hsub.
Qed.

(** ** The session always ends *)

Lemma all_priced_exclude ex df : all_priced df -> all_priced (exclude ex df).
Proof.
  unfold all_priced, exclude. intros Hdf. destruct ex; [exact Hdf|].
  apply Forall_forall. intros p Hp. rewrite Forall_forall in Hdf. apply Hdf.
  by apply list_elem_of_filter in Hp as [_ Hp].
Qed.

Lemma all_priced_valued df ledger : all_priced df -> all_valued df ledger = true.
Proof.
  intros Hdf. unfold all_valued. apply forallb_forall. intros i Hi.
  apply in_seq in Hi as [_ Hi]. cbn in Hi.
  destruct (lookup_lt_is_Some_2 _ _ Hi) as [p Hp].
  unfold in_problem. rewrite Hp.
  unfold all_priced in Hdf. rewrite Forall_forall in Hdf.
  by rewrite (Hdf p (list_elem_of_lookup_2 _ _ _ Hp)).
Qed.

Lemma process_day_review_ends fuel df t ex r data (w : @World W) :
  (attempt_limit + 8 <= fuel)%nat ->
  session_inv df t ex data ->
  (exists s evs w', process_day_review solve fuel r data w = Ret (s, evs, w')) \/
  process_day_review solve fuel r data w = Raise TypeError.
Proof.
  intros Hfuel (Hdf & Ht & Hex & Hkn & (sol & Hsol & Hids) & Hatt).
  assert (Hkn' : ledger_known (length (exclude ex df)) ({[ids sol]} ∪ rejected_solutions data)).
  { intros s Hs. apply Hkn.
    apply elem_of_union in Hs as [Hs|Hs]; [|exact Hs].
    apply elem_of_singleton in Hs as ->. exact Hids. }
  unfold process_day_review. rewrite Hsol. destruct r.
  - apply proceed_ends; [exact Hfuel|]. cbn. by rewrite Hdf, Hex.
  - destruct (_ <? 5)%nat.
    + destruct (present_day_plan_ends solve fuel
                  (set_rejected data ({[ids sol]} ∪ rejected_solutions data)
                     (<[current_day data:=S (default 0%nat (attempts data !! current_day data))]>
                        (attempts data))) w) as [(s & evs & w' & Hrun)|Hrun].
      * unfold attempt_limit in *. lia.
      * cbn. unfold attempt_limit in *. lia.
      * cbn. by rewrite Hdf, Hex.
      * rewrite Hrun. eauto.
      * rewrite Hrun. by right.
    + destruct (proceed_ends solve fuel
                  (set_day_plan
                     (set_rejected data ({[ids sol]} ∪ rejected_solutions data)
                        (<[current_day data:=S (default 0%nat (attempts data !! current_day data))]>
                           (attempts data)))
                     (current_day data) (weekly_plan data ++ [failed (current_day data)])) w)
        as [(s & evs & w' & Hrun)|Hrun]; [exact Hfuel|cbn; by rewrite Hdf, Hex| |];
        cbn in Hrun |- *; rewrite Hrun; eauto.
Qed.

Lemma process_day_review_total fuel df t ex r data (w : @World W) :
  (attempt_limit + 8 <= fuel)%nat ->
  session_inv df t ex data ->
  all_valued (exclude ex df) (rejected_solutions data) = true ->
  exists s evs w', process_day_review solve fuel r data w = Ret (s, evs, w').
Proof.
  intros Hfuel (Hdf & Ht & Hex & Hkn & (sol & Hsol & Hids) & Hatt) Hv.
  assert (Hkn' : ledger_known (length (exclude ex df)) ({[ids sol]} ∪ rejected_solutions data)).
  { intros s Hs. apply Hkn.
    apply elem_of_union in Hs as [Hs|Hs]; [|exact Hs].
    apply elem_of_singleton in Hs as ->. exact Hids. }
  assert (Hv' : all_valued (exclude ex df) ({[ids sol]} ∪ rejected_solutions data) = true).
  { eapply all_valued_mono; [|exact Hv]. set_solver. }
  unfold process_day_review. rewrite Hsol. destruct r.
  - apply proceed_total; [exact Hfuel| |]; cbn; by rewrite Hdf, Hex.
  - destruct (_ <? 5)%nat.
    + destruct (present_day_plan_total solve fuel
                  (set_rejected data ({[ids sol]} ∪ rejected_solutions data)
                     (<[current_day data:=S (default 0%nat (attempts data !! current_day data))]>
                        (attempts data))) w) as (s & evs & w' & Hrun).
      * unfold attempt_limit in *. lia.
      * cbn. unfold attempt_limit in *. lia.
      * cbn. by rewrite Hdf, Hex.
      * cbn. by rewrite Hdf, Hex.
      * rewrite Hrun. eauto.
    + destruct (proceed_total solve fuel
                  (set_day_plan
                     (set_rejected data ({[ids sol]} ∪ rejected_solutions data)
                        (<[current_day data:=S (default 0%nat (attempts data !! current_day data))]>
                           (attempts data)))
                     (current_day data) (weekly_plan data ++ [failed (current_day data)])) w)
        as (s & evs & w' & Hrun);
        [exact Hfuel|cbn; by rewrite Hdf, Hex|cbn; by rewrite Hdf, Hex|].
      cbn in Hrun |- *. rewrite Hrun. eauto.
Qed.

Lemma run_ends fuel df t ex rs s (w : @World W) :
  (attempt_limit + 8 <= fuel)%nat ->
  match s with reviewing_day data => session_inv df t ex data | cleared => True end ->
  (exists s' evs w', run solve fuel rs s w = Ret (s', evs, w')) \/
  run solve fuel rs s w = Raise TypeError.
Proof.
  intros Hfuel. revert s w. induction rs as [|r rs IH]; intros s w Hinv; [cbn; eauto|].
  destruct s as [data|]; [|rewrite run_cleared; eauto].
  cbn [run on_callback].
  destruct (process_day_review_ends fuel df t ex r data w Hfuel Hinv)
    as [(s1 & evs1 & w1 & Hstep)|Hstep]; rewrite Hstep; [|by right].
  apply (process_day_review_spec solve df t ex) in Hstep as (_ & _ & Hres); [|exact Hinv].
  destruct (IH s1 w1) as [(s2 & evs2 & w2 & Hrest)|Hrest].
  { destruct s1; [apply Hres|done]. }
  - rewrite Hrest. eauto.
  - rewrite Hrest. by right.
Qed.

Lemma run_total fuel df t ex rs s (w : @World W) :
  (attempt_limit + 8 <= fuel)%nat ->
  match s with
  | reviewing_day data =>
      session_inv df t ex data /\
      all_valued (exclude ex df) (rejected_solutions data) = true
  | cleared => True
  end ->
  exists s' evs w', run solve fuel rs s w = Ret (s', evs, w').
Proof.
  intros Hfuel. revert s w. induction rs as [|r rs IH]; intros s w Hinv; [cbn; eauto|].
  destruct s as [data|]; [|rewrite run_cleared; eauto].
  destruct Hinv as [Hinv Hv].
  cbn [run on_callback].
  destruct (process_day_review_total fuel df t ex r data w Hfuel Hinv Hv)
    as (s1 & evs1 & w1 & Hstep).
  rewrite Hstep.
  pose proof Hstep as Hstep'.
  apply (process_day_review_spec solve df t ex) in Hstep as (_ & _ & Hres); [|exact Hinv].
  destruct (IH s1 w1) as (s2 & evs2 & w2 & Hrest).
  { destruct s1 as [data1|]; [|done]. split; [apply Hres|].
    apply process_day_review_valued in Hstep'.
    destruct Hres as ((Hdf1 & _ & Hex1 & _) & _). by rewrite Hdf1, Hex1 in Hstep'. }
  rewrite Hrest. eauto.
Qed.

Lemma week_ends fuel df t ex rs (w : @World W) :
  (attempt_limit + 8 <= fuel)%nat ->
  (exists s evs w', week solve fuel df t ex rs w = Ret (s, evs, w')) \/
  week solve fuel df t ex rs w = Raise TypeError.
Proof.
  intros Hfuel. unfold week, generate_weekly_plan.
  destruct (present_day_plan_ends solve fuel
              {| products_df := df; targets := t; excluded_products := ex;
                 weekly_plan := []; current_day := 1; rejected_solutions := ∅;
                 attempts := ∅; current_solution := None |} w)
    as [(s1 & evs1 & w1 & Hplan)|Hplan].
  { unfold attempt_limit in *. lia. }
  { cbn. unfold attempt_limit in *. lia. }
  { intros s Hs. by apply not_elem_of_empty in Hs. }
  2: { rewrite Hplan. by right. }
  rewrite Hplan.
  apply (present_day_plan_inv solve df t ex) in Hplan as (_ & _ & _ & Hinv).
  2: { repeat (split; [reflexivity|]). intros k _. apply lookup_empty. }
  destruct (run_ends fuel df t ex rs s1 w1 Hfuel Hinv) as [(s2 & evs2 & w2 & Hrest)|Hrest];
    rewrite Hrest; eauto.
Qed.

Lemma week_total fuel df t ex rs (w : @World W) :
  (attempt_limit + 8 <= fuel)%nat ->
  all_valued (exclude ex df) ∅ = true ->
  exists s evs w', week solve fuel df t ex rs w = Ret (s, evs, w').
Proof.
  intros Hfuel Hv. unfold week, generate_weekly_plan.
  destruct (present_day_plan_total solve fuel
              {| products_df := df; targets := t; excluded_products := ex;
                 weekly_plan := []; current_day := 1; rejected_solutions := ∅;
                 attempts := ∅; current_solution := None |} w) as (s1 & evs1 & w1 & Hplan).
  { unfold attempt_limit in *. lia. }
  { cbn. unfold attempt_limit in *. lia. }
  { intros s Hs. by apply not_elem_of_empty in Hs. }
  { exact Hv. }
  rewrite Hplan.
  pose proof Hplan as Hplan'.
  apply (present_day_plan_inv solve df t ex) in Hplan as (_ & _ & _ & Hinv).
  2: { repeat (split; [reflexivity|]). intros k _. apply lookup_empty. }
  destruct (run_total fuel df t ex rs s1 w1 Hfuel) as (s2 & evs2 & w2 & Hrest).
  { destruct s1 as [data1|]; [|done]. split; [exact Hinv|].
    apply present_day_plan_valued in Hplan'.
    destruct Hinv as (Hdf1 & _ & Hex1 & _). by rewrite Hdf1, Hex1 in Hplan'. }
  rewrite Hrest. eauto.
Qed.

Lemma accept_advances fuel df t ex data (w : @World W) data' evs w' :
  session_inv df t ex data ->
  process_day_review solve fuel accept data w = Ret (reviewing_day data', evs, w') ->
  (current_day data < current_day data')%nat.
Proof.
  intros (Hdf & Ht & Hex & Hkn & (sol & Hsol & Hids) & Hatt) Hrun.
  unfold process_day_review in Hrun. rewrite Hsol in Hrun.
  apply (proceed_spec solve df t ex) in Hrun as (_ & _ & _ & Hlt & _); [exact Hlt|].
  by repeat (split; [assumption|]).
Qed.

Lemma process_day_review_budget fuel df t ex r data (w : @World W) data' evs w' :
  session_inv df t ex data ->
  review_inv (fun _ => True) data ->
  process_day_review solve fuel r data w = Ret (reviewing_day data', evs, w') ->
  (budget_left data' < budget_left data)%nat.
Proof.
  intros Hinv Hrev Hrun.
  pose proof (process_day_review_spec solve df t ex _ _ _ _ _ _ _ Hinv Hrun) as (_ & _ & _ & Hle).
  pose proof (process_day_review_shape solve df t ex (fun _ => True)
                (fun _ _ _ _ _ _ _ _ _ _ => I) _ _ _ _ _ _ _ Hinv Hrev Hrun) as [_ Hrev'].
  destruct Hrev as (Hday & _ & Hcnt & _). destruct Hrev' as (Hday' & _ & Hcnt' & _).
  unfold budget_left.
  destruct (decide (current_day data' = current_day data)) as [Heq|Hne]; [|lia].
  destruct r.
  - apply (accept_advances _ _ _ _ _ _ _ _ _ Hinv) in Hrun. lia.
  - destruct (reject_same_day solve _ _ _ _ _ _ _ _ _ Hinv Hrun Heq) as [Hc _].
    rewrite Heq in *. lia.
Qed.

Lemma run_budget fuel df t ex rs data (w : @World W) data' evs w' :
  session_inv df t ex data ->
  review_inv (fun _ => True) data ->
  run solve fuel rs (reviewing_day data) w = Ret (reviewing_day data', evs, w') ->
  (budget_left data' + length rs <= budget_left data)%nat.
Proof.
  revert data w evs. induction rs as [|r rs IH]; intros data w evs Hinv Hrev Hrun.
  - injection Hrun as <- <- <-. cbn [length]. lia.
  - cbn [run on_callback] in Hrun.
    destruct (process_day_review solve fuel r data w) as [[[s1 evs1] w1]| |] eqn:Hstep;
      try discriminate.
    destruct s1 as [data1|]; [|by rewrite run_cleared in Hrun].
    destruct (run solve fuel rs (reviewing_day data1) w1) as [[[s2 evs2] w2]| |] eqn:Hrest;
      try discriminate.
    injection Hrun as -> <- <-.
    pose proof (process_day_review_spec solve df t ex _ _ _ _ _ _ _ Hinv Hstep)
      as (_ & _ & Hinv1 & _).
    pose proof (process_day_review_shape solve df t ex (fun _ => True)
                  (fun _ _ _ _ _ _ _ _ _ _ => I) _ _ _ _ _ _ _ Hinv Hrev Hstep) as [_ Hrev1].
    pose proof (process_day_review_budget _ _ _ _ _ _ _ _ _ _ Hinv Hrev Hstep) as Hlt.
    pose proof (IH data1 w1 evs2 Hinv1 Hrev1 Hrest) as Hle. cbn [length]. lia.
Qed.

(** X10: the week always comes to an end.  With fuel for the loop and the
    seven days a session never runs out of fuel and ends in no error but
    the [TypeError] of a variable without a value; it returns when every
    row of the filtered catalog has a non-zero price or nutrient; and when
    it returns after 35 answers of the user (five per day at most) it is
    over, whatever the answers and whatever the solver returns. *)
Theorem session_ends_within_35_answers fuel df t ex responses (w : @World W) :
  (attempt_limit + 8 <= fuel)%nat ->
  ((exists s evs w', week solve fuel df t ex responses w = Ret (s, evs, w')) \/
   week solve fuel df t ex responses w = Raise TypeError) /\
  (all_priced (exclude ex df) ->
   exists s evs w', week solve fuel df t ex responses w = Ret (s, evs, w')) /\
  (forall s evs w',
     week solve fuel df t ex responses w = Ret (s, evs, w') ->
     (35 <= length responses)%nat -> s = cleared).
Proof.
  intros Hfuel. split; [by apply week_ends|]. split.
  { intros Hpriced. apply week_total; [exact Hfuel|]. by apply all_priced_valued. }
  intros s evs w' Hweek Hlen.
  destruct s as [data'|]; [exfalso|reflexivity].
  unfold week, generate_weekly_plan in Hweek.
  destruct (present_day_plan solve fuel _ w) as [[[s1 evs1] w1]| |] eqn:Hplan; try discriminate.
  destruct (run solve fuel responses s1 w1) as [[[s2 evs2] w2]| |] eqn:Hrest; try discriminate.
  injection Hweek as -> <- <-.
  destruct s1 as [data1|]; [|by rewrite run_cleared in Hrest].
  assert (Hfr : framed df t ex
                  {| products_df := df; targets := t; excluded_products := ex;
                     weekly_plan := []; current_day := 1; rejected_solutions := ∅;
                     attempts := ∅; current_solution := None |}).
  { repeat (split; [reflexivity|]). intros k _. apply lookup_empty. }
  pose proof (present_day_plan_inv solve df t ex _ _ _ _ _ _ Hfr Hplan) as (_ & _ & _ & Hinv1).
  apply (present_day_plan_shape solve df t ex (fun _ => True)
           (fun _ _ _ _ _ _ _ _ _ _ => I)) in Hplan as [_ Hrev1];
    [|exact Hfr|cbn; lia|split; [reflexivity|constructor]|cbn; rewrite lookup_empty; cbn; lia].
  pose proof (run_budget _ _ _ _ _ _ _ _ _ _ Hinv1 Hrev1 Hrest) as Hle.
  pose proof (run_shape solve df t ex (fun _ => True) (fun _ _ _ _ _ _ _ _ _ _ => I)
                _ _ _ _ _ _ _ Hinv1 Hrev1 Hrest) as [_ (Hd' & _ & Hc' & _)].
  destruct Hrev1 as (Hd1 & _ & Hc1 & _).
  unfold budget_left in Hle. lia.
Qed.
End WeekClaims.

(** * The dialogue *)

(** ** Ranges and the invariant of the dialogue *)

Lemma Qlt_bool_iff x y : Qlt_bool x y = true <-> x < y.
Proof.
  unfold Qlt_bool. rewrite negb_true_iff. split.
  - intros H. apply Qnot_le_lt. intros Hle. apply Qle_bool_iff in Hle. congruence.
  - intros H. destruct (Qle_bool y x) eqn:E; [|reflexivity].
    apply Qle_bool_iff in E. lra.
Qed.

Lemma Qlt_bool_false x y : Qlt_bool x y = false <-> y <= x.
Proof. unfold Qlt_bool. rewrite negb_false_iff. apply Qle_bool_iff. Qed.

Lemma between_spec lo hi x : form.between lo hi x = true <-> lo <= x <= hi.
Proof. unfold form.between. by rewrite andb_true_iff, !Qle_bool_iff. Qed.

Lemma strictly_between_spec lo hi x : form.strictly_between lo hi x = true <-> lo < x /\ x < hi.
Proof. unfold form.strictly_between. by rewrite andb_true_iff, !Qlt_bool_iff. Qed.

Lemma clamp_range x : 0 <= form.clamp x <= 100.
Proof.
  unfold form.clamp.
  destruct (Qlt_bool 100 x) eqn:E1; cbv zeta;
    match goal with |- context [Qlt_bool 0 ?m] => destruct (Qlt_bool 0 m) eqn:E2 end;
    first [apply Qlt_bool_iff in E1 | apply Qlt_bool_false in E1];
    first [apply Qlt_bool_iff in E2 | apply Qlt_bool_false in E2]; lra.
Qed.

Section FormFacts.
Context {W : Type}.
Variable solve : LpProblem -> W -> LpStatus * (nat -> Z) * W.
Variable float : pystr -> option Q.
Variable first_int : pystr -> option Z.
Variable log10 : Q -> Q.

Lemma read_float_Some text ok v :
  form.read_float float text ok = Some v -> ok v = true.
Proof.
  unfold form.read_float. destruct (float _) as [x|]; [|done].
  destruct (ok x) eqn:E; [|done]. by intros [= <-].
Qed.

Lemma data_ok_empty : data_ok form.empty.
Proof. unfold data_ok. cbn. tauto. Qed.

Lemma calculate_body_fat_percentage_ok b b' rs :
  data_ok (form.data b) ->
  form.calculate_body_fat_percentage log10 b = form.Done (b', rs) ->
  data_ok (form.data b').
Proof.
  intros Hok. unfold form.calculate_body_fat_percentage.
  repeat case_match; intros [= <- <-]; try apply data_ok_empty;
    unfold data_ok in *; cbn; intuition (try apply clamp_range).
Qed.

Lemma measure_and_ask_ok b b' rs :
  data_ok (form.data b) ->
  form.measure_and_ask log10 b = form.Done (b', rs) ->
  data_ok (form.data b').
Proof.
  intros Hok. unfold form.measure_and_ask.
  destruct (form.calculate_body_fat_percentage log10 b) as [[b1 rs1]| |] eqn:E; try done.
  intros [= <- <-]. cbn. by eapply calculate_body_fat_percentage_ok.
Qed.

Lemma dict_get_activity cb lvl :
  dict_get cb form.activity_levels = Some lvl ->
  is_Some (dict_get lvl formulas.activity_multipliers).
Proof.
  unfold form.activity_levels. cbn [dict_get].
  repeat case_match; intros [= <-]; by eexists.
Qed.

Lemma dict_get_goal cb g :
  dict_get cb form.goals = Some g ->
  g ∈ [lit.lose_weight; lit.maintain_weight; lit.gain_weight].
Proof.
  unfold form.goals. cbn [dict_get].
  repeat case_match; intros [= <-]; set_solver.
Qed.

Lemma after_week_ok b r b' rs (w' : @World W) :
  data_ok (form.data b) ->
  form.after_week b r = form.Done (b', rs, w') ->
  data_ok (form.data b').
Proof.
  intros Hok. unfold form.after_week.
  repeat case_match; intros [= <- <- <-]; try apply data_ok_empty. exact Hok.
Qed.

Lemma generate_weekly_plan_ok fuel df b (w : @World W) b' rs w' :
  data_ok (form.data b) ->
  form.generate_weekly_plan solve fuel df b w = form.Done (b', rs, w') ->
  data_ok (form.data b').
Proof.
  intros Hok. unfold form.generate_weekly_plan.
  destruct (form.daily_targets _) as [t| |]; try done.
  destruct (form.excluded_products _) as [ex|]; try done.
  destruct (form.after_week b _) as [[[b1 rs1] w1]| |] eqn:E; try done.
  intros [= <- <- <-]. by eapply after_week_ok.
Qed.

Lemma process_excluded_products_ok fuel env text b (w : @World W) b' rs w' :
  data_ok (form.data b) ->
  form.process_excluded_products solve fuel env text b w = form.Done (b', rs, w') ->
  data_ok (form.data b').
Proof.
  intros Hok. unfold form.process_excluded_products.
  repeat case_match; try done; intros [= <- <- <-]; try apply data_ok_empty;
    (eapply generate_weekly_plan_ok; [|eassumption]); exact Hok.
Qed.

(** Whatever is sent, the stored values stay within the ranges. *)
Lemma handle_data_ok fuel env u b (w : @World W) b' rs w' :
  data_ok (form.data b) ->
  form.handle solve float first_int log10 fuel env u b w = form.Done (b', rs, w') ->
  data_ok (form.data b').
Proof.
  intros Hok. unfold form.handle.
  destruct u as [[]|text|cb].
  - intros [= <- <- <-]. apply data_ok_empty.
  - by intros [= <- <- <-].
  - intros [= <- <- <-]. apply data_ok_empty.
  - destruct (form.state b) as [[]|]; try by intros [= <- <- <-].
    + unfold form.process_weight.
      destruct (form.read_float _ _ _) as [v|] eqn:E; intros [= <- <- <-]; [|done].
      apply read_float_Some, between_spec in E.
      unfold data_ok in *; cbn; intuition.
    + unfold form.process_height.
      destruct (form.read_float _ _ _) as [v|] eqn:E; intros [= <- <- <-]; [|done].
      apply read_float_Some, between_spec in E.
      unfold data_ok in *; cbn; intuition.
    + unfold form.process_age.
      destruct (first_int _) as [v|]; [|by intros [= <- <- <-]].
      destruct (_ && _) eqn:E; intros [= <- <- <-]; [|done].
      apply andb_true_iff in E as [E1 E2]. apply Z.leb_le in E1, E2.
      unfold data_ok in *; cbn; intuition.
    + unfold form.process_body_fat_percentage.
      destruct (form.read_float _ _ _) as [v|] eqn:E; intros [= <- <- <-]; [|done].
      apply read_float_Some, strictly_between_spec in E.
      unfold data_ok in *; cbn; intuition lra.
    + unfold form.process_waist.
      destruct (form.read_float _ _ _) as [v|] eqn:E; intros [= <- <- <-]; [|done].
      apply read_float_Some, between_spec in E.
      unfold data_ok in *; cbn; intuition.
    + unfold form.process_neck.
      destruct (form.read_float _ _ _) as [v|] eqn:E; [|by intros [= <- <- <-]].
      apply read_float_Some, between_spec in E.
      assert (Hok' : data_ok (form.set_neck v (form.data b)))
        by (unfold data_ok in *; cbn; intuition).
      cbn. destruct (form.gender _) as [g|]; [|done].
      destruct (bool_decide _).
      * by intros [= <- <- <-].
      * destruct (form.measure_and_ask _ _) as [[b1 rs1]| |] eqn:E'; try done.
        intros [= <- <- <-]. by eapply measure_and_ask_ok in E'.
    + unfold form.process_hip.
      destruct (form.read_float _ _ _) as [v|] eqn:E; [|by intros [= <- <- <-]].
      apply read_float_Some, between_spec in E.
      destruct (form.measure_and_ask _ _) as [[b1 rs1]| |] eqn:E'; try done.
      intros [= <- <- <-]. eapply measure_and_ask_ok in E'; [exact E'|].
      unfold data_ok in *; cbn; intuition.
    + by apply process_excluded_products_ok.
  - destruct (form.state b) as [[]|]; try by intros [= <- <- <-].
    + destruct (str.startswith _ _); [|by intros [= <- <- <-]].
      unfold form.process_gender. destruct (_ !! _) as [g|]; [|done].
      intros [= <- <- <-]. unfold data_ok in *; cbn; intuition.
    + destruct (bool_decide _); [|by intros [= <- <- <-]].
      unfold form.process_body_fat_known. repeat case_match; by intros [= <- <- <-].
    + destruct (str.startswith _ _); [|by intros [= <- <- <-]].
      unfold form.process_activity_level.
      destruct (dict_get _ _) as [lvl|] eqn:E; intros [= <- <- <-]; [|done].
      apply dict_get_activity in E. unfold data_ok in *; cbn; intuition.
    + destruct (str.startswith _ _); [|by intros [= <- <- <-]].
      unfold form.process_goal.
      destruct (dict_get _ _) as [g|] eqn:E; intros [= <- <- <-]; [|done].
      apply dict_get_goal in E. unfold data_ok in *; cbn; intuition.
    + unfold form.process_day_review.
      repeat case_match; try done; first [by intros [= <- <- <-] | by apply after_week_ok].
Qed.


Lemma daily_targets_planned d t wd :
  form.week d = None ->
  form.daily_targets d = form.Done t ->
  handlers.targets wd = t ->
  is_Some (form.body_fat_percentage d) ->
  planned d wd.
Proof.
  intros Hweek Ht Hwd [bf Hbf]. unfold form.daily_targets, form.stored_targets in Ht.
  rewrite Hweek, Hbf in Ht.
  destruct (form.weight d) as [weight|] eqn:E1; [|done].
  destruct (form.gender d) as [gender|]; [|done].
  destruct (form.height d) as [height|]; [|done].
  destruct (form.age d) as [age|]; [|done].
  destruct (form.activity_level d) as [lvl|] eqn:E2; [|done].
  destruct (form.goal d) as [goal|] eqn:E3; [|done].
  destruct (formulas.calculate_macros _ _ _) as [[pr fa] ca] eqn:E4.
  injection Ht as <-. exists weight, bf, lvl, goal.
  split; [exact E1|]. split; [exact Hbf|]. split; [exact E2|]. split; [exact E3|].
  cbv zeta. by rewrite Hwd, E4.
Qed.

Lemma daily_targets_wiped d :
  form.week d = None -> form.weight d = None ->
  form.daily_targets d = form.Raised (form.KeyError lit.weight).
Proof.
  intros Hweek Hw. unfold form.daily_targets, form.stored_targets. by rewrite Hweek, Hw.
Qed.

Lemma planned_set_week d wd wd' :
  planned d wd -> handlers.targets wd' = handlers.targets wd ->
  planned (form.set_week wd' d) wd'.
Proof.
  intros (weight & bf & lvl & goal & H1 & H2 & H3 & H4 & H5) Ht.
  exists weight, bf, lvl, goal. cbn. rewrite Ht. by repeat (split; [assumption|]).
Qed.

Lemma generate_weekly_plan_inv fuel df b (w : @World W) b' rs w' :
  form.week (form.data b) = None ->
  form.weight (form.data b) = None \/ is_Some (form.body_fat_percentage (form.data b)) ->
  form.generate_weekly_plan solve fuel df b w = form.Done (b', rs, w') ->
  form_inv b'.
Proof.
  intros Hweek Hcase. unfold form.generate_weekly_plan.
  destruct Hcase as [Hw|Hbf]; [by rewrite daily_targets_wiped|].
  destruct (form.daily_targets _) as [t| |] eqn:Ht; try done.
  destruct (form.excluded_products _) as [ex|]; try done.
  unfold form.after_week, handlers.generate_weekly_plan.
  destruct (handlers.present_day_plan _ _ _ _) as [[[[wd|] evs] w1]| |] eqn:Hplan; try done;
    intros [= <- <- <-]; [|reflexivity].
  assert (Hfr : framed df t ex
                  {| handlers.products_df := df; handlers.targets := t;
                     handlers.excluded_products := ex; handlers.weekly_plan := [];
                     handlers.current_day := 1; handlers.rejected_solutions := ∅;
                     handlers.attempts := ∅; handlers.current_solution := None |}).
  { repeat (split; [reflexivity|]). intros k _. apply lookup_empty. }
  pose proof Hplan as Hplan'.
  apply (present_day_plan_shape solve df t ex (fun _ => True)
           (fun _ _ _ _ _ _ _ _ _ _ => I)) in Hplan' as [_ Hrev];
    [|exact Hfr|cbn; lia|split; [reflexivity|constructor]|cbn; rewrite lookup_empty; cbn; lia].
  apply (present_day_plan_inv solve df t ex) in Hplan as (_ & _ & _ & Hinv); [|exact Hfr].
  unfold form_inv. cbn. exists wd. split; [reflexivity|].
  pose proof Hinv as (Hdf & Htg & Hex & _). split.
  - apply (planned_set_week _ wd); [|reflexivity]. by eapply daily_targets_planned.
  - by rewrite Hdf, Htg, Hex.
Qed.

Lemma measure_and_ask_Done b b' rs :
  form.measure_and_ask log10 b = form.Done (b', rs) ->
  form.state b' = Some form.Form.activity_level /\ form.db b' = form.db b /\
  (form.data b' = form.empty /\ rs = [form.BodyFatFailed; form.Ask form.Form.activity_level] \/
   exists v, form.data b' = form.set_body_fat_percentage v (form.data b) /\
             rs = [form.BodyFat v; form.Ask form.Form.activity_level]).
Proof.
  unfold form.measure_and_ask, form.calculate_body_fat_percentage, form.ask_activity_level.
  repeat case_match; try done; simplify_eq; intros [= <- <-]; cbn;
    (split; [reflexivity|]); (split; [reflexivity|]); eauto.
Qed.

(** The invariant of the conversation. *)
Lemma handle_form_inv fuel env u b (w : @World W) b' rs w' :
  form_inv b ->
  form.handle solve float first_int log10 fuel env u b w = form.Done (b', rs, w') ->
  form_inv b'.
Proof.
  intros Hinv. unfold form.handle.
  destruct u as [[]|text|cb].
  - by intros [= <- <- <-].
  - by intros [= <- <- <-].
  - by intros [= <- <- <-].
  - unfold form_inv in Hinv.
    destruct b as [[[]|] d db]; cbn [form.state form.data] in *;
      try by intros [= <- <- <-].
    + unfold form.process_weight.
      destruct (form.read_float _ _ _) as [v|]; intros [= <- <- <-]; [|done].
      subst d. unfold form_inv. cbn. eauto.
    + unfold form.process_height.
      destruct (form.read_float _ _ _) as [v|]; intros [= <- <- <-]; [|done].
      unfold form_inv. cbn. intuition eauto.
    + unfold form.process_age.
      destruct (first_int _) as [v|]; [|by intros [= <- <- <-]].
      destruct (_ && _); intros [= <- <- <-]; [|done].
      unfold form_inv. cbn. intuition eauto.
    + unfold form.process_body_fat_percentage.
      destruct (form.read_float _ _ _) as [v|]; intros [= <- <- <-]; [|done].
      unfold form_inv, answered in *. cbn. intuition eauto.
    + unfold form.process_waist.
      destruct (form.read_float _ _ _) as [v|]; intros [= <- <- <-]; [|done].
      unfold form_inv, answered in *. cbn. intuition eauto.
    + unfold form.process_neck.
      destruct (form.read_float _ _ _) as [v|]; [|by intros [= <- <- <-]].
      cbn. destruct (form.gender d) as [g|] eqn:Hg; [|done].
      destruct (bool_decide (g = lit.female)) eqn:Hf.
      { apply bool_decide_eq_true in Hf as ->. by destruct Hinv as (_ & Hne & _). }
      destruct (form.measure_and_ask _ _) as [[b1 rs1]| |] eqn:E; try done.
      intros [= <- <- <-]. apply measure_and_ask_Done in E as (Hs & _ & Hd).
      destruct b1 as [s1 d1 db1]. cbn in Hs, Hd. subst s1. unfold form_inv. cbn.
      destruct Hinv as (Hans & _ & Hweek).
      destruct Hd as [[-> _]|(bf & -> & _)]; cbn; [by auto|].
      split; [exact Hweek|]. right. unfold answered in *. cbn. intuition eauto.
    + unfold form.process_hip.
      destruct (form.read_float _ _ _) as [v|]; [|by intros [= <- <- <-]].
      destruct (form.measure_and_ask _ _) as [[b1 rs1]| |] eqn:E; try done.
      intros [= <- <- <-]. apply measure_and_ask_Done in E as (Hs & _ & Hd).
      destruct b1 as [s1 d1 db1]. cbn in Hs, Hd. subst s1. unfold form_inv. cbn.
      destruct Hinv as (Hans & _ & Hweek).
      destruct Hd as [[-> _]|(bf & -> & _)]; cbn; [by auto|].
      split; [exact Hweek|]. right. unfold answered in *. cbn. intuition eauto.
    + destruct Hinv as [Hweek Hcase]. unfold form.process_excluded_products.
      cbn [form.state form.data form.db].
      assert (Hcase' : form.weight (form.set_excluded_products (form.parse_excluded text) d) = None
                       \/ is_Some (form.body_fat_percentage
                                     (form.set_excluded_products (form.parse_excluded text) d))).
      { cbn. destruct Hcase as [?|(_ & ? & _)]; auto. }
      repeat case_match; try done; intros [= <- <- <-]; try reflexivity;
        (eapply generate_weekly_plan_inv; [| |eassumption]); cbn; assumption.
  - unfold form_inv in Hinv.
    destruct b as [[[]|] d db]; cbn [form.state form.data] in *;
      try by intros [= <- <- <-].
    + destruct (str.startswith _ _); [|by intros [= <- <- <-]].
      unfold form.process_gender. destruct (_ !! _) as [g|]; [|done].
      intros [= <- <- <-]. unfold form_inv, answered. cbn. intuition eauto.
    + destruct (bool_decide _); [|by intros [= <- <- <-]].
      unfold form.process_body_fat_known. cbn.
      destruct (bool_decide (cb = lit.yes)); [by intros [= <- <- <-]|].
      destruct (bool_decide (form.gender d = Some lit.female)) eqn:Hf;
        intros [= <- <- <-]; unfold form_inv; cbn; [tauto|].
      apply bool_decide_eq_false in Hf. tauto.
    + destruct (str.startswith _ _); [|by intros [= <- <- <-]].
      unfold form.process_activity_level.
      destruct (dict_get _ _) as [lvl|]; intros [= <- <- <-]; [|done].
      unfold form_inv, answered in *. cbn. intuition eauto.
    + destruct (str.startswith _ _); [|by intros [= <- <- <-]].
      unfold form.process_goal.
      destruct (dict_get _ _) as [g|]; intros [= <- <- <-]; [|done].
      unfold form_inv, answered in *. cbn. intuition eauto.
    + destruct Hinv as (wd & Hweek & Hplanned & Hsess & Hrev).
      assert (Hstep : forall r,
                form.process_day_review solve fuel r
                  {| form.state := Some form.Form.reviewing_day; form.data := d; form.db := db |} w
                = form.Done (b', rs, w') -> form_inv b').
      { intros r. unfold form.process_day_review, form.after_week. cbn. rewrite Hweek.
        destruct (handlers.process_day_review solve fuel r wd w)
          as [[[[wd'|] evs] w1]| |] eqn:Hrun; try done; intros [= <- <- <-]; [|reflexivity].
        pose proof (process_day_review_shape solve _ _ _ (fun _ => True)
                      (fun _ _ _ _ _ _ _ _ _ _ => I) _ _ _ _ _ _ _ Hsess Hrev Hrun) as [_ Hrev'].
        apply (process_day_review_spec solve _ _ _ _ _ _ _ _ _ _ Hsess) in Hrun
          as (_ & _ & Hsess' & _).
        pose proof Hsess' as (Hdf & Htg & Hex & _).
        unfold form_inv. cbn. exists wd'. split; [reflexivity|]. split.
        - by apply (planned_set_week _ wd).
        - by rewrite Hdf, Htg, Hex. }
      destruct (bool_decide (cb = lit.accept)); [apply Hstep|].
      destruct (bool_decide (cb = lit.reject)); [apply Hstep|].
      intros [= <- <- <-]. unfold form_inv. cbn. eauto 10.
Qed.


Lemma run_form_inv fuel updates b (w : @World W) b' rs w' :
  form_inv b -> data_ok (form.data b) ->
  form.run solve float first_int log10 fuel updates b w = form.Done (b', rs, w') ->
  form_inv b' /\ data_ok (form.data b').
Proof.
  revert b w rs. induction updates as [|[env u] updates IH]; intros b w rs Hinv Hok.
  - by intros [= <- <- <-].
  - cbn [form.run].
    destruct (form.handle _ _ _ _ _ _ _ _ _) as [[[b1 rs1] w1]| |] eqn:Hstep; try done.
    destruct (form.run _ _ _ _ _ _ _ _) as [[[b2 rs2] w2]| |] eqn:Hrest; try done.
    intros [= <- <- <-]. eapply IH; [| |exact Hrest].
    + by eapply handle_form_inv.
    + by eapply handle_data_ok.
Qed.

Lemma form_inv_init db : form_inv (form.init db).
Proof. reflexivity. Qed.

Lemma multiplier_at_least lvl :
  (12 # 10) <= default (12 # 10) (dict_get lvl formulas.activity_multipliers).
Proof.
  unfold formulas.activity_multipliers. cbn [dict_get].
  repeat case_match; cbn; lra.
Qed.

Lemma calculate_bmr_at_least weight body_fat :
  0 <= weight -> 0 <= body_fat <= 100 ->
  370 <= formulas.calculate_bmr weight body_fat.
Proof.
  intros Hw Hbf. unfold formulas.calculate_bmr. cbv zeta.
  unfold Qdiv. change (/ 100) with (1 # 100).
  assert (0 <= weight * (1 - body_fat * (1 # 100))) by (apply Qmult_le_0_compat; lra).
  lra.
Qed.

Lemma calculate_daily_calories_at_least bmr lvl :
  370 <= bmr -> 444 <= formulas.calculate_daily_calories bmr lvl.
Proof.
  intros Hb. unfold formulas.calculate_daily_calories. cbv zeta.
  pose proof (multiplier_at_least lvl) as Hm.
  set (m := default _ _) in *.
  assert (0 <= (bmr - 370) * (m - (12 # 10))) by (apply Qmult_le_0_compat; lra).
  nra.
Qed.

End FormFacts.

(** ** How a handler can fail *)

Lemma split_not_nil sep s : str.split sep s <> [].
Proof.
  destruct s as [|c s]; cbn; [done|].
  destruct (c =? sep)%N; [done|]. by destruct (str.split sep s).
Qed.

Lemma split_app sep pre rest :
  Forall (fun c => c <> sep) pre ->
  str.split sep (pre ++ sep :: rest) = pre :: str.split sep rest.
Proof.
  induction 1 as [|c pre Hc _ IH]; cbn.
  - by rewrite N.eqb_refl.
  - apply N.eqb_neq in Hc. by rewrite Hc, IH.
Qed.

Lemma startswith_gender cb :
  str.startswith cb lit.gender_ = true ->
  exists g, str.split lit.underscore cb !! 1%nat = Some g.
Proof.
  unfold str.startswith. intros H. apply bool_decide_eq_true in H.
  rewrite <- (take_drop (length lit.gender_) cb), H.
  change (lit.gender_ ++ drop (length lit.gender_) cb)
    with ([103; 101; 110; 100; 101; 114]%N ++ lit.underscore :: drop (length lit.gender_) cb).
  rewrite split_app; [|repeat constructor; done].
  destruct (str.split lit.underscore (drop _ cb)) as [|g rest] eqn:E;
    [by apply split_not_nil in E|]. by exists g.
Qed.

Section Failures.
Context {W : Type}.
Variable solve : LpProblem -> W -> LpStatus * (nat -> Z) * W.
Variable float : pystr -> option Q.
Variable first_int : pystr -> option Z.
Variable log10 : Q -> Q.

Lemma calculate_body_fat_percentage_failure b e :
  form.calculate_body_fat_percentage log10 b = form.Raised e ->
  (e = form.ZeroDivisionError \/
   e = form.TypeError /\ form.hip (form.data b) = None /\
   is_Some (form.waist (form.data b)) /\
   exists g, form.gender (form.data b) = Some g /\ g <> lit.male).
Proof.
  unfold form.calculate_body_fat_percentage.
  repeat case_match; try done; intros [= <-]; auto.
  right. split; [reflexivity|]. split; [reflexivity|]. split; [by eexists|].
  eexists. split; [reflexivity|]. by eapply bool_decide_eq_false_1.
Qed.

Lemma measure_and_ask_failure b e :
  form.measure_and_ask log10 b = form.Raised e ->
  (e = form.ZeroDivisionError \/
   e = form.TypeError /\ form.hip (form.data b) = None /\
   is_Some (form.waist (form.data b)) /\
   exists g, form.gender (form.data b) = Some g /\ g <> lit.male).
Proof.
  unfold form.measure_and_ask.
  destruct (form.calculate_body_fat_percentage log10 b) as [[b1 rs1]| |] eqn:E; try done.
  intros [= <-]. by apply calculate_body_fat_percentage_failure.
Qed.

Lemma measure_and_ask_not_Starved b : form.measure_and_ask log10 b <> form.Starved.
Proof.
  unfold form.measure_and_ask, form.calculate_body_fat_percentage, form.ask_activity_level.
  repeat case_match; done.
Qed.

Lemma generate_weekly_plan_progress fuel df b (w : @World W) :
  (attempt_limit + 8 <= fuel)%nat ->
  form.week (form.data b) = None ->
  is_Some (form.excluded_products (form.data b)) ->
  form.weight (form.data b) = None \/
    answered (form.data b) /\ is_Some (form.body_fat_percentage (form.data b)) /\
    is_Some (form.activity_level (form.data b)) /\ is_Some (form.goal (form.data b)) ->
  form.generate_weekly_plan solve fuel df b w = form.Raised (form.KeyError lit.weight) \/
  (form.generate_weekly_plan solve fuel df b w = form.Raised (form.InWeek TypeError) /\
   ~ all_priced df) \/
  exists b' rs w', form.generate_weekly_plan solve fuel df b w = form.Done (b', rs, w').
Proof.
  intros Hfuel Hweek [ex Hex] Hcase. unfold form.generate_weekly_plan.
  destruct Hcase as [Hw|(([wt Hwt] & [ht Hht] & [ag Hag] & [g Hg]) & [bf Hbf] & [lvl Hlvl] & [gl Hgl])].
  { left. by rewrite daily_targets_wiped. }
  right. unfold form.daily_targets, form.stored_targets.
  rewrite Hweek, Hwt, Hht, Hag, Hg, Hbf, Hlvl, Hgl, Hex.
  destruct (formulas.calculate_macros _ _ _) as [[pr fa] ca].
  unfold handlers.generate_weekly_plan.
  destruct (decide (all_priced df)) as [Hdf|Hdf].
  - right.
    match goal with
    | |- context [handlers.present_day_plan solve fuel ?d w] =>
        destruct (present_day_plan_total solve fuel d w) as (s & evs & w1 & Hplan)
    end.
    { unfold attempt_limit in *. lia. }
    { cbn. unfold attempt_limit in *. lia. }
    { intros s Hs. by apply not_elem_of_empty in Hs. }
    { cbn. by apply all_priced_valued, all_priced_exclude. }
    rewrite Hplan. destruct s; cbn; eauto.
  - match goal with
    | |- context [handlers.present_day_plan solve fuel ?d w] =>
        destruct (present_day_plan_ends solve fuel d w) as [(s & evs & w1 & Hplan)|Hplan]
    end.
    { unfold attempt_limit in *. lia. }
    { cbn. unfold attempt_limit in *. lia. }
    { intros s Hs. by apply not_elem_of_empty in Hs. }
    + right. rewrite Hplan. destruct s; cbn; eauto.
    + left. rewrite Hplan. by split.
Qed.

Lemma process_day_review_progress fuel r b (w : @World W) :
  (attempt_limit + 8 <= fuel)%nat ->
  form_inv b -> form.state b = Some form.Form.reviewing_day ->
  (exists b' rs w', form.process_day_review solve fuel r b w = form.Done (b', rs, w')) \/
  form.process_day_review solve fuel r b w = form.Raised (form.InWeek TypeError) /\
  ~ stocked b.
Proof.
  intros Hfuel Hinv Hs. unfold form_inv in Hinv. rewrite Hs in Hinv.
  destruct Hinv as (wd & Hweek & _ & Hsess & _).
  unfold form.process_day_review. rewrite Hweek.
  destruct (decide (all_priced (handlers.products_df wd))) as [Hdf|Hdf].
  - left.
    destruct (process_day_review_total solve fuel _ _ _ r wd w Hfuel Hsess)
      as (s & evs & w1 & Hrun); [by apply all_priced_valued, all_priced_exclude|].
    rewrite Hrun. destruct s; cbn; eauto.
  - destruct (process_day_review_ends solve fuel _ _ _ r wd w Hfuel Hsess)
      as [(s & evs & w1 & Hrun)|Hrun]; rewrite Hrun.
    + left. destruct s; cbn; eauto.
    + right. split; [reflexivity|]. intros [_ Hst]. by rewrite Hweek in Hst.
Qed.

(** With the invariant and enough fuel a handler returns, or fails in one
    of four ways; it fails with a type error of the body-fat formula only
    for a gender the keyboard does not offer, and with a type error of the
    week only when a row of the catalog has neither price nor nutrient. *)
Lemma handle_progress fuel env u b (w : @World W) :
  (attempt_limit + 8 <= fuel)%nat ->
  form_inv b ->
  (exists b' rs w',
     form.handle solve float first_int log10 fuel env u b w = form.Done (b', rs, w')) \/
  exists e,
    form.handle solve float first_int log10 fuel env u b w = form.Raised e /\
    (e = form.KeyError lit.weight \/ e = form.TypeError \/ e = form.ZeroDivisionError \/
     e = form.InWeek TypeError) /\
    (e = form.TypeError -> ~ gender_known (form.data b)) /\
    (e = form.InWeek TypeError -> stocked b -> ~ all_priced (form.scraped env)).
Proof.
  intros Hfuel Hinv. unfold form.handle.
  destruct u as [[]|text|cb]; cbv zeta; eauto.
  - destruct (form.state b) as [[]|] eqn:Hs; eauto.
    + unfold form_inv in Hinv. rewrite Hs in Hinv. destruct Hinv as (Hans & Hnf & _).
      unfold form.process_neck. destruct (form.read_float _ _ _) as [v|]; eauto.
      cbn [form.data form.gender form.set_neck].
      destruct Hans as (_ & _ & _ & [g Hg]). rewrite Hg.
      destruct (bool_decide (g = lit.female)); eauto.
      destruct (form.measure_and_ask _ _) as [[b1 rs1]| |] eqn:E; eauto.
      * right. exists e. split; [reflexivity|].
        apply measure_and_ask_failure in E as [->|(-> & _ & _ & g' & Hg' & Hm)].
        -- split; [auto|]. by split.
        -- split; [auto|]. split; [|done]. intros _ Hk.
           cbn in Hg'. rewrite Hg in Hg'. injection Hg' as <-.
           unfold gender_known in Hk. rewrite Hg in Hk. cbn in Hk.
           destruct Hk as [->| ->]; [done|]. by rewrite Hg in Hnf.
      * by apply measure_and_ask_not_Starved in E.
    + unfold form_inv in Hinv. rewrite Hs in Hinv. destruct Hinv as (Hans & Hnw & _).
      unfold form.process_hip. destruct (form.read_float _ _ _) as [v|]; eauto.
      destruct (form.measure_and_ask _ _) as [[b1 rs1]| |] eqn:E; eauto.
      * apply measure_and_ask_failure in E as [->|(-> & _ & [wa Hwa] & _)].
        -- right. eexists. split; [reflexivity|]. split; [auto|]. by split.
        -- cbn in Hwa. by rewrite Hnw in Hwa.
      * by apply measure_and_ask_not_Starved in E.
    + unfold form_inv in Hinv. rewrite Hs in Hinv. destruct Hinv as (Hweek & Hcase).
      unfold form.process_excluded_products.
      assert (Hgen : forall df db',
                form.generate_weekly_plan solve fuel df
                  {| form.state := form.state b;
                     form.data := form.set_excluded_products (form.parse_excluded text) (form.data b);
                     form.db := db' |} w
                = form.Raised (form.KeyError lit.weight) \/
                (form.generate_weekly_plan solve fuel df
                   {| form.state := form.state b;
                      form.data := form.set_excluded_products (form.parse_excluded text)
                                     (form.data b);
                      form.db := db' |} w
                 = form.Raised (form.InWeek TypeError) /\ ~ all_priced df) \/
                exists b' rs w',
                  form.generate_weekly_plan solve fuel df
                    {| form.state := form.state b;
                       form.data := form.set_excluded_products (form.parse_excluded text)
                                      (form.data b);
                       form.db := db' |} w
                  = form.Done (b', rs, w')).
      { intros df db'. apply generate_weekly_plan_progress; cbn; [exact Hfuel|exact Hweek|by eexists|].
        destruct Hcase as [?|(? & ? & ? & ?)]; auto. }
      cbn [form.state form.data form.db].
      destruct (database.needs_update _ _).
      * destruct (form.scraped env) as [|p df]; eauto. unfold form.set_db.
        cbn [form.state form.data form.db].
        destruct (Hgen (p :: df) (database.save_products (form.today env) (p :: df) (form.db b)))
          as [->|[[-> Hdf]|(b1 & rs1 & w1 & ->)]]; eauto.
        -- right. eexists. split; [reflexivity|]. split; [auto|]. by split.
        -- right. eexists. split; [reflexivity|]. split; [auto 6|]. by split.
      * destruct (database.load_products _) as [|p df] eqn:Hload; eauto.
        destruct (Hgen (p :: df) (form.db b)) as [->|[[-> Hdf]|(b1 & rs1 & w1 & ->)]]; eauto.
        -- right. eexists. split; [reflexivity|]. split; [auto|]. by split.
        -- right. eexists. split; [reflexivity|]. split; [auto 6|]. split; [done|].
           intros _ [Hst _]. by rewrite Hload in Hst.
  - destruct (form.state b) as [[]|] eqn:Hs; eauto.
    + destruct (str.startswith _ _) eqn:E; eauto.
      apply startswith_gender in E as [g Hg]. unfold form.process_gender. rewrite Hg. eauto.
    + destruct (bool_decide _); eauto.
    + destruct (str.startswith _ _); eauto.
    + destruct (str.startswith _ _); eauto.
    + assert (Hrev : forall r,
                (exists b' rs w',
                   form.process_day_review solve fuel r b w = form.Done (b', rs, w')) \/
                exists e,
                  form.process_day_review solve fuel r b w = form.Raised e /\
                  (e = form.KeyError lit.weight \/ e = form.TypeError \/
                   e = form.ZeroDivisionError \/ e = form.InWeek TypeError) /\
                  (e = form.TypeError -> ~ gender_known (form.data b)) /\
                  (e = form.InWeek TypeError -> stocked b -> ~ all_priced (form.scraped env))).
      { intros r. destruct (process_day_review_progress fuel r b w Hfuel Hinv Hs)
          as [Hdone|[Hraise Hst]]; [by left|right].
        eexists. split; [exact Hraise|]. split; [auto 6|]. split; [done|]. by intros _ ?. }
      destruct (bool_decide (cb = lit.accept)); [apply Hrev|].
      destruct (bool_decide (cb = lit.reject)); [apply Hrev|]. eauto.
Qed.

Lemma after_week_gender b r b' rs (w' : @World W) :
  form.after_week b r = form.Done (b', rs, w') ->
  form.gender (form.data b') = form.gender (form.data b) \/ form.data b' = form.empty.
Proof.
  unfold form.after_week. repeat case_match; try done; intros [= <- <- <-]; auto.
Qed.

Lemma generate_weekly_plan_gender fuel df b (w : @World W) b' rs w' :
  form.generate_weekly_plan solve fuel df b w = form.Done (b', rs, w') ->
  form.gender (form.data b') = form.gender (form.data b) \/ form.data b' = form.empty.
Proof.
  unfold form.generate_weekly_plan.
  destruct (form.daily_targets _) as [t| |]; try done.
  destruct (form.excluded_products _) as [ex|]; try done.
  destruct (form.after_week b _) as [[[b1 rs1] w1]| |] eqn:E; try done.
  intros [= <- <- <-]. by apply after_week_gender in E.
Qed.

Lemma process_excluded_products_gender fuel env text b (w : @World W) b' rs w' :
  form.process_excluded_products solve fuel env text b w = form.Done (b', rs, w') ->
  form.gender (form.data b') = form.gender (form.data b) \/ form.data b' = form.empty.
Proof.
  unfold form.process_excluded_products.
  destruct (database.needs_update _ _);
    [destruct (form.scraped env) as [|p df]|destruct (database.load_products _) as [|p df]];
    try (intros [= <- <- <-]; by auto);
    (destruct (form.generate_weekly_plan _ _ _ _ _) as [[[b1 rs1] w1]| |] eqn:E; try done;
     intros [= <- <- <-]; by apply generate_weekly_plan_gender in E).
Qed.

Lemma handle_gender fuel env u b (w : @World W) b' rs w' :
  form.handle solve float first_int log10 fuel env u b w = form.Done (b', rs, w') ->
  form.gender (form.data b') = form.gender (form.data b) \/
  form.data b' = form.empty \/
  exists cb, u = form.CallbackQuery cb /\ str.startswith cb lit.gender_ = true /\
             form.gender (form.data b') = str.split lit.underscore cb !! 1%nat.
Proof.
  unfold form.handle. destruct u as [[]|text|cb]; cbv zeta.
  - intros [= <- <- <-]. auto.
  - intros [= <- <- <-]. auto.
  - intros [= <- <- <-]. auto.
  - destruct (form.state b) as [[]|]; try (intros [= <- <- <-]; by auto).
    + unfold form.process_weight. destruct (form.read_float _ _ _); intros [= <- <- <-]; auto.
    + unfold form.process_height. destruct (form.read_float _ _ _); intros [= <- <- <-]; auto.
    + unfold form.process_age. destruct (first_int _); [destruct (_ && _)|];
        intros [= <- <- <-]; auto.
    + unfold form.process_body_fat_percentage.
      destruct (form.read_float _ _ _); intros [= <- <- <-]; auto.
    + unfold form.process_waist. destruct (form.read_float _ _ _); intros [= <- <- <-]; auto.
    + unfold form.process_neck. destruct (form.read_float _ _ _) as [v|];
        [|intros [= <- <- <-]; by auto].
      cbv zeta. destruct (form.gender _) as [g|] eqn:Hg; [|done]. cbn in Hg.
      destruct (bool_decide _); [intros [= <- <- <-]; left; cbn; by rewrite Hg|].
      destruct (form.measure_and_ask _ _) as [[b1 rs1]| |] eqn:E; try done.
      intros [= <- <- <-]. apply measure_and_ask_Done in E as (_ & _ & [[-> _]|(bf & -> & _)]);
        [by auto|]. left. cbn. by rewrite Hg.
    + unfold form.process_hip. destruct (form.read_float _ _ _) as [v|];
        [|intros [= <- <- <-]; by auto].
      destruct (form.measure_and_ask _ _) as [[b1 rs1]| |] eqn:E; try done.
      intros [= <- <- <-]. apply measure_and_ask_Done in E as (_ & _ & [[-> _]|(bf & -> & _)]); auto.
    + intros H. apply process_excluded_products_gender in H as [H|H]; auto.
  - destruct (form.state b) as [[]|]; try (intros [= <- <- <-]; by auto).
    + destruct (str.startswith _ _) eqn:E; [|intros [= <- <- <-]; by auto].
      unfold form.process_gender. destruct (_ !! _) as [g|] eqn:Hg; [|done].
      intros [= <- <- <-]. right. right. exists cb. by rewrite Hg.
    + destruct (bool_decide _); [|intros [= <- <- <-]; by auto].
      unfold form.process_body_fat_known. repeat case_match; intros [= <- <- <-]; auto.
    + destruct (str.startswith _ _); [|intros [= <- <- <-]; by auto].
      unfold form.process_activity_level. repeat case_match; intros [= <- <- <-]; auto.
    + destruct (str.startswith _ _); [|intros [= <- <- <-]; by auto].
      unfold form.process_goal. repeat case_match; intros [= <- <- <-]; auto.
    + unfold form.process_day_review.
      repeat case_match; try done;
        first [intros [= <- <- <-]; by auto
              | intros H'; apply after_week_gender in H' as [H'|H']; by auto].
Qed.

Lemma handle_gender_known fuel env u b (w : @World W) b' rs w' :
  pressed u -> gender_known (form.data b) ->
  form.handle solve float first_int log10 fuel env u b w = form.Done (b', rs, w') ->
  gender_known (form.data b').
Proof.
  intros Hu Hk Hstep. unfold gender_known in *.
  apply handle_gender in Hstep as [->|[->|(cb & -> & Hpre & ->)]]; [exact Hk|exact I|].
  cbn in Hu. repeat (apply elem_of_cons in Hu as [->|Hu]); try discriminate;
    [cbn; auto..|by apply elem_of_nil in Hu].
Qed.

End Failures.

(** ** After the storage was emptied *)

Section Wiped.
Context {W : Type}.
Variable solve : LpProblem -> W -> LpStatus * (nat -> Z) * W.
Variable float : pystr -> option Q.
Variable first_int : pystr -> option Z.
Variable log10 : Q -> Q.

Lemma handle_stuck fuel env u b (w : @World W) :
  stuck b -> is_start u = false ->
  form.handle solve float first_int log10 fuel env u b w
    = form.Raised (form.KeyError lit.weight) \/
  exists b' rs,
    form.handle solve float first_int log10 fuel env u b w = form.Done (b', rs, w) /\
    stuck b' /\ Forall (fun r => of_week r = false) rs.
Proof.
  intros [Hweek Hst] Hu. unfold form.handle.
  destruct u as [[]|text|cb]; try discriminate; cbv zeta.
  - right. eexists _, _. split; [reflexivity|]. split; [by split|]. by repeat constructor.
  - right. eexists _, _. split; [reflexivity|]. split; [by split|]. by repeat constructor.
  - destruct (form.state b) as [s|] eqn:Hs;
      [|right; eexists _, _; split; [reflexivity|]; split; [|constructor];
        split; [exact Hweek|by rewrite Hs]].
    destruct Hst as [Hin Hw].
    assert (Hsame : stuck b) by (split; [exact Hweek|by rewrite Hs]).
    repeat (apply elem_of_cons in Hin as [->|Hin]); [| | |by apply elem_of_nil in Hin];
      try (right; eexists _, _; split; [reflexivity|]; split; [exact Hsame|constructor]).
    unfold form.process_excluded_products. cbn [form.state form.data form.db].
    assert (Hgen : forall df db',
              form.generate_weekly_plan solve fuel df
                {| form.state := form.state b;
                   form.data := form.set_excluded_products (form.parse_excluded text) (form.data b);
                   form.db := db' |} w
              = form.Raised (form.KeyError lit.weight)).
    { intros df db'. unfold form.generate_weekly_plan. by rewrite daily_targets_wiped. }
    destruct (database.needs_update _ _).
    + destruct (form.scraped env) as [|p df].
      * right. eexists _, _. split; [reflexivity|]. split; [by split|]. by repeat constructor.
      * left. unfold form.set_db. cbn [form.state form.data form.db]. by rewrite Hgen.
    + destruct (database.load_products _) as [|p df].
      * right. eexists _, _. split; [reflexivity|]. split; [by split|]. by repeat constructor.
      * left. by rewrite Hgen.
  - destruct (form.state b) as [s|] eqn:Hs;
      [|right; eexists _, _; split; [reflexivity|]; split; [|constructor];
        split; [exact Hweek|by rewrite Hs]].
    destruct Hst as [Hin Hw].
    assert (Hsame : stuck b) by (split; [exact Hweek|by rewrite Hs]).
    repeat (apply elem_of_cons in Hin as [->|Hin]); [| | |by apply elem_of_nil in Hin];
      try (right; eexists _, _; split; [reflexivity|]; split; [exact Hsame|constructor]).
    + destruct (str.startswith _ _);
        [|right; eexists _, _; split; [reflexivity|]; split; [exact Hsame|constructor]].
      unfold form.process_activity_level. destruct (dict_get _ _) as [lvl|]; cbn [fst snd];
        right; eexists _, _; (split; [reflexivity|]); (split; [|by repeat constructor]);
        [|exact Hsame].
      split; [exact Hweek|]. cbn. split; [set_solver|exact Hw].
    + destruct (str.startswith _ _);
        [|right; eexists _, _; split; [reflexivity|]; split; [exact Hsame|constructor]].
      unfold form.process_goal. destruct (dict_get _ _) as [g|]; cbn [fst snd];
        right; eexists _, _; (split; [reflexivity|]); (split; [|by repeat constructor]);
        [|exact Hsame].
      split; [exact Hweek|]. cbn. split; [set_solver|exact Hw].
Qed.

End Wiped.

(** ** What a conversation stores *)

Lemma calculate_macros_bounds weight daily_calories goal :
  30 <= weight ->
  let m := formulas.calculate_macros weight daily_calories goal in
  42 <= fst (fst m) /\ 30 <= snd (fst m) /\ 0 <= snd m.
Proof.
  intros Hw. unfold formulas.calculate_macros.
  destruct (bool_decide (goal = lit.lose_weight));
    [|destruct (bool_decide (goal = lit.gain_weight))]; cbn [fst snd];
    match goal with |- context [Qlt_bool 0 ?r] => destruct (Qlt_bool 0 r) eqn:E end;
    first [apply Qlt_bool_iff in E | apply Qlt_bool_false in E];
    unfold Qdiv; change (/ 4) with (1 # 4);
    (split; [|split]); lra.
Qed.

Lemma form_inv_week b wd :
  form_inv b -> form.week (form.data b) = Some wd ->
  form.state b = Some form.Form.reviewing_day /\
  planned (form.data b) wd /\
  session_inv (handlers.products_df wd) (handlers.targets wd)
    (handlers.excluded_products wd) wd /\
  review_inv (fun _ => True) wd.
Proof.
  unfold form_inv. intros Hinv Hweek.
  destruct (form.state b) as [[]|]; cbv zeta in Hinv;
    try (rewrite Hinv in Hweek; discriminate);
    try (exfalso; intuition congruence).
  destruct Hinv as (wd' & Hweek' & Hrest).
  rewrite Hweek in Hweek'. injection Hweek' as <-. by split.
Qed.

Section Conversation.
Context {W : Type}.
Variable solve : LpProblem -> W -> LpStatus * (nat -> Z) * W.
Variable float : pystr -> option Q.
Variable first_int : pystr -> option Z.
Variable log10 : Q -> Q.

(** X11: whatever the user sends, what the dialogue has stored stays within
    the ranges of its questions: weight 30..300, height 100..250, age
    5..120, body fat 0..100 (a computed value is clamped), waist 30..200,
    neck 10..100, hip 20..200, an activity level that has a multiplier of
    its own, one of the three goals. *)
Theorem stored_values_in_range fuel updates db (w : @World W) b rs w' :
  form.run solve float first_int log10 fuel updates (form.init db) w = form.Done (b, rs, w') ->
  data_ok (form.data b).
Proof.
  intros Hrun.
  apply (run_form_inv solve float first_int log10) in Hrun as [_ Hok];
    [exact Hok|apply form_inv_init|apply data_ok_empty].
Qed.

(** X12: the targets of a week are always those of the lean-mass formula.
    Whenever the storage holds a week, it holds the weight, the body fat,
    the activity level and the goal its targets were computed from with
    [calculate_bmr]; the other formula is never used.  The targets are at
    least 42 g of protein, 30 g of fat and 444 kcal, and no carbohydrate
    target is negative. *)
Theorem plan_targets_from_lean_mass fuel updates db (w : @World W) b rs w' wd :
  form.run solve float first_int log10 fuel updates (form.init db) w = form.Done (b, rs, w') ->
  form.week (form.data b) = Some wd ->
  form.state b = Some form.Form.reviewing_day /\
  planned (form.data b) wd /\
  42 <= proteins_target (handlers.targets wd) /\
  30 <= fats_target (handlers.targets wd) /\
  0 <= carbs_target (handlers.targets wd) /\
  444 <= daily_calories (handlers.targets wd).
Proof.
  intros Hrun Hweek.
  apply (run_form_inv solve float first_int log10) in Hrun as [Hinv Hok];
    [|apply form_inv_init|apply data_ok_empty].
  destruct (form_inv_week _ _ Hinv Hweek) as (Hstate & Hplanned & _).
  split; [exact Hstate|]. split; [exact Hplanned|].
  destruct Hplanned as (weight & bf & lvl & goal & Hw & Hbf & _ & _ & ->).
  destruct Hok as (Hwr & _ & _ & Hbr & _). rewrite Hw in Hwr. rewrite Hbf in Hbr.
  cbn in Hwr, Hbr. cbn.
  destruct (calculate_macros_bounds weight
              (formulas.calculate_daily_calories (formulas.calculate_bmr weight bf) lvl) goal)
    as (H1 & H2 & H3); [lra|].
  split; [exact H1|]. split; [exact H2|]. split; [exact H3|].
  apply calculate_daily_calories_at_least, calculate_bmr_at_least; lra.
Qed.

End Conversation.

(** ** Conversations that cannot reach a plan *)

Section Conversation2.
Context {W : Type}.
Variable solve : LpProblem -> W -> LpStatus * (nat -> Z) * W.
Variable float : pystr -> option Q.
Variable first_int : pystr -> option Z.
Variable log10 : Q -> Q.

(** X13: the hip question is only put to a user with no stored waist, so no
    answer to it yields a body-fat percentage: an entry outside 20..200 is
    turned down and the question stands, any other entry is answered with
    the warning of the body-fat computation, the storage is emptied and the
    dialogue goes on to the activity level with nothing stored. *)
Theorem hip_entry_wipes_data fuel updates db (w : @World W) b rs w' env text w1 :
  form.run solve float first_int log10 fuel updates (form.init db) w = form.Done (b, rs, w') ->
  form.state b = Some form.Form.hip ->
  form.handle solve float first_int log10 fuel env (form.Message text) b w1
    = form.Done (b, [form.Invalid form.Form.hip], w1) \/
  form.handle solve float first_int log10 fuel env (form.Message text) b w1
    = form.Done (form.goto form.Form.activity_level form.empty b,
                 [form.BodyFatFailed; form.Ask form.Form.activity_level], w1) /\
  stuck (form.goto form.Form.activity_level form.empty b).
Proof.
  intros Hrun Hs.
  apply (run_form_inv solve float first_int log10) in Hrun as [Hinv _];
    [|apply form_inv_init|apply data_ok_empty].
  unfold form_inv in Hinv. rewrite Hs in Hinv. destruct Hinv as (Hans & Hwaist & _).
  unfold form.handle. rewrite Hs. unfold form.process_hip.
  destruct (form.read_float _ _ _) as [v|]; [right|by left].
  split; [|split; [reflexivity|]; cbn; split; [set_solver|reflexivity]].
  destruct Hans as (_ & _ & _ & [g Hg]).
  unfold form.measure_and_ask, form.calculate_body_fat_percentage.
  cbn [form.data form.gender form.waist form.set_hip]. rewrite Hg, Hwaist.
  by destruct (bool_decide (g = lit.male)).
Qed.

(** X14: once the storage was emptied on the way to the activity level, no
    plan can follow.  Whatever is sent short of /start, the dialogue makes
    no solver call, shows neither targets nor a diet, and either goes on
    with the weight missing or, when the exclusions are sent and a catalog
    is there, fails with KeyError('weight'). *)
Theorem wiped_data_never_planned fuel updates b (w : @World W) :
  stuck b ->
  Forall (fun eu => is_start (snd eu) = false) updates ->
  form.run solve float first_int log10 fuel updates b w
    = form.Raised (form.KeyError lit.weight) \/
  exists b' rs,
    form.run solve float first_int log10 fuel updates b w = form.Done (b', rs, w) /\
    stuck b' /\ Forall (fun r => of_week r = false) rs.
Proof.
  revert b. induction updates as [|[env u] updates IH]; intros b Hst Hall.
  - right. exists b, []. split; [reflexivity|]. split; [exact Hst|constructor].
  - apply Forall_cons in Hall as [Hu Hall]. cbn in Hu. cbn [form.run].
    destruct (handle_stuck solve float first_int log10 fuel env u b w Hst Hu)
      as [->|(b1 & rs1 & -> & Hst1 & Hrs1)]; [by left|].
    destruct (IH b1 Hst1 Hall) as [->|(b2 & rs2 & -> & Hst2 & Hrs2)]; [by left|].
    right. exists b2, (rs1 ++ rs2). split; [reflexivity|]. split; [exact Hst2|].
    by apply Forall_app.
Qed.

(** X15: a man whose neck entry is not below his waist gets the warning of
    the body-fat computation; the storage is emptied and the dialogue goes
    on to the activity level with nothing stored. *)
Theorem narrow_waist_wipes_data fuel env text b (w : @World W) waist neck :
  form.state b = Some form.Form.neck ->
  form.gender (form.data b) = Some lit.male ->
  form.waist (form.data b) = Some waist ->
  form.read_float float text (form.between 10 100) = Some neck ->
  waist <= neck ->
  form.handle solve float first_int log10 fuel env (form.Message text) b w
    = form.Done (form.goto form.Form.activity_level form.empty b,
                 [form.BodyFatFailed; form.Ask form.Form.activity_level], w) /\
  stuck (form.goto form.Form.activity_level form.empty b).
Proof.
  intros Hs Hg Hwa Hne Hle.
  split; [|split; [reflexivity|]; cbn; split; [set_solver|reflexivity]].
  unfold form.handle. rewrite Hs. unfold form.process_neck. rewrite Hne.
  cbn [form.data form.gender form.set_neck]. rewrite Hg.
  change (bool_decide (lit.male = lit.female)) with false. cbv iota.
  unfold form.measure_and_ask, form.calculate_body_fat_percentage.
  cbn [form.data form.gender form.waist form.neck form.height form.set_neck].
  rewrite Hg, Hwa. change (bool_decide (lit.male = lit.male)) with true. cbv iota.
  destruct (form.height (form.data b)) as [h|]; [|reflexivity].
  assert (Hb : Qle_bool (waist - neck) 0 = true) by (apply Qle_bool_iff; lra).
  by rewrite Hb.
Qed.

End Conversation2.

(** ** Exclusions *)

Lemma name_matches_app ex1 ex2 p :
  name_matches (ex1 ++ ex2) p = name_matches ex1 p || name_matches ex2 p.
Proof.
  unfold name_matches. destruct (name p); [|reflexivity]. apply existsb_app.
Qed.

Lemma contains_ci_nil s : contains_ci [] s = true.
Proof. by destruct s. Qed.

(** X17: excluding two lists of names at once is excluding one list from
    what the other leaves, in either order; the rows kept are rows of the
    catalog in their order. *)
Theorem exclude_app (ex1 ex2 : list pystr) (df : DataFrame) :
  exclude (ex1 ++ ex2) df = exclude ex1 (exclude ex2 df) /\
  exclude (ex1 ++ ex2) df = exclude ex2 (exclude ex1 df) /\
  sublist (exclude (ex1 ++ ex2) df) df.
Proof.
  rewrite !exclude_catalog_view. unfold catalog_view.
  split; [|split].
  - rewrite list_filter_filter. apply list_filter_iff. intros p.
    rewrite name_matches_app. destruct (name_matches ex1 p), (name_matches ex2 p); cbn; tauto.
  - rewrite list_filter_filter. apply list_filter_iff. intros p.
    rewrite name_matches_app. destruct (name_matches ex1 p), (name_matches ex2 p); cbn; tauto.
  - apply sublist_filter.
Qed.

Lemma exclude_empty_name ex df :
  [] ∈ ex -> forall p, p ∈ exclude ex df -> name p = None.
Proof.
  intros Hin p. rewrite exclude_catalog_view. unfold catalog_view.
  rewrite list_elem_of_filter. intros [Hkeep _].
  unfold name_matches in Hkeep. destruct (name p) as [s|]; [|reflexivity].
  exfalso. apply negb_prop_elim in Hkeep. apply Hkeep. apply Is_true_true.
  apply existsb_exists. exists []. split; [|apply contains_ci_nil].
  by apply list_elem_of_In.
Qed.

Lemma exclude_empty_name_all ex df :
  [] ∈ ex -> Forall (fun p => is_Some (name p)) df -> exclude ex df = [].
Proof.
  intros Hin Hall. destruct (exclude ex df) as [|p rest] eqn:E; [reflexivity|].
  assert (Hp : p ∈ exclude ex df) by (rewrite E; left).
  pose proof (exclude_empty_name ex df Hin p Hp) as Hnone.
  rewrite exclude_catalog_view in Hp. apply list_elem_of_filter in Hp as [_ Hp].
  rewrite Forall_forall in Hall. apply Hall in Hp as [s Hs]. congruence.
Qed.

(** ** The exclusion message *)

Lemma lstrip_app_keep s c :
  str.isspace c = false -> str.lstrip (s ++ [c]) = str.lstrip s ++ [c].
Proof.
  intros Hc. induction s as [|a s IH]; cbn; [by rewrite Hc|].
  destruct (str.isspace a); [exact IH|reflexivity].
Qed.

Lemma strip_app_keep s c :
  str.isspace c = false -> str.strip (s ++ [c]) = str.lstrip s ++ [c].
Proof.
  intros Hc. unfold str.strip, str.rstrip.
  rewrite lstrip_app_keep by exact Hc.
  rewrite reverse_snoc. cbn [str.lstrip]. rewrite Hc.
  by rewrite reverse_cons, reverse_involutive.
Qed.

Lemma split_last_sep sep s :
  exists word words, str.split sep (s ++ [sep]) = word :: words ++ [[]].
Proof.
  induction s as [|c s (word & words & IH)]; cbn.
  - rewrite N.eqb_refl. by exists [], [].
  - rewrite IH. destruct (c =? sep)%N.
    + by exists [], (word :: words).
    + by exists (c :: word), words.
Qed.

Lemma parse_excluded_trailing_comma body :
  [] ∈ form.parse_excluded (body ++ [lit.comma]).
Proof.
  unfold form.parse_excluded.
  destruct (bool_decide _) eqn:E.
  - apply bool_decide_eq_true in E. exfalso.
    unfold str.lower in E. rewrite map_app in E. cbn in E.
    rewrite strip_app_keep in E by reflexivity.
    apply (f_equal last) in E. rewrite last_snoc in E. discriminate.
  - destruct (split_last_sep lit.comma body) as (word & words & ->).
    rewrite fmap_cons, fmap_app. right. apply elem_of_app. right. left.
Qed.

(** ** The product table *)

Lemma fold_max_const (today : Z) (l : list Z) :
  Forall (fun d => d = today) l -> fold_left Z.max l today = today.
Proof.
  induction 1 as [|d l -> _ IH]; cbn; [reflexivity|]. by rewrite Z.max_id.
Qed.

Lemma max_last_updated_saved today p df db :
  database.max_last_updated (database.save_products today (p :: df) db) = Some today.
Proof.
  unfold database.save_products. cbn. f_equal. apply fold_max_const.
  rewrite map_map. cbn. apply Forall_forall. intros d Hd.
  apply list_elem_of_fmap in Hd as (q & -> & _). reflexivity.
Qed.

(** X18: saving and reading back.  The table holds exactly the products
    saved last, in their order, whatever it held before.  After a
    non-empty frame is saved the table is up to date on the day itself and
    the seven days that follow, and due again from the eighth; an empty
    table is always due. *)
Theorem saved_table_is_fresh (today day : Z) (products_df : DataFrame) (db : database.Table) :
  database.load_products (database.save_products today products_df db) = products_df /\
  (products_df <> [] ->
   (database.needs_update day (database.save_products today products_df db) = true
    <-> (today + 7 < day)%Z)) /\
  database.needs_update day [] = true.
Proof.
  split; [|split; [|reflexivity]].
  - unfold database.load_products, database.save_products.
    rewrite map_map. cbn. apply map_id.
  - intros Hne. destruct products_df as [|p df]; [done|].
    unfold database.needs_update. rewrite max_last_updated_saved. rewrite Z.ltb_lt. lia.
Qed.

(** ** A catalog with no rows left *)

Lemma unreachable_nil t : 0 < daily_calories t -> unreachable [] t.
Proof.
  intros Hpos x _ (_ & _ & _ & [Hlo _]). cbn in Hlo. unfold deviation in Hlo. lra.
Qed.

Lemma failed_days_cons d k :
  failed_days d (S k) = handlers.failed d :: failed_days (S d) k.
Proof. reflexivity. Qed.

Section NothingFound.
Context {W : Type}.
Variable solve : LpProblem -> W -> LpStatus * (nat -> Z) * W.
Hypothesis Hsound : solver_sound solve.

Lemma search_finds_nothing fuel pdf t ex ledger day (w : @World W) :
  unreachable (exclude ex pdf) t ->
  (1 <= fuel)%nat ->
  ledger_known (length (exclude ex pdf)) ledger ->
  exists w', find_all_solutions solve fuel pdf t ex ledger day w = Ret ([], ledger, w').
Proof.
  intros Hno Hfuel Hk. destruct fuel as [|fuel]; [lia|].
  destruct (solve (build_problem (exclude ex pdf) t ledger day) (oracle w))
    as [[status x] o] eqn:Hsolve.
  assert (Hne : status <> Optimal).
  { intros ->. apply Hsound in Hsolve.
    apply (Hno x); [apply Hsolve|by eapply feasible_meets_targets]. }
  eexists. unfold find_all_solutions. cbn [while_loop].
  change (loop_guard {| solutions := []; optimization.attempts := 0; rejected := ledger |})
    with true. cbv iota.
  assert (Hb : loop_body solve (exclude ex pdf) t day
                 {| solutions := []; optimization.attempts := 0; rejected := ledger |} w
               = Ret ({| solutions := []; optimization.attempts := 0; rejected := ledger |},
                      Break,
                      {| oracle := o;
                         solver_log :=
                           solver_log w
                             ++ [(build_problem (exclude ex pdf) t ledger day, status)] |})).
  { apply loop_body_Ret. split; [exact Hk|]. eapply step_break; eassumption. }
  by rewrite Hb.
Qed.

Lemma present_day_plan_unreachable fuel data (w : @World W) :
  unreachable (exclude (handlers.excluded_products data) (handlers.products_df data))
    (handlers.targets data) ->
  ledger_known (length (exclude (handlers.excluded_products data) (handlers.products_df data)))
    (handlers.rejected_solutions data) ->
  (handlers.current_day data <= 7)%nat ->
  (9 <= fuel + handlers.current_day data)%nat ->
  exists evs w',
    handlers.present_day_plan solve fuel data w = Ret (handlers.cleared, evs, w') /\
    (exists cost,
       last evs = Some (handlers.FinalPlan
                          (handlers.weekly_plan data
                             ++ failed_days (handlers.current_day data)
                                  (8 - handlers.current_day data)) cost)) /\
    Forall (fun e => forall d sol, e <> handlers.Proposed d sol) evs.
Proof.
  revert data w. induction fuel as [|fuel IH]; intros data w Hno Hk Hday Hfuel; [lia|].
  cbn [handlers.present_day_plan].
  destruct (search_finds_nothing fuel (handlers.products_df data) (handlers.targets data)
              (handlers.excluded_products data) (handlers.rejected_solutions data)
              (Some (handlers.current_day data)) w Hno) as [w1 Hcall]; [lia|exact Hk|].
  rewrite Hcall. cbn -[Nat.ltb].
  destruct (handlers.current_day data <? 7)%nat eqn:Hlt.
  - apply Nat.ltb_lt in Hlt.
    match goal with
    | |- context [handlers.present_day_plan solve fuel ?d w1] =>
        destruct (IH d w1) as (evs & w' & Hrun & (cost & Hlast) & Hnone)
    end; [exact Hno|exact Hk|cbn; lia|cbn; lia|].
    rewrite Hrun. eexists _, _. split; [reflexivity|]. split.
    + exists cost. cbn [last]. destruct evs as [|e evs]; [discriminate|].
      cbn in Hlast |- *. rewrite Hlast. do 2 f_equal. rewrite <- app_assoc. f_equal.
      replace (8 - handlers.current_day data)%nat
        with (S (8 - S (handlers.current_day data))) by lia.
      reflexivity.
    + repeat (constructor; [done|]). exact Hnone.
  - apply Nat.ltb_ge in Hlt. assert (Hd : handlers.current_day data = 7%nat) by lia.
    eexists _, _. split; [reflexivity|]. split.
    + eexists. cbn. by rewrite Hd.
    + by repeat constructor.
Qed.

(** X19: a comma at the end of the exclusion message empties the catalog.
    The list parsed from such a message holds the empty name, which occurs
    in every name; when every row has a name the search is left with no
    rows at all.  With a sound solver and a positive calorie target the
    week then ends before the user is asked anything: no diet is proposed
    and the final plan marks all seven days as failed. *)
Theorem trailing_comma_fails_week fuel df t body responses (w : @World W) :
  Forall (fun p => is_Some (name p)) df ->
  0 < daily_calories t ->
  (9 <= fuel)%nat ->
  [] ∈ form.parse_excluded (body ++ [lit.comma]) /\
  exclude (form.parse_excluded (body ++ [lit.comma])) df = [] /\
  exists evs w' cost,
    handlers.week solve fuel df t (form.parse_excluded (body ++ [lit.comma])) responses w
      = Ret (handlers.cleared, evs, w') /\
    last evs = Some (handlers.FinalPlan (failed_days 1 7) cost) /\
    Forall (fun e => forall d sol, e <> handlers.Proposed d sol) evs.
Proof.
  intros Hnamed Hpos Hfuel.
  pose proof (parse_excluded_trailing_comma body) as Hin.
  pose proof (exclude_empty_name_all _ df Hin Hnamed) as Hnil.
  split; [exact Hin|]. split; [exact Hnil|].
  unfold handlers.week, handlers.generate_weekly_plan.
  match goal with
  | |- context [handlers.present_day_plan solve fuel ?d w] =>
      destruct (present_day_plan_unreachable fuel d w)
        as (evs & w' & Hrun & (cost & Hlast) & Hnone)
  end.
  - cbn. rewrite Hnil. by apply unreachable_nil.
  - intros s Hs. by apply not_elem_of_empty in Hs.
  - cbn. lia.
  - cbn. lia.
  - rewrite Hrun, run_cleared. exists (evs ++ []), w', cost.
    split; [reflexivity|]. rewrite app_nil_r. by split.
Qed.

End NothingFound.

(** ** The targets and the goal *)

Lemma macros_energy_balance (weight daily_calories : Q) (goal : pystr) :
  let m := formulas.calculate_macros weight daily_calories goal in
  0 <= snd m /\
  daily_calories + calorie_shift goal <= 4 * fst (fst m) + 9 * snd (fst m) + 4 * snd m /\
  (0 < snd m ->
   4 * fst (fst m) + 9 * snd (fst m) + 4 * snd m == daily_calories + calorie_shift goal).
Proof.
  unfold formulas.calculate_macros, calorie_shift.
  destruct (bool_decide (goal = lit.lose_weight));
    [|destruct (bool_decide (goal = lit.gain_weight))]; cbn [fst snd];
    match goal with |- context [Qlt_bool 0 ?r] => destruct (Qlt_bool 0 r) eqn:E end;
    first [apply Qlt_bool_iff in E | apply Qlt_bool_false in E];
    unfold Qdiv; change (/ 4) with (1 # 4);
    (split; [|split; [|intros Hpos]]); lra.
Qed.

Lemma daily_targets_computed d t :
  form.week d = None ->
  form.daily_targets d = form.Done t ->
  exists weight goal,
    form.weight d = Some weight /\ form.goal d = Some goal /\
    let m := formulas.calculate_macros weight (daily_calories t) goal in
    proteins_target t = fst (fst m) /\ fats_target t = snd (fst m) /\
    carbs_target t = snd m.
Proof.
  intros Hweek Ht. unfold form.daily_targets, form.stored_targets in Ht.
  rewrite Hweek in Ht.
  destruct (form.weight d) as [weight|]; [|done].
  destruct (form.gender d) as [gender|]; [|done].
  destruct (form.height d) as [height|]; [|done].
  destruct (form.age d) as [age|]; [|done].
  destruct (form.activity_level d) as [lvl|]; [|done].
  destruct (form.goal d) as [goal|]; [|done].
  destruct (formulas.calculate_macros _ _ _) as [[pr fa] ca] eqn:E.
  injection Ht as <-. exists weight, goal. cbn. by rewrite E.
Qed.

(** X20: the macronutrient targets follow the goal, the calorie target does
    not.  For the targets the dialogue computes, the carbohydrate target is
    never negative, and whenever it is positive the energy of the three
    macronutrient targets (4, 9 and 4 kcal per gram) is the calorie target
    less 500 kcal for weight loss, plus 500 kcal for weight gain, and the
    calorie target itself for any other goal. *)
Theorem targets_energy_balance (d : form.Data) (t : Targets) (goal : pystr) :
  form.week d = None ->
  form.daily_targets d = form.Done t ->
  form.goal d = Some goal ->
  0 <= carbs_target t /\
  daily_calories t + calorie_shift goal <= macro_calories t /\
  (0 < carbs_target t -> macro_calories t == daily_calories t + calorie_shift goal).
Proof.
  intros Hweek Ht Hgoal.
  destruct (daily_targets_computed d t Hweek Ht) as (weight & goal' & _ & Hgoal' & Hp & Hf & Hc).
  rewrite Hgoal in Hgoal'. injection Hgoal' as <-.
  unfold macro_calories. rewrite Hp, Hf, Hc.
  apply macros_energy_balance.
Qed.

Lemma weighted_sum_cons col p df q qs :
  weighted_sum col (p :: df) (q :: qs) = col p * inject_Z q + weighted_sum col df qs.
Proof. reflexivity. Qed.

Lemma weighted_sum_nil_r col df : weighted_sum col df [] = 0.
Proof. by destruct df. Qed.

Lemma weighted_sum_atwater df qs :
  atwater df ->
  weighted_sum calories df qs
    == 4 * weighted_sum proteins df qs + 9 * weighted_sum fats df qs
       + 4 * weighted_sum carbs df qs.
Proof.
  intros Hall. revert qs.
  induction Hall as [|p df Hp _ IH]; intros qs; [reflexivity|].
  destruct qs as [|q qs]; [by rewrite !weighted_sum_nil_r|].
  rewrite !weighted_sum_cons, IH, Hp. ring.
Qed.

(** X21: for a catalog whose rows state the calories of their own
    macronutrients, the targets computed for weight loss cannot be met
    unless the calorie target is at least 5250 kcal, and those for weight
    gain cannot be met unless it is at least 4750 kcal: diets within the
    three macronutrient windows carry about 500 kcal less, or more, than
    the calorie window admits. *)
Theorem shifted_goal_unreachable (d : form.Data) (t : Targets) (goal : pystr)
    (df : DataFrame) :
  form.week d = None ->
  form.daily_targets d = form.Done t ->
  form.goal d = Some goal ->
  atwater df ->
  0 < carbs_target t ->
  goal = lit.lose_weight /\ daily_calories t < 5250 \/
  goal = lit.gain_weight /\ daily_calories t < 4750 ->
  unreachable df t.
Proof.
  intros Hweek Ht Hgoal Hdf Hcarbs Hcase x _ (Hp & Hf & Hc & Hk).
  destruct (daily_targets_computed d t Hweek Ht) as (weight & goal' & _ & Hgoal' & Ep & Ef & Ec).
  rewrite Hgoal in Hgoal'. injection Hgoal' as <-.
  pose proof (macros_energy_balance weight (daily_calories t) goal) as (_ & _ & Hbal).
  cbv zeta in Hbal, Ep, Ef, Ec. rewrite <- Ep, <- Ef, <- Ec in Hbal.
  specialize (Hbal Hcarbs).
  pose proof (weighted_sum_atwater df (map x (seq 0 (length df))) Hdf) as Hsum.
  unfold within_window, deviation in *.
  destruct Hp as [Hp1 Hp2], Hf as [Hf1 Hf2], Hc as [Hc1 Hc2], Hk as [Hk1 Hk2].
  rewrite Hsum in Hk1, Hk2.
  unfold calorie_shift in Hbal.
  destruct Hcase as [[-> Hlt]|[-> Hlt]].
  - change (bool_decide (lit.lose_weight = lit.lose_weight)) with true in Hbal.
    cbv iota in Hbal. lra.
  - change (bool_decide (lit.gain_weight = lit.lose_weight)) with false in Hbal.
    change (bool_decide (lit.gain_weight = lit.gain_weight)) with true in Hbal.
    cbv iota in Hbal. lra.
Qed.

(** ** Buttons and the catalog of the week *)

Section Buttons.
Context {W : Type}.
Variable solve : LpProblem -> W -> LpStatus * (nat -> Z) * W.
Variable float : pystr -> option Q.
Variable first_int : pystr -> option Z.
Variable log10 : Q -> Q.

(** X22: every button is taken by the handler of its step.  A button of the
    gender keyboard stores 'male' or 'female'; a button of the activity
    keyboard stores a level that has a multiplier of its own, so the
    default multiplier is never used; a button of the goal keyboard stores
    one of the three goals; 'yes' and 'no' lead to the body-fat, the hip or
    the waist question; 'accept' and 'reject' reach the review of the
    day.  No button is answered with the notice that asks to choose
    again. *)
Theorem keyboard_buttons_move_on fuel env b (w : @World W) callback_data :
  (form.state b = Some form.Form.gender ->
   callback_data ∈ keyboards.gender_inline_keyboard ->
   exists gender,
     (gender = lit.male \/ gender = lit.female) /\
     form.handle solve float first_int log10 fuel env (form.CallbackQuery callback_data) b w
       = form.Done (form.goto form.Form.body_fat_known (form.set_gender gender (form.data b)) b,
                    [form.Ask form.Form.body_fat_known], w)) /\
  (form.state b = Some form.Form.body_fat_known ->
   callback_data ∈ keyboards.yes_no_inline_keyboard ->
   exists s,
     s ∈ [form.Form.body_fat_percentage; form.Form.hip; form.Form.waist] /\
     form.handle solve float first_int log10 fuel env (form.CallbackQuery callback_data) b w
       = form.Done (form.goto s (form.data b) b, [form.Ask s], w)) /\
  (form.state b = Some form.Form.activity_level ->
   callback_data ∈ keyboards.activity_level_inline_keyboard ->
   exists level multiplier,
     dict_get level formulas.activity_multipliers = Some multiplier /\
     form.handle solve float first_int log10 fuel env (form.CallbackQuery callback_data) b w
       = form.Done (form.goto form.Form.goal (form.set_activity_level level (form.data b)) b,
                    [form.Ask form.Form.goal], w)) /\
  (form.state b = Some form.Form.goal ->
   callback_data ∈ keyboards.goal_inline_keyboard ->
   exists goal,
     goal ∈ [lit.lose_weight; lit.maintain_weight; lit.gain_weight] /\
     form.handle solve float first_int log10 fuel env (form.CallbackQuery callback_data) b w
       = form.Done (form.goto form.Form.excluded_products (form.set_goal goal (form.data b)) b,
                    [form.Ask form.Form.excluded_products], w)) /\
  (form.state b = Some form.Form.reviewing_day ->
   callback_data ∈ keyboards.confirm_inline_keyboard ->
   exists user_response,
     form.handle solve float first_int log10 fuel env (form.CallbackQuery callback_data) b w
       = form.process_day_review solve fuel user_response b w).
Proof.
  split; [|split; [|split; [|split]]]; intros Hs Hin; unfold form.handle; rewrite Hs;
    repeat (apply elem_of_cons in Hin as [->|Hin]); try (by apply elem_of_nil in Hin).
  - exists lit.male. split; [by left|reflexivity].
  - exists lit.female. split; [by right|reflexivity].
  - exists form.Form.body_fat_percentage. split; [set_solver|reflexivity].
  - change (bool_decide (lit.no ∈ [lit.yes; lit.no])) with true. cbv iota zeta.
    unfold form.process_body_fat_known.
    change (bool_decide (lit.no = lit.yes)) with false. cbv iota.
    destruct (bool_decide _).
    + exists form.Form.hip. split; [set_solver|reflexivity].
    + exists form.Form.waist. split; [set_solver|reflexivity].
  - exists lit.sedentary, (12 # 10). by split.
  - exists lit.lightly_active, (1375 # 1000). by split.
  - exists lit.moderately_active, (155 # 100). by split.
  - exists lit.very_active, (1725 # 1000). by split.
  - exists lit.extra_active, (19 # 10). by split.
  - exists lit.lose_weight. split; [set_solver|reflexivity].
  - exists lit.maintain_weight. split; [set_solver|reflexivity].
  - exists lit.gain_weight. split; [set_solver|reflexivity].
  - by exists handlers.accept.
  - by exists handlers.reject.
Qed.

Lemma generate_weekly_plan_catalog fuel df b (w : @World W) b' rs w' :
  form.generate_weekly_plan solve fuel df b w = form.Done (b', rs, w') ->
  form.db b' = form.db b /\
  forall wd, form.week (form.data b') = Some wd ->
    handlers.products_df wd = df /\
    form.excluded_products (form.data b) = Some (handlers.excluded_products wd).
Proof.
  unfold form.generate_weekly_plan.
  destruct (form.daily_targets _) as [t| |]; try done.
  destruct (form.excluded_products _) as [ex|]; try done.
  unfold form.after_week, handlers.generate_weekly_plan.
  destruct (handlers.present_day_plan _ _ _ _) as [[[[wd|] evs] w1]| |] eqn:Hplan; try done;
    intros [= <- <- <-]; (split; [reflexivity|]); intros wd' Hwd'; [|done].
  cbn in Hwd'. injection Hwd' as <-.
  apply (present_day_plan_inv solve df t ex) in Hplan as (_ & _ & _ & Hdf & _ & Hex & _).
  - by rewrite Hdf, Hex.
  - repeat (split; [reflexivity|]). intros k _. apply lookup_empty.
Qed.

(** X23: where the catalog of a week comes from.  When the exclusions are
    sent, either the table is due and the scraper delivers nothing - then
    the user is told so, the storage is emptied and the table is left as it
    was, old rows and all - or a plan is generated; in that case the table
    is not due on this day, it is not empty, and the catalog of the week is
    exactly what the table holds, be it freshly saved or loaded; the
    exclusions of the week are those parsed from the message. *)
Theorem plan_catalog_from_table fuel env text b (w : @World W) b' rs w' :
  form.process_excluded_products solve fuel env text b w = form.Done (b', rs, w') ->
  rs = [form.Thanks; form.NoProducts] /\ b' = form.clear b /\
    database.needs_update (form.today env) (form.db b) = true /\ form.scraped env = []
  \/
  database.needs_update (form.today env) (form.db b') = false /\
    database.load_products (form.db b') <> [] /\
    (database.needs_update (form.today env) (form.db b) = true ->
     form.db b' = database.save_products (form.today env) (form.scraped env) (form.db b)) /\
    (database.needs_update (form.today env) (form.db b) = false -> form.db b' = form.db b) /\
    forall wd, form.week (form.data b') = Some wd ->
      handlers.products_df wd = database.load_products (form.db b') /\
      handlers.excluded_products wd = form.parse_excluded text.
Proof.
  unfold form.process_excluded_products. cbn [form.state form.data form.db].
  destruct (database.needs_update (form.today env) (form.db b)) eqn:Hdue.
  - destruct (form.scraped env) as [|p df] eqn:Hscr.
    { intros [= <- <- <-]. by left. }
    destruct (form.generate_weekly_plan _ _ _ _ _) as [[[b1 rs1] w1]| |] eqn:Hgen; try done.
    intros [= <- <- <-]. right.
    apply generate_weekly_plan_catalog in Hgen as [Hdb Hwd].
    unfold form.set_db in Hdb, Hwd.
    cbn [form.db form.data form.state form.excluded_products form.set_excluded_products]
      in Hdb, Hwd.
    rewrite Hdb. split; [|split; [|split; [|split]]].
    + unfold database.needs_update. rewrite max_last_updated_saved.
      apply Z.ltb_ge. lia.
    + unfold database.load_products, database.save_products. by rewrite map_map.
    + done.
    + done.
    + intros wd Hweek. destruct (Hwd wd Hweek) as [Hdf Hex]. split.
      * rewrite Hdf. unfold database.load_products, database.save_products.
        rewrite map_map. cbn. by rewrite map_id.
      * by injection Hex as ->.
  - destruct (database.load_products (form.db b)) as [|p df] eqn:Hload.
    { exfalso. unfold database.load_products in Hload. apply fmap_nil_inv in Hload.
      by rewrite Hload in Hdue. }
    destruct (form.generate_weekly_plan _ _ _ _ _) as [[[b1 rs1] w1]| |] eqn:Hgen; try done.
    intros [= <- <- <-]. right.
    apply generate_weekly_plan_catalog in Hgen as [Hdb Hwd].
    unfold form.set_db in Hdb, Hwd.
    cbn [form.db form.data form.state form.excluded_products form.set_excluded_products]
      in Hdb, Hwd.
    rewrite Hdb. split; [exact Hdue|]. split; [by rewrite Hload|].
    split; [done|]. split; [done|].
    intros wd Hweek. destruct (Hwd wd Hweek) as [Hdf Hex]. split.
    + by rewrite Hdf, Hload.
    + by injection Hex as ->.
Qed.

End Buttons.

(** ** How a conversation can fail *)

Section Dispatch.
Context {W : Type}.
Variable solve : LpProblem -> W -> LpStatus * (nat -> Z) * W.
Variable float : pystr -> option Q.
Variable first_int : pystr -> option Z.
Variable log10 : Q -> Q.

Lemma handle_catalog fuel env u b (w : @World W) b' rs w' :
  form_inv b ->
  form.handle solve float first_int log10 fuel env u b w = form.Done (b', rs, w') ->
  (form.db b' = form.db b \/
   form.db b' = database.save_products (form.today env) (form.scraped env) (form.db b)) /\
  forall wd', form.week (form.data b') = Some wd' ->
    handlers.products_df wd' = form.scraped env \/
    handlers.products_df wd' = database.load_products (form.db b) \/
    exists wd, form.week (form.data b) = Some wd /\
               handlers.products_df wd' = handlers.products_df wd.
Proof.
  intros Hinv. unfold form.handle.
  assert (Hsame : forall b1 : form.Bot,
            form.db b1 = form.db b ->
            (form.week (form.data b1) = form.week (form.data b) \/
             form.week (form.data b1) = None) ->
            (form.db b1 = form.db b \/
             form.db b1 = database.save_products (form.today env) (form.scraped env) (form.db b)) /\
            forall wd', form.week (form.data b1) = Some wd' ->
              handlers.products_df wd' = form.scraped env \/
              handlers.products_df wd' = database.load_products (form.db b) \/
              exists wd, form.week (form.data b) = Some wd /\
                         handlers.products_df wd' = handlers.products_df wd).
  { intros b1 Hdb Hweek. split; [by left|]. intros wd' Hwd'.
    destruct Hweek as [Hweek|Hweek]; rewrite Hweek in Hwd'; [|done]. right. right. by exists wd'. }
  destruct u as [[]|text|cb]; cbv zeta.
  - intros [= <- <- <-]. apply Hsame; cbn; auto.
  - intros [= <- <- <-]. apply Hsame; cbn; auto.
  - intros [= <- <- <-]. apply Hsame; cbn; auto.
  - destruct (form.state b) as [[]|] eqn:Hs;
      try (intros [= <- <- <-]; apply Hsame; cbn; by auto).
    + unfold form.process_weight. destruct (form.read_float _ _ _);
        intros [= <- <- <-]; apply Hsame; cbn; auto.
    + unfold form.process_height. destruct (form.read_float _ _ _);
        intros [= <- <- <-]; apply Hsame; cbn; auto.
    + unfold form.process_age. destruct (first_int _); [destruct (_ && _)|];
        intros [= <- <- <-]; apply Hsame; cbn; auto.
    + unfold form.process_body_fat_percentage.
      destruct (form.read_float _ _ _); intros [= <- <- <-]; apply Hsame; cbn; auto.
    + unfold form.process_waist. destruct (form.read_float _ _ _);
        intros [= <- <- <-]; apply Hsame; cbn; auto.
    + unfold form.process_neck. destruct (form.read_float _ _ _) as [v|];
        [|intros [= <- <- <-]; apply Hsame; cbn; by auto].
      cbv zeta. destruct (form.gender _) as [g|] eqn:Hg; [|done].
      destruct (bool_decide _); [intros [= <- <- <-]; apply Hsame; cbn; by auto|].
      destruct (form.measure_and_ask _ _) as [[b1 rs1]| |] eqn:E; try done.
      intros [= <- <- <-].
      apply measure_and_ask_Done in E as (_ & Hdb & [[Hd _]|(bf & Hd & _)]);
        apply Hsame; try exact Hdb; rewrite Hd; cbn; auto.
    + unfold form.process_hip. destruct (form.read_float _ _ _) as [v|];
        [|intros [= <- <- <-]; apply Hsame; cbn; by auto].
      destruct (form.measure_and_ask _ _) as [[b1 rs1]| |] eqn:E; try done.
      intros [= <- <- <-].
      apply measure_and_ask_Done in E as (_ & Hdb & [[Hd _]|(bf & Hd & _)]);
        apply Hsame; try exact Hdb; rewrite Hd; cbn; auto.
    + unfold form.process_excluded_products. cbn [form.state form.data form.db].
      destruct (database.needs_update _ _).
      * destruct (form.scraped env) as [|p df] eqn:Hscr;
          [intros [= <- <- <-]; apply Hsame; cbn; by auto|].
        destruct (form.generate_weekly_plan _ _ _ _ _) as [[[b1 rs1] w1]| |] eqn:Hgen; try done.
        intros [= <- <- <-].
        apply generate_weekly_plan_catalog in Hgen as [Hdb Hwd].
        split; [right; exact Hdb|]. intros wd' Hwd'. left. by apply Hwd.
      * destruct (database.load_products _) as [|p df] eqn:Hload;
          [intros [= <- <- <-]; apply Hsame; cbn; by auto|].
        destruct (form.generate_weekly_plan _ _ _ _ _) as [[[b1 rs1] w1]| |] eqn:Hgen; try done.
        intros [= <- <- <-].
        apply generate_weekly_plan_catalog in Hgen as [Hdb Hwd].
        split; [left; exact Hdb|]. intros wd' Hwd'. right. left. by apply Hwd.
  - destruct (form.state b) as [[]|] eqn:Hs;
      try (intros [= <- <- <-]; apply Hsame; cbn; by auto).
    + destruct (str.startswith _ _) eqn:E; [|intros [= <- <- <-]; apply Hsame; cbn; by auto].
      unfold form.process_gender. destruct (_ !! _) as [g|] eqn:Hg; [|done].
      intros [= <- <- <-]. apply Hsame; cbn; auto.
    + destruct (bool_decide _); [|intros [= <- <- <-]; apply Hsame; cbn; by auto].
      unfold form.process_body_fat_known.
      repeat case_match; intros [= <- <- <-]; apply Hsame; cbn; auto.
    + destruct (str.startswith _ _); [|intros [= <- <- <-]; apply Hsame; cbn; by auto].
      unfold form.process_activity_level.
      repeat case_match; intros [= <- <- <-]; apply Hsame; cbn; auto.
    + destruct (str.startswith _ _); [|intros [= <- <- <-]; apply Hsame; cbn; by auto].
      unfold form.process_goal.
      repeat case_match; intros [= <- <- <-]; apply Hsame; cbn; auto.
    + unfold form_inv in Hinv. rewrite Hs in Hinv.
      destruct Hinv as (wd & Hweek & _ & Hsess & _).
      assert (Hrev : forall r,
                form.process_day_review solve fuel r b w = form.Done (b', rs, w') ->
                (form.db b' = form.db b \/
                 form.db b' = database.save_products (form.today env) (form.scraped env)
                                (form.db b)) /\
                forall wd', form.week (form.data b') = Some wd' ->
                  handlers.products_df wd' = form.scraped env \/
                  handlers.products_df wd' = database.load_products (form.db b) \/
                  exists wd, form.week (form.data b) = Some wd /\
                             handlers.products_df wd' = handlers.products_df wd).
      { intros r. unfold form.process_day_review. rewrite Hweek. unfold form.after_week.
        destruct (handlers.process_day_review _ _ _ _ _) as [[[[wd1|] evs] w1]| |] eqn:Hrun;
          try done; intros [= <- <- <-]; [|rewrite <- Hweek; apply Hsame; cbn; by auto].
        split; [by left|]. intros wd' [= <-]. right. right. exists wd. split; [done|].
        pose proof (process_day_review_spec solve _ _ _ _ _ _ _ _ _ _ Hsess Hrun)
          as (_ & _ & Hinv1 & _).
        by destruct Hinv1 as (-> & _). }
      destruct (bool_decide (cb = lit.accept)); [apply Hrev|].
      destruct (bool_decide (cb = lit.reject)); [apply Hrev|].
      intros [= <- <- <-]. apply Hsame; cbn; auto.
Qed.

Lemma handle_stocked fuel env u b (w : @World W) b' rs w' :
  form_inv b -> stocked b -> all_priced (form.scraped env) ->
  form.handle solve float first_int log10 fuel env u b w = form.Done (b', rs, w') ->
  stocked b'.
Proof.
  intros Hinv [Hdb Hweek] Hscr Hstep.
  apply handle_catalog in Hstep as [Hdb' Hweek']; [|exact Hinv]. split.
  - destruct Hdb' as [->| ->]; [exact Hdb|].
    unfold database.load_products, database.save_products.
    rewrite map_map. cbn. by rewrite map_id.
  - destruct (form.week (form.data b')) as [wd'|]; [|exact I].
    destruct (Hweek' wd' eq_refl) as [->|[->|(wd & Hwd & ->)]];
      [exact Hscr|exact Hdb|]. by rewrite Hwd in Hweek.
Qed.

Lemma dispatch_Done fuel out i b (w : @World W) b' rs w' :
  form.dispatch solve float first_int log10 fuel out i b w = form.Done (b', rs, w') ->
  (i = form.NoText \/ i = form.NoData) /\ b' = b \/
  exists u, i = form.WithText u /\
            form.handle solve float first_int log10 fuel (form.env out) u b w
              = form.Done (b', rs, w').
Proof.
  unfold form.dispatch. destruct i as [u| |].
  - intros Hstep. right. exists u. split; [reflexivity|].
    destruct u as [c|text|cb]; try exact Hstep.
    destruct (form.state b) as [[]|]; try exact Hstep.
    by destruct (_ && _).
  - intros Hstep. left. split; [by left|].
    destruct (form.state b) as [[]|]; try done; by injection Hstep as <- _ _.
  - intros Hstep. left. split; [by right|].
    destruct (form.state b) as [[]|]; try done; by injection Hstep as <- _ _.
Qed.

Lemma dispatch_form_inv fuel out i b (w : @World W) b' rs w' :
  form_inv b ->
  form.dispatch solve float first_int log10 fuel out i b w = form.Done (b', rs, w') ->
  form_inv b'.
Proof.
  intros Hinv Hstep. apply dispatch_Done in Hstep as [[_ ->]|(u & _ & Hstep)]; [exact Hinv|].
  by eapply handle_form_inv.
Qed.

Lemma dispatch_stocked fuel out i b (w : @World W) b' rs w' :
  form_inv b -> stocked b -> all_priced (form.scraped (form.env out)) ->
  form.dispatch solve float first_int log10 fuel out i b w = form.Done (b', rs, w') ->
  stocked b'.
Proof.
  intros Hinv Hst Hscr Hstep.
  apply dispatch_Done in Hstep as [[_ ->]|(u & _ & Hstep)]; [exact Hst|].
  by eapply handle_stocked.
Qed.

Lemma dispatch_gender_known fuel out i b (w : @World W) b' rs w' :
  from_keyboard i -> gender_known (form.data b) ->
  form.dispatch solve float first_int log10 fuel out i b w = form.Done (b', rs, w') ->
  gender_known (form.data b').
Proof.
  intros Hi Hk Hstep. apply dispatch_Done in Hstep as [[_ ->]|(u & -> & Hstep)]; [exact Hk|].
  by eapply handle_gender_known.
Qed.

(** With the invariant and enough fuel a dispatch returns or fails in one
    of six ways, each with its cause. *)
Lemma dispatch_progress fuel out i b (w : @World W) :
  (attempt_limit + 8 <= fuel)%nat ->
  form_inv b ->
  (exists b' rs w',
     form.dispatch solve float first_int log10 fuel out i b w = form.Done (b', rs, w')) \/
  exists e,
    form.dispatch solve float first_int log10 fuel out i b w = form.Raised e /\
    expected_failure e /\
    (e = form.AttributeError -> i = form.NoText \/ i = form.NoData) /\
    (e = form.ScraperError -> form.scraper_raises out = true) /\
    (e = form.TypeError -> ~ gender_known (form.data b)) /\
    (e = form.InWeek TypeError -> stocked b -> ~ all_priced (form.scraped (form.env out))).
Proof.
  intros Hfuel Hinv.
  assert (Hhandle : forall u,
            (exists b' rs w',
               form.handle solve float first_int log10 fuel (form.env out) u b w
                 = form.Done (b', rs, w')) \/
            exists e,
              form.handle solve float first_int log10 fuel (form.env out) u b w
                = form.Raised e /\
              expected_failure e /\
              (e = form.AttributeError ->
               form.WithText u = form.NoText \/ form.WithText u = form.NoData) /\
              (e = form.ScraperError -> form.scraper_raises out = true) /\
              (e = form.TypeError -> ~ gender_known (form.data b)) /\
              (e = form.InWeek TypeError -> stocked b ->
               ~ all_priced (form.scraped (form.env out)))).
  { intros u.
    destruct (handle_progress solve float first_int log10 fuel (form.env out) u b w Hfuel Hinv)
      as [Hdone|(e & Hstep & Hexp & Hty & Hwk)]; [by left|right].
    exists e. split; [exact Hstep|]. unfold expected_failure.
    destruct Hexp as [->|[->|[->| ->]]]; repeat split; auto 7; done. }
  unfold form.dispatch. destruct i as [u| |].
  - destruct u as [c|text|cb]; try apply Hhandle.
    destruct (form.state b) as [[]|]; try apply Hhandle.
    destruct (form.scraper_raises out) eqn:Hraises; [|apply Hhandle].
    destruct (database.needs_update _ _); [|apply Hhandle]. cbn [andb].
    right. eexists. split; [reflexivity|]. unfold expected_failure. repeat split; auto 7; done.
  - destruct (form.state b) as [[]|]; eauto;
      right; eexists; (split; [reflexivity|]); unfold expected_failure;
      repeat split; auto 7; done.
  - destruct (form.state b) as [[]|]; eauto;
      right; eexists; (split; [reflexivity|]); unfold expected_failure;
      repeat split; auto 7; done.
Qed.

Lemma converse_progress fuel incoming b (w : @World W) :
  (attempt_limit + 8 <= fuel)%nat ->
  form_inv b ->
  (exists b' rs w',
     form.converse solve float first_int log10 fuel incoming b w = form.Done (b', rs, w')) \/
  exists e,
    form.converse solve float first_int log10 fuel incoming b w = form.Raised e /\
    expected_failure e /\
    (e = form.AttributeError -> Exists (fun oi => snd oi = form.NoText \/ snd oi = form.NoData) incoming) /\
    (e = form.ScraperError ->
     Exists (fun oi => form.scraper_raises (fst oi) = true) incoming) /\
    (e = form.TypeError -> gender_known (form.data b) ->
     ~ Forall (fun oi => from_keyboard (snd oi)) incoming) /\
    (e = form.InWeek TypeError -> stocked b ->
     ~ Forall (fun oi => all_priced (form.scraped (form.env (fst oi)))) incoming).
Proof.
  intros Hfuel. revert b w. induction incoming as [|[out i] incoming IH]; intros b w Hinv.
  - left. cbn. eauto.
  - cbn [form.converse].
    destruct (dispatch_progress fuel out i b w Hfuel Hinv)
      as [(b1 & rs1 & w1 & Hstep)|(e & Hstep & Hexp & Hat & Hsc & Hty & Hwk)]; rewrite Hstep.
    + destruct (IH b1 w1) as [(b2 & rs2 & w2 & Hrest)|(e & Hrest & Hexp & Hat & Hsc & Hty & Hwk)];
        [by eapply dispatch_form_inv| |]; rewrite Hrest; [eauto|].
      right. exists e. split; [reflexivity|]. split; [exact Hexp|].
      split; [|split; [|split]].
      * intros He. apply Exists_cons_tl. by apply Hat.
      * intros He. apply Exists_cons_tl. by apply Hsc.
      * intros He Hk Hall. apply Forall_cons in Hall as [Hi Hall]. cbn in Hi.
        apply (Hty He); [|exact Hall]. by eapply dispatch_gender_known.
      * intros He Hst Hall. apply Forall_cons in Hall as [Hi Hall]. cbn in Hi.
        apply (Hwk He); [|exact Hall]. by eapply dispatch_stocked.
    + right. exists e. split; [reflexivity|]. split; [exact Hexp|].
      split; [|split; [|split]].
      * intros He. apply Exists_cons_hd. by apply Hat.
      * intros He. apply Exists_cons_hd. by apply Hsc.
      * intros He Hk _. by apply Hty.
      * intros He Hst Hall. apply Forall_cons in Hall as [Hi _]. by apply (Hwk He).
Qed.

(** A conversation of updates with a scraper that delivers is a
    conversation as [form.run] has it. *)
Lemma converse_run fuel updates b (w : @World W) :
  form.converse solve float first_int log10 fuel
    (map (fun eu => ({| form.env := fst eu; form.scraper_raises := false |},
                     form.WithText (snd eu))) updates) b w
  = form.run solve float first_int log10 fuel updates b w.
Proof.
  revert b w. induction updates as [|[env u] updates IH]; intros b w; [reflexivity|].
  cbn [map form.converse form.run fst snd].
  assert (Hstep : form.dispatch solve float first_int log10 fuel
                    {| form.env := env; form.scraper_raises := false |} (form.WithText u) b w
                  = form.handle solve float first_int log10 fuel env u b w).
  { unfold form.dispatch. cbn [form.env form.scraper_raises andb].
    destruct u; [reflexivity| |reflexivity]. by destruct (form.state b) as [[]|]. }
  rewrite Hstep. destruct (form.handle _ _ _ _ _ _ _ _ _) as [[[b1 rs1] w1]| |]; [|done..].
  by rewrite IH.
Qed.

(** X16: how a conversation can fail.  With fuel for the weeks, a
    conversation that starts with an empty storage - commands, texts,
    button presses, messages without text and presses without data, with
    a scraper that delivers a frame or raises - never runs out of fuel,
    and the first error of a handler, if there is one, is: AttributeError,
    only after a message without text or a press without data; the error
    of the scraper, only when the scraper raises; KeyError('weight') when
    the plan is generated; ZeroDivisionError or TypeError in the body-fat
    formulas, the latter only after a button press that no keyboard
    offers; or the TypeError of the week, only when a row of the table or
    of a scraped frame has neither price nor nutrient.  No IndexError, no
    other missing key, no other error of the week.  The frames hold a
    number in every price and nutrient cell; sending a reply and reading
    or writing the table are taken to succeed. *)
Theorem conversation_failures fuel incoming db (w : @World W) :
  (attempt_limit + 8 <= fuel)%nat ->
  form.converse solve float first_int log10 fuel incoming (form.init db) w <> form.Starved /\
  forall e,
    form.converse solve float first_int log10 fuel incoming (form.init db) w = form.Raised e ->
    expected_failure e /\
    (e = form.AttributeError -> Exists (fun oi => snd oi = form.NoText \/ snd oi = form.NoData) incoming) /\
    (e = form.ScraperError ->
     Exists (fun oi => form.scraper_raises (fst oi) = true) incoming) /\
    (e = form.TypeError -> ~ Forall (fun oi => from_keyboard (snd oi)) incoming) /\
    (e = form.InWeek TypeError ->
     ~ (all_priced (database.load_products db) /\
        Forall (fun oi => all_priced (form.scraped (form.env (fst oi)))) incoming)).
Proof.
  intros Hfuel.
  destruct (converse_progress fuel incoming (form.init db) w Hfuel (form_inv_init db))
    as [(b' & rs & w' & ->)|(e & -> & Hexp & Hat & Hsc & Hty & Hwk)].
  - by split.
  - split; [done|]. intros e' [= <-]. split; [exact Hexp|].
    split; [exact Hat|]. split; [exact Hsc|]. split.
    + intros He. by apply (Hty He).
    + intros He [Hdb Hall]. by apply (Hwk He).
Qed.

End Dispatch.

(** * The further statements on concrete runs *)

(** The exhaustive solver on the three-item catalog: the quantities of
    both solutions. *)
Lemma solution_quantities_bounded_witness :
  solver_sound brute_force /\
  exists sols ledger' w',
    find_all_solutions brute_force 50 catalog3 targets3 [] ∅ (Some 1%nat) (start tt)
      = Ret (sols, ledger', w') /\
    map quantities sols = [[1; 1; 0]; [0; 0; 1]]%Z /\
    forall s, s ∈ sols ->
      length (quantities s) = length (exclude [] catalog3) /\
      Forall (fun q => 0 <= q <= 3)%Z (quantities s).
Proof.
  split; [exact brute_force_sound|].
  eexists _, _, _.
  assert (Hrun : find_all_solutions brute_force 50 catalog3 targets3 [] ∅ (Some 1%nat) (start tt)
                 = Ret (?[sols], ?[ledger'], ?[w'])) by (vm_compute; reflexivity).
  split; [exact Hrun|]. split; [reflexivity|].
  exact (solution_quantities_bounded brute_force _ _ _ _ _ _ _ _ _ _ brute_force_sound Hrun).
Defined.

(** The same call: the support sets are (0, 1) and (2). *)
Lemma solution_support_witness :
  exists sols ledger' w',
    find_all_solutions brute_force 50 catalog3 targets3 [] ∅ (Some 1%nat) (start tt)
      = Ret (sols, ledger', w') /\
    map ids sols = [[0; 1]; [2]]%nat /\
    forall s, s ∈ sols ->
      ids s = map (fun r => fst (fst r)) (products s) /\
      StronglySorted lt (ids s) /\
      (forall i, i ∈ ids s <-> exists q, quantities s !! i = Some q /\ (0 < q)%Z) /\
      (forall i p q, (i, p, q) ∈ products s <->
         exclude [] catalog3 !! i = Some p /\ quantities s !! i = Some q /\ (0 < q)%Z).
Proof.
  eexists _, _, _.
  assert (Hrun : find_all_solutions brute_force 50 catalog3 targets3 [] ∅ (Some 1%nat) (start tt)
                 = Ret (?[sols], ?[ledger'], ?[w'])) by (vm_compute; reflexivity).
  split; [exact Hrun|]. split; [reflexivity|].
  exact (solution_support brute_force _ _ _ _ _ _ _ _ _ _ Hrun).
Defined.

(** The same call: the texts of both solutions. *)
Lemma diet_text_within_tolerance_witness :
  solver_sound brute_force /\
  exists sols ledger' w',
    find_all_solutions brute_force 50 catalog3 targets3 [] ∅ (Some 1%nat) (start tt)
      = Ret (sols, ledger', w') /\
    length sols = 2%nat /\
    forall s d, s ∈ sols ->
      text_within (format_diet_text (products s) targets3 (optimization.total_cost s) d) /\
      shown_cost (format_diet_text (products s) targets3 (optimization.total_cost s) d)
        == diet_sum price (products s).
Proof.
  split; [exact brute_force_sound|].
  eexists _, _, _.
  assert (Hrun : find_all_solutions brute_force 50 catalog3 targets3 [] ∅ (Some 1%nat) (start tt)
                 = Ret (?[sols], ?[ledger'], ?[w'])) by (vm_compute; reflexivity).
  split; [exact Hrun|]. split; [reflexivity|].
  exact (diet_text_within_tolerance brute_force _ _ _ _ _ _ _ _ _ _ brute_force_sound Hrun).
Defined.

(** The same call makes three solver calls for its two solutions. *)
Lemma sound_solver_calls_witness :
  solver_sound brute_force /\
  exists sols ledger' w',
    find_all_solutions brute_force 50 catalog3 targets3 [] ∅ (Some 1%nat) (start tt)
      = Ret (sols, ledger', w') /\
    length sols = 2%nat /\ length (solver_log w') = 3%nat /\
    exists calls,
      solver_log w' = solver_log (start tt) ++ calls /\
      (length calls <= 5)%nat /\
      (length calls = length sols \/
       length calls = S (length sols) /\ exists e, last calls = Some e /\ snd e <> Optimal).
Proof.
  split; [exact brute_force_sound|].
  eexists _, _, _.
  assert (Hrun : find_all_solutions brute_force 50 catalog3 targets3 [] ∅ (Some 1%nat) (start tt)
                 = Ret (?[sols], ?[ledger'], ?[w'])) by (vm_compute; reflexivity).
  split; [exact Hrun|]. split; [reflexivity|]. split; [reflexivity|].
  exact (sound_solver_calls brute_force _ _ _ _ _ _ _ _ _ _ brute_force_sound Hrun).
Defined.

(** The same call, started with the support set (2) already rejected. *)
Lemma ledger_after_search_witness :
  exists sols ledger' w',
    find_all_solutions brute_force 50 catalog3 targets3 [] {[ [2]%nat ]} (Some 1%nat) (start tt)
      = Ret (sols, ledger', w') /\
    map ids sols = [[0; 1]%nat] /\
    ledger' = {[ [2]%nat ]} ∪ list_to_set (map ids sols).
Proof.
  eexists _, _, _.
  assert (Hrun : find_all_solutions brute_force 50 catalog3 targets3 [] {[ [2]%nat ]}
                   (Some 1%nat) (start tt)
                 = Ret (?[sols], ?[ledger'], ?[w'])) by (vm_compute; reflexivity).
  split; [exact Hrun|]. split; [reflexivity|].
  exact (ledger_after_search brute_force _ _ _ _ _ _ _ _ _ _ Hrun).
Defined.

(** The empty name among the exclusions leaves no row of the three-item
    catalog: the exhaustive solver is called once and finds nothing. *)
Lemma unreachable_targets_give_nothing_witness :
  solver_sound brute_force /\
  unreachable (exclude [[]] catalog3) targets3 /\
  (1 <= 50)%nat /\
  ledger_known (length (exclude [[]] catalog3)) ∅ /\
  exists status o,
    status <> Optimal /\
    find_all_solutions brute_force 50 catalog3 targets3 [[]] ∅ (Some 1%nat) (start tt)
      = Ret ([], ∅,
             {| oracle := o;
                solver_log :=
                  solver_log (start tt)
                    ++ [(build_problem (exclude [[]] catalog3) targets3 ∅ (Some 1%nat),
                         status)] |}).
Proof.
  assert (H1 : unreachable (exclude [[]] catalog3) targets3)
    by (apply unreachable_nil; reflexivity).
  assert (H2 : (1 <= 50)%nat) by lia.
  assert (H3 : ledger_known (length (exclude [[]] catalog3)) ∅)
    by (intros s Hs; by apply not_elem_of_empty in Hs).
  split; [exact brute_force_sound|]. split; [exact H1|]. split; [exact H2|].
  split; [exact H3|].
  exact (unreachable_targets_give_nothing brute_force 50 catalog3 targets3 [[]] ∅
           (Some 1%nat) (start tt) brute_force_sound H1 H2 H3).
Defined.

(** A session with the scripted solver that is still under review. *)
Lemma weekly_plan_days_witness :
  exists data evs w',
    week alternating 60 catalog8 targets3 [] [accept; reject; accept] (start 0%nat)
      = Ret (reviewing_day data, evs, w') /\
    current_day data = 3%nat /\
    (1 <= current_day data <= 7)%nat /\
    map day (weekly_plan data) = seq 1 (current_day data - 1).
Proof.
  eexists _, _, _.
  assert (Hrun : week alternating 60 catalog8 targets3 [] [accept; reject; accept]
                   (start 0%nat) = Ret (reviewing_day ?[data], ?[evs], ?[w']))
    by (vm_compute; reflexivity).
  split; [exact Hrun|]. split; [reflexivity|].
  exact (weekly_plan_days alternating _ _ _ _ _ _ _ _ _ Hrun).
Defined.

(** The exhaustive solver on the three-item catalog: the first day is
    accepted, the other six find nothing new. *)
Lemma final_plan_within_tolerance_witness :
  solver_sound brute_force /\
  exists evs w',
    week brute_force 60 catalog3 targets3 [] [accept] (start tt) = Ret (cleared, evs, w') /\
    exists plan cost,
      last evs = Some (FinalPlan plan cost) /\
      forall p, p ∈ plan ->
        (diet p = None /\ total_cost p = 0) \/
        exists rows,
          diet p = Some rows /\
          text_within (format_diet_text rows targets3 (total_cost p) (day p)) /\
          total_cost p == diet_sum price rows.
Proof.
  split; [exact brute_force_sound|].
  eexists _, _.
  assert (Hrun : week brute_force 60 catalog3 targets3 [] [accept] (start tt)
                 = Ret (cleared, ?[evs], ?[w'])) by (vm_compute; reflexivity).
  split; [exact Hrun|].
  exact (final_plan_within_tolerance brute_force _ _ _ _ _ _ _ _ brute_force_sound Hrun).
Defined.

(** The same session: the cheaper of the two solutions of the first search
    is proposed, the other one never. *)
Lemma only_first_solution_shown_witness :
  exists s evs w',
    week brute_force 60 catalog3 targets3 [] [reject] (start tt) = Ret (s, evs, w') /\
    (forall j d sol, evs !! j = Some (Proposed d sol) ->
       exists j' before rest after,
         j = S j' /\ evs !! j' = Some (Searched d before (sol :: rest) after)) /\
    (forall i d before first rest after,
       evs !! i = Some (Searched d before (first :: rest) after) ->
       forall other, other ∈ rest ->
       forall j d' sol, evs !! j = Some (Proposed d' sol) -> ids sol <> ids other).
Proof.
  eexists _, _, _.
  assert (Hrun : week brute_force 60 catalog3 targets3 [] [reject] (start tt)
                 = Ret (?[s], ?[evs], ?[w'])) by (vm_compute; reflexivity).
  split; [exact Hrun|].
  exact (only_first_solution_shown brute_force _ _ _ _ _ _ _ _ _ Hrun).
Defined.

(** Thirty-five rejections with the scripted solver. *)
Lemma session_ends_within_35_answers_witness :
  (attempt_limit + 8 <= 60)%nat /\
  all_priced (exclude [] catalog8) /\
  exists s evs w',
    week alternating 60 catalog8 targets3 [] (replicate 35 reject) (start 0%nat)
      = Ret (s, evs, w') /\
    s = cleared.
Proof.
  assert (Hfuel : (attempt_limit + 8 <= 60)%nat) by (unfold attempt_limit; lia).
  assert (Hpriced : all_priced (exclude [] catalog8)) by (repeat constructor).
  destruct (session_ends_within_35_answers alternating 60 catalog8 targets3 []
              (replicate 35 reject) (start 0%nat) Hfuel) as (_ & Htotal & Hover).
  destruct (Htotal Hpriced) as (s & evs & w' & Hweek).
  split; [exact Hfuel|]. split; [exact Hpriced|].
  exists s, evs, w'. split; [exact Hweek|].
  apply (Hover _ _ _ Hweek). rewrite length_replicate. lia.
Defined.

(** A man who knows his body fat has answered everything but the
    exclusions. *)
Lemma stored_values_in_range_witness :
  exists b rs w',
    form.run alternating samples.float samples.first_int samples.log10 60
      samples.man_with_body_fat (form.init []) (start 0%nat) = form.Done (b, rs, w') /\
    form.state b = Some form.Form.excluded_products /\
    form.weight (form.data b) = Some 80 /\
    data_ok (form.data b).
Proof.
  eexists _, _, _.
  assert (Hrun : form.run alternating samples.float samples.first_int samples.log10 60
                   samples.man_with_body_fat (form.init []) (start 0%nat)
                 = form.Done (?[b], ?[rs], ?[w'])) by (vm_compute; reflexivity).
  split; [exact Hrun|]. split; [reflexivity|]. split; [reflexivity|].
  exact (stored_values_in_range alternating samples.float samples.first_int samples.log10
           _ _ _ _ _ _ _ Hrun).
Defined.

(** The same man sends no exclusions: the first day is proposed. *)
Lemma plan_targets_from_lean_mass_witness :
  exists b rs w' wd,
    form.run alternating samples.float samples.first_int samples.log10 60
      (samples.man_with_body_fat ++ [samples.sends lit.net]) (form.init []) (start 0%nat)
      = form.Done (b, rs, w') /\
    form.week (form.data b) = Some wd /\
    form.state b = Some form.Form.reviewing_day /\
    planned (form.data b) wd /\
    42 <= proteins_target (handlers.targets wd) /\
    30 <= fats_target (handlers.targets wd) /\
    0 <= carbs_target (handlers.targets wd) /\
    444 <= daily_calories (handlers.targets wd).
Proof.
  eexists _, _, _, _.
  assert (Hrun : form.run alternating samples.float samples.first_int samples.log10 60
                   (samples.man_with_body_fat ++ [samples.sends lit.net]) (form.init [])
                   (start 0%nat)
                 = form.Done (?[b], ?[rs], ?[w'])) by (vm_compute; reflexivity).
  match type of Hrun with
  | _ = form.Done (?b, _, _) =>
      assert (Hweek : form.week (form.data b) = Some ?[wd]) by reflexivity
  end.
  split; [exact Hrun|]. split; [exact Hweek|].
  exact (plan_targets_from_lean_mass alternating samples.float samples.first_int samples.log10
           _ _ _ _ _ _ _ _ Hrun Hweek).
Defined.

(** A woman who does not know her body fat is asked for her hips; her
    entry empties the storage. *)
Lemma hip_entry_wipes_data_witness :
  exists b rs w',
    form.run alternating samples.float samples.first_int samples.log10 60
      samples.woman_to_hip (form.init []) (start 0%nat) = form.Done (b, rs, w') /\
    form.state b = Some form.Form.hip /\
    form.gender (form.data b) = Some lit.female /\
    form.handle alternating samples.float samples.first_int samples.log10 60 samples.day100
      (form.Message samples.says.n95) b w'
      = form.Done (form.goto form.Form.activity_level form.empty b,
                   [form.BodyFatFailed; form.Ask form.Form.activity_level], w') /\
    (form.handle alternating samples.float samples.first_int samples.log10 60 samples.day100
       (form.Message samples.says.n95) b w'
       = form.Done (b, [form.Invalid form.Form.hip], w') \/
     form.handle alternating samples.float samples.first_int samples.log10 60 samples.day100
       (form.Message samples.says.n95) b w'
       = form.Done (form.goto form.Form.activity_level form.empty b,
                    [form.BodyFatFailed; form.Ask form.Form.activity_level], w') /\
     stuck (form.goto form.Form.activity_level form.empty b)).
Proof.
  eexists _, _, _.
  assert (Hrun : form.run alternating samples.float samples.first_int samples.log10 60
                   samples.woman_to_hip (form.init []) (start 0%nat)
                 = form.Done (?[b], ?[rs], ?[w'])) by (vm_compute; reflexivity).
  match type of Hrun with
  | _ = form.Done (?b, _, _) =>
      assert (Hs : form.state b = Some form.Form.hip) by reflexivity
  end.
  split; [exact Hrun|]. split; [exact Hs|]. split; [reflexivity|].
  split; [vm_compute; reflexivity|].
  exact (hip_entry_wipes_data alternating samples.float samples.first_int samples.log10
           _ _ _ _ _ _ _ samples.day100 samples.says.n95 _ Hrun Hs).
Defined.

(** With nothing stored, the buttons and the exclusions lead to the
    missing weight. *)
Lemma wiped_data_never_planned_witness :
  let b := form.goto form.Form.activity_level form.empty (form.init []) in
  let updates := [ samples.presses lit.activity_light; samples.presses lit.goal_lose_weight;
                   samples.sends lit.net ] in
  stuck b /\
  Forall (fun eu => is_start (snd eu) = false) updates /\
  form.run alternating samples.float samples.first_int samples.log10 60 updates b (start 0%nat)
    = form.Raised (form.KeyError lit.weight) /\
  (form.run alternating samples.float samples.first_int samples.log10 60 updates b (start 0%nat)
     = form.Raised (form.KeyError lit.weight) \/
   exists b' rs,
     form.run alternating samples.float samples.first_int samples.log10 60 updates b
       (start 0%nat) = form.Done (b', rs, start 0%nat) /\
     stuck b' /\ Forall (fun r => of_week r = false) rs).
Proof.
  cbv zeta.
  assert (H1 : stuck (form.goto form.Form.activity_level form.empty (form.init [])))
    by (split; [reflexivity|]; cbn; split; [left|reflexivity]).
  assert (H2 : Forall (fun eu => is_start (snd eu) = false)
                 [ samples.presses lit.activity_light; samples.presses lit.goal_lose_weight;
                   samples.sends lit.net ]) by (repeat constructor).
  split; [exact H1|]. split; [exact H2|]. split; [vm_compute; reflexivity|].
  exact (wiped_data_never_planned alternating samples.float samples.first_int samples.log10
           60 _ _ (start 0%nat) H1 H2).
Defined.

(** A man with a waist of 40 and a neck of 45. *)
Lemma narrow_waist_wipes_data_witness :
  exists b rs w',
    form.run alternating samples.float samples.first_int samples.log10 60
      samples.man_to_neck (form.init []) (start 0%nat) = form.Done (b, rs, w') /\
    form.state b = Some form.Form.neck /\
    form.gender (form.data b) = Some lit.male /\
    form.waist (form.data b) = Some 40 /\
    form.read_float samples.float samples.says.n45 (form.between 10 100) = Some 45 /\
    40 <= 45 /\
    form.handle alternating samples.float samples.first_int samples.log10 60 samples.day100
      (form.Message samples.says.n45) b w'
      = form.Done (form.goto form.Form.activity_level form.empty b,
                   [form.BodyFatFailed; form.Ask form.Form.activity_level], w') /\
    stuck (form.goto form.Form.activity_level form.empty b).
Proof.
  eexists _, _, _.
  assert (Hrun : form.run alternating samples.float samples.first_int samples.log10 60
                   samples.man_to_neck (form.init []) (start 0%nat)
                 = form.Done (?[b], ?[rs], ?[w'])) by (vm_compute; reflexivity).
  match type of Hrun with
  | _ = form.Done (?b, _, _) =>
      assert (H1 : form.state b = Some form.Form.neck) by reflexivity;
      assert (H2 : form.gender (form.data b) = Some lit.male) by reflexivity;
      assert (H3 : form.waist (form.data b) = Some 40) by reflexivity
  end.
  assert (H4 : form.read_float samples.float samples.says.n45 (form.between 10 100) = Some 45)
    by (vm_compute; reflexivity).
  assert (H5 : 40 <= 45) by lra.
  split; [exact Hrun|]. split; [exact H1|]. split; [exact H2|]. split; [exact H3|].
  split; [exact H4|]. split; [exact H5|].
  exact (narrow_waist_wipes_data alternating samples.float samples.first_int samples.log10
           60 samples.day100 samples.says.n45 _ _ 40 45 H1 H2 H3 H4 H5).
Defined.

(** The man of above is asked for his neck and sends a photo. *)
Lemma conversation_failures_witness :
  let incoming := samples.arriving samples.man_to_neck ++ [samples.photo] in
  (attempt_limit + 8 <= 60)%nat /\
  form.converse alternating samples.float samples.first_int samples.log10 60 incoming
    (form.init []) (start 0%nat) = form.Raised form.AttributeError /\
  form.converse alternating samples.float samples.first_int samples.log10 60 incoming
    (form.init []) (start 0%nat) <> form.Starved /\
  forall e,
    form.converse alternating samples.float samples.first_int samples.log10 60 incoming
      (form.init []) (start 0%nat) = form.Raised e ->
    expected_failure e /\
    (e = form.AttributeError -> Exists (fun oi => snd oi = form.NoText \/ snd oi = form.NoData) incoming) /\
    (e = form.ScraperError ->
     Exists (fun oi => form.scraper_raises (fst oi) = true) incoming) /\
    (e = form.TypeError -> ~ Forall (fun oi => from_keyboard (snd oi)) incoming) /\
    (e = form.InWeek TypeError ->
     ~ (all_priced (database.load_products []) /\
        Forall (fun oi => all_priced (form.scraped (form.env (fst oi)))) incoming)).
Proof.
  cbv zeta.
  assert (Hfuel : (attempt_limit + 8 <= 60)%nat) by (unfold attempt_limit; lia).
  split; [exact Hfuel|]. split; [vm_compute; reflexivity|].
  exact (conversation_failures alternating samples.float samples.first_int samples.log10
           60 _ [] (start 0%nat) Hfuel).
Defined.

(** The man who knows his body fat excludes nothing on a day the scraper
    raises: the error of the scraper comes through. *)
Example scraper_failure_run :
  form.converse alternating samples.float samples.first_int samples.log10 60
    (samples.arriving samples.man_with_body_fat ++ [samples.net_scraper_down])
    (form.init []) (start 0%nat)
  = form.Raised form.ScraperError.
Proof. vm_compute. reflexivity. Qed.

(** The same man on a day the scraper delivers a row with no price and no
    nutrients: the first optimal solve of the week ends in [TypeError]. *)
Example unpriced_row_run :
  form.converse alternating samples.float samples.first_int samples.log10 60
    (samples.arriving samples.man_with_body_fat ++ [samples.net_water])
    (form.init []) (start 0%nat)
  = form.Raised (form.InWeek TypeError).
Proof. vm_compute. reflexivity. Qed.

(** The search itself on that catalog. *)
Example unpriced_row_search :
  all_valued samples.catalog_water ∅ = false /\
  find_all_solutions alternating 50 samples.catalog_water targets3 [] ∅ (Some 1%nat)
    (start 0%nat)
  = Raise TypeError.
Proof. split; vm_compute; reflexivity. Qed.

(** The three-item catalog saved on day 100 and looked at on day 108. *)
Lemma saved_table_is_fresh_witness :
  catalog3 <> [] /\
  database.load_products (database.save_products 100 catalog3 []) = catalog3 /\
  (database.needs_update 108 (database.save_products 100 catalog3 []) = true
   <-> (100 + 7 < 108)%Z).
Proof.
  assert (Hne : catalog3 <> []) by discriminate.
  destruct (saved_table_is_fresh 100 108 catalog3 []) as (Hload & Hdue & _).
  split; [exact Hne|]. split; [exact Hload|]. exact (Hdue Hne).
Defined.

(** The message [A,] on the three-item catalog. *)
Lemma trailing_comma_fails_week_witness :
  solver_sound brute_force /\
  Forall (fun p => is_Some (name p)) catalog3 /\
  0 < daily_calories targets3 /\
  (9 <= 60)%nat /\
  samples.says.a_comma = [65%N] ++ [lit.comma] /\
  form.parse_excluded samples.says.a_comma = [[65%N]; []] /\
  exclude (form.parse_excluded ([65%N] ++ [lit.comma])) catalog3 = [] /\
  exists evs w' cost,
    handlers.week brute_force 60 catalog3 targets3 (form.parse_excluded ([65%N] ++ [lit.comma]))
      [] (start tt) = Ret (handlers.cleared, evs, w') /\
    last evs = Some (handlers.FinalPlan (failed_days 1 7) cost) /\
    Forall (fun e => forall d sol, e <> handlers.Proposed d sol) evs.
Proof.
  assert (H1 : Forall (fun p => is_Some (name p)) catalog3) by (repeat constructor; by eexists).
  assert (H2 : 0 < daily_calories targets3) by reflexivity.
  assert (H3 : (9 <= 60)%nat) by lia.
  split; [exact brute_force_sound|]. split; [exact H1|]. split; [exact H2|].
  split; [exact H3|]. split; [reflexivity|]. split; [vm_compute; reflexivity|].
  exact (proj2 (trailing_comma_fails_week brute_force brute_force_sound 60 catalog3 targets3
                  [65%N] [] (start tt) H1 H2 H3)).
Defined.

(** The targets of a man of 80 kg who wants to lose weight. *)
Lemma targets_energy_balance_witness :
  exists t,
    form.week samples.answers_lose_weight = None /\
    form.daily_targets samples.answers_lose_weight = form.Done t /\
    form.goal samples.answers_lose_weight = Some lit.lose_weight /\
    calorie_shift lit.lose_weight = -500 /\
    0 <= carbs_target t /\
    daily_calories t + calorie_shift lit.lose_weight <= macro_calories t /\
    (0 < carbs_target t ->
     macro_calories t == daily_calories t + calorie_shift lit.lose_weight).
Proof.
  eexists.
  assert (Ht : form.daily_targets samples.answers_lose_weight = form.Done ?[t])
    by (vm_compute; reflexivity).
  split; [reflexivity|]. split; [exact Ht|]. split; [reflexivity|]. split; [reflexivity|].
  exact (targets_energy_balance samples.answers_lose_weight _ lit.lose_weight
           eq_refl Ht eq_refl).
Defined.

(** The same targets on a catalog of one row with 165 kcal for 10 g of
    protein, 5 g of fat and 20 g of carbohydrate. *)
Lemma shifted_goal_unreachable_witness :
  exists t,
    form.week samples.answers_lose_weight = None /\
    form.daily_targets samples.answers_lose_weight = form.Done t /\
    form.goal samples.answers_lose_weight = Some lit.lose_weight /\
    atwater samples.catalog_atwater /\
    0 < carbs_target t /\
    daily_calories t < 5250 /\
    unreachable samples.catalog_atwater t.
Proof.
  eexists.
  assert (Ht : form.daily_targets samples.answers_lose_weight = form.Done ?[t])
    by (vm_compute; reflexivity).
  assert (H1 : atwater samples.catalog_atwater) by (repeat constructor).
  match type of Ht with
  | _ = form.Done ?t =>
      assert (H2 : 0 < carbs_target t) by reflexivity;
      assert (H3 : daily_calories t < 5250) by reflexivity
  end.
  split; [reflexivity|]. split; [exact Ht|]. split; [reflexivity|]. split; [exact H1|].
  split; [exact H2|]. split; [exact H3|].
  exact (shifted_goal_unreachable samples.answers_lose_weight _ lit.lose_weight
           samples.catalog_atwater eq_refl Ht eq_refl H1 H2 (or_introl (conj eq_refl H3))).
Defined.

(** The first button of each keyboard, pressed at its step. *)
Lemma keyboard_buttons_move_on_witness :
  let at_step s := form.goto s form.empty (form.init []) in
  (exists gender,
     (gender = lit.male \/ gender = lit.female) /\
     form.handle alternating samples.float samples.first_int samples.log10 60 samples.day100
       (form.CallbackQuery lit.gender_male) (at_step form.Form.gender) (start 0%nat)
       = form.Done (form.goto form.Form.body_fat_known
                      (form.set_gender gender (form.data (at_step form.Form.gender)))
                      (at_step form.Form.gender),
                    [form.Ask form.Form.body_fat_known], start 0%nat)) /\
  (exists level multiplier,
     dict_get level formulas.activity_multipliers = Some multiplier /\
     form.handle alternating samples.float samples.first_int samples.log10 60 samples.day100
       (form.CallbackQuery lit.activity_sedentary) (at_step form.Form.activity_level)
       (start 0%nat)
       = form.Done (form.goto form.Form.goal
                      (form.set_activity_level level
                         (form.data (at_step form.Form.activity_level)))
                      (at_step form.Form.activity_level),
                    [form.Ask form.Form.goal], start 0%nat)).
Proof.
  cbv zeta. split.
  - apply (proj1 (keyboard_buttons_move_on alternating samples.float samples.first_int
                    samples.log10 60 samples.day100
                    (form.goto form.Form.gender form.empty (form.init [])) (start 0%nat)
                    lit.gender_male)); [reflexivity|left].
  - apply (proj1 (proj2 (proj2 (keyboard_buttons_move_on alternating samples.float
                    samples.first_int samples.log10 60 samples.day100
                    (form.goto form.Form.activity_level form.empty (form.init []))
                    (start 0%nat) lit.activity_sedentary)))); [reflexivity|left].
Defined.

(** The man of above sends no exclusions while the table is empty: the
    scraped catalog is saved and becomes the catalog of the week. *)
Lemma plan_catalog_from_table_witness :
  exists b rs w b' rs' w',
    form.run alternating samples.float samples.first_int samples.log10 60
      samples.man_with_body_fat (form.init []) (start 0%nat) = form.Done (b, rs, w) /\
    form.process_excluded_products alternating 60 samples.day100 lit.net b w
      = form.Done (b', rs', w') /\
    form.db b' = database.save_products 100 catalog8 [] /\
    (rs' = [form.Thanks; form.NoProducts] /\ b' = form.clear b /\
       database.needs_update (form.today samples.day100) (form.db b) = true /\
       form.scraped samples.day100 = []
     \/
     database.needs_update (form.today samples.day100) (form.db b') = false /\
       database.load_products (form.db b') <> [] /\
       (database.needs_update (form.today samples.day100) (form.db b) = true ->
        form.db b' = database.save_products (form.today samples.day100)
                       (form.scraped samples.day100) (form.db b)) /\
       (database.needs_update (form.today samples.day100) (form.db b) = false ->
        form.db b' = form.db b) /\
       forall wd, form.week (form.data b') = Some wd ->
         handlers.products_df wd = database.load_products (form.db b') /\
         handlers.excluded_products wd = form.parse_excluded lit.net).
Proof.
  eexists _, _, _, _, _, _.
  assert (Hrun : form.run alternating samples.float samples.first_int samples.log10 60
                   samples.man_with_body_fat (form.init []) (start 0%nat)
                 = form.Done (?[b], ?[rs], ?[w])) by (vm_compute; reflexivity).
  match type of Hrun with
  | _ = form.Done (?b, _, ?w) =>
      assert (Hstep : form.process_excluded_products alternating 60 samples.day100 lit.net b w
                      = form.Done (?[b'], ?[rs'], ?[w'])) by (vm_compute; reflexivity)
  end.
  split; [exact Hrun|]. split; [exact Hstep|]. split; [vm_compute; reflexivity|].
  exact (plan_catalog_from_table alternating 60 samples.day100 lit.net _ _ _ _ _ Hstep).
Defined.
